(** * The document indexing handler of [generate_embeddings/main.py]

    A shallow embedding of [set_doc_status] and [lambda_handler], together
    with the stores they talk to (the S3 bucket, the DynamoDB document table
    and the local [/tmp] directory), in an error-and-state monad that keeps
    the chronological list of the calls the handler makes. *)

From Stdlib Require Import Ascii String.
From stdpp Require Import base option list gmap strings.

Local Open Scope string_scope.
Local Open Scope list_scope.

(** ** Python values and exceptions *)

Definition bytes := string.

(** An exception as the handler can see one: the built-in errors of the
    subscripting and decoding steps, the [ClientError] of boto3 with its error
    code, and the errors of the libraries behind the loader, the embedder and
    the index builder, which are known by name only. *)
Inductive exn :=
  | IndexError
  | KeyError (key : string)
  | TypeError
  | JSONDecodeError
  | FileNotFoundError (path : string)
  | ClientError (code : string)
  | LibraryError (name : string).

(** A value stored in the decoded message body: a [str], or anything else,
    kept with the text an f-string renders it to. *)
Inductive pyval :=
  | PyStr (s : string)
  | PyOther (rendering : string).

(** The result of [json.loads]: a [dict], or a value that is not one. *)
Inductive decoded :=
  | DDict (items : gmap string pyval)
  | DOther.

(** [d[k]] on a decoded body. *)
Definition getitem (d : decoded) (k : string) : exn + pyval :=
  match d with
  | DDict items =>
      match items !! k with
      | Some v => inr v
      | None => inl (KeyError k)
      end
  | DOther => inl TypeError
  end.

(** [f"{v}"]. *)
Definition format_value (v : pyval) : string :=
  match v with
  | PyStr s => s
  | PyOther rendering => rendering
  end.

(** ** String operations of the loop body *)

Definition lower_ascii (c : ascii) : ascii :=
  let n := nat_of_ascii c in
  if (65 <=? n)%nat && (n <=? 90)%nat then ascii_of_nat (n + 32) else c.

(** [s.lower()]; bytes outside [A-Z] are left as they are. *)
Fixpoint lower (s : string) : string :=
  match s with
  | EmptyString => EmptyString
  | String c r => String (lower_ascii c) (lower r)
  end.

(** [s.endswith(suffix)]. *)
Fixpoint endswith (s suffix : string) : bool :=
  if String.eqb s suffix then true
  else match s with
       | EmptyString => false
       | String _ r => endswith r suffix
       end.

(** [s.split(sep)] for a one-character separator: never the empty list. *)
Fixpoint split (sep : ascii) (s : string) : list string :=
  match s with
  | EmptyString => [EmptyString]
  | String c r =>
      if Ascii.eqb c sep then EmptyString :: split sep r
      else match split sep r with
           | [] => [String c EmptyString]
           | h :: t => String c h :: t
           end
  end.

(** [key.lower().endswith('.pdf')] *)
Definition is_pdf (key : string) : bool := endswith (lower key) ".pdf".

(** [key.split('/')[-1]] *)
Definition file_name_full (key : string) : string :=
  List.last (split "/" key) EmptyString.

(** [f"/tmp/{file_name_full}"] *)
Definition scratch_path (key : string) : string :=
  "/tmp/" +:+ file_name_full key.

(** ** The world of the handler *)

(** One call made by the handler, with its arguments. *)
Inductive call :=
  | ListObjectsV2
  | UpdateItem (userid documentid : pyval) (docstatus : string)
  | DownloadFile (key filename : string)
  | LoaderLoad (path : string)
  | EmbedDocuments (texts : list string)
  | BuildIndex
  | WriteLocal (path : string)
  | UploadFile (filename key : string).

(** The bucket keeps its objects in listing order; the table maps the key
    [(userid, documentid)] to the other attributes of the item. *)
Record World := mkWorld {
  bucket : list (string * bytes);
  table : gmap (string * string) (gmap string string);
  tmp : gmap string bytes;
  trace : list call
}.

Definition log (c : call) (w : World) : World :=
  mkWorld (bucket w) (table w) (tmp w) (trace w ++ [c]).

Definition set_table (t : gmap (string * string) (gmap string string))
    (w : World) : World :=
  mkWorld (bucket w) t (tmp w) (trace w).

Definition set_tmp (f : gmap string bytes) (w : World) : World :=
  mkWorld (bucket w) (table w) f (trace w).

Definition set_bucket (b : list (string * bytes)) (w : World) : World :=
  mkWorld b (table w) (tmp w) (trace w).

(** [PutObject]: an existing key is overwritten in place, a new key takes its
    place in the lexicographic order of the listing. *)
Fixpoint s3_put (key : string) (body : bytes) (objs : list (string * bytes))
    : list (string * bytes) :=
  match objs with
  | [] => [(key, body)]
  | (k, b) :: rest =>
      match String.compare key k with
      | Eq => (key, body) :: rest
      | Lt => (key, body) :: (k, b) :: rest
      | Gt => (k, b) :: s3_put key body rest
      end
  end.

Fixpoint s3_get (key : string) (objs : list (string * bytes)) : option bytes :=
  match objs with
  | [] => None
  | (k, b) :: rest => if String.eqb key k then Some b else s3_get key rest
  end.

(** [list_objects_v2] is called without a continuation token: one page. *)
Definition MaxKeys : nat := 1000.

Arguments MaxKeys : simpl never.

Record object_summary := { Key : string }.

(** The response of [list_objects_v2]: the entry ['Contents'] is absent when
    no key is returned. *)
Record list_response := { Contents : option (list object_summary) }.

(** A page of a loaded document, as the PDF loader returns it. *)
Record Document := {
  page_content : string;
  source : string;
  page : nat
}.

(** ** The libraries behind the handler

    The PDF parser, the text splitter, the embedding model, the index builder
    and its serializer, and the JSON decoder are not part of the repository:
    they are parameters.  [fault] says which calls fail for a reason of their
    own (network, throttling, storage): the call made when [n] calls are on
    the trace raises [fault n] when that is an exception.

    A record describes the libraries during one invocation.  What the index
    builder draws on its own (the identifiers of its document store) is part
    of the index it returns; a later invocation has a record of its own, and
    nothing makes the two build the same index. *)
Record Services (Vec Index : Type) := {
  json_loads : string -> exn + decoded;
  pdf_pages : bytes -> exn + list string;
  split_documents : list Document -> list Document;
  embed_documents : list string -> exn + list Vec;
  faiss_build : list Document -> list Vec -> exn + Index;
  serialize : Index -> bytes * bytes;
  fault : nat -> option exn
}.

Arguments json_loads {Vec Index}.
Arguments pdf_pages {Vec Index}.
Arguments split_documents {Vec Index}.
Arguments embed_documents {Vec Index}.
Arguments faiss_build {Vec Index}.
Arguments serialize {Vec Index}.
Arguments fault {Vec Index}.

(** ** The monad: exceptions over the state of the world *)

Definition M (A : Type) : Type := World -> (exn + A) * World.

Definition ret {A} (a : A) : M A := fun w => (inr a, w).

Definition raise {A} (e : exn) : M A := fun w => (inl e, w).

Definition bind {A B} (m : M A) (f : A -> M B) : M B :=
  fun w =>
    match m w with
    | (inl e, w1) => (inl e, w1)
    | (inr a, w1) => f a w1
    end.

Definition lift {A} (r : exn + A) : M A :=
  match r with
  | inl e => raise e
  | inr a => ret a
  end.

Definition get : M World := fun w => (inr w, w).

Definition modify (f : World -> World) : M unit := fun w => (inr tt, f w).

Declare Scope py_scope.
Delimit Scope py_scope with py.
Notation "x <- m ;; k" := (bind m (fun x => k))
  (at level 100, m at next level, right associativity) : py_scope.
Notation "m ;;; k" := (bind m (fun _ => k))
  (at level 100, right associativity) : py_scope.
Local Open Scope py_scope.

(** The event record of the queue: the handler reads its ["body"]. *)
Record sqs_record := { body : string }.

(** [event["Records"]] *)
Definition Event := list sqs_record.

Section Handler.

Context {Vec Index : Type}.
Variable sv : Services Vec Index.

(** Every call is recorded, then fails if the oracle says so. *)
Definition invoke (c : call) : M unit :=
  fun w =>
    match fault sv (length (trace w)) with
    | Some e => (inl e, log c w)
    | None => (inr tt, log c w)
    end.

(** [s3.list_objects_v2(Bucket=BUCKET)] *)
Definition list_objects_v2 : M list_response :=
  invoke ListObjectsV2;;;
  w <- get;;
  match take MaxKeys (bucket w) with
  | [] => ret {| Contents := None |}
  | objs => ret {| Contents := Some (map (fun o => {| Key := o.1 |}) objs) |}
  end.

(** Modelled from the spec: the key schema of the document table, which is
    declared outside this file.  Records are keyed by (owner, document-id),
    two text identifiers; the service rejects a key attribute of any other
    type. *)
Definition table_key (userid documentid : pyval) : option (string * string) :=
  match userid, documentid with
  | PyStr u, PyStr d => Some (u, d)
  | _, _ => None
  end.

(** [SET docstatus = :docstatus] on the item of a key: [UpdateItem] edits the
    item, or adds it when the table has none for the key. *)
Definition set_docstatus (k : string * string) (status : string)
    (t : gmap (string * string) (gmap string string))
    : gmap (string * string) (gmap string string) :=
  <[k := <["docstatus" := status]> (default ∅ (t !! k))]> t.

(** [document_table.update_item(Key=..., UpdateExpression="SET docstatus =
    :docstatus", ExpressionAttributeValues=...)]: no condition expression. *)
Definition update_item (userid documentid : pyval) (docstatus : string)
    : M unit :=
  invoke (UpdateItem userid documentid docstatus);;;
  match table_key userid documentid with
  | Some k => modify (fun w => set_table (set_docstatus k docstatus (table w)) w)
  | None => raise (ClientError "ValidationException")
  end.

Definition set_doc_status (user_id document_id : pyval) (status : string)
    : M unit :=
  update_item user_id document_id status.

(** [s3.download_file(BUCKET, key, filename)] *)
Definition download_file (key filename : string) : M unit :=
  invoke (DownloadFile key filename);;;
  w <- get;;
  match s3_get key (bucket w) with
  | Some b => modify (fun w => set_tmp (<[filename := b]> (tmp w)) w)
  | None => raise (ClientError "404")
  end.

(** [s3.upload_file(filename, BUCKET, key)] *)
Definition upload_file (filename key : string) : M unit :=
  invoke (UploadFile filename key);;;
  w <- get;;
  match tmp w !! filename with
  | Some b => modify (fun w => set_bucket (s3_put key b (bucket w)) w)
  | None => raise (FileNotFoundError filename)
  end.

(** [PyPDFLoader(path)] keeps the path; the file is read by [load()]. *)
Definition PyPDFLoader (path : string) : string := path.

(** [loader.load()]: one document per page, numbered from 0. *)
Definition loader_load (loader : string) : M (list Document) :=
  invoke (LoaderLoad loader);;;
  w <- get;;
  match tmp w !! loader with
  | None => raise (FileNotFoundError loader)
  | Some b =>
      pages <- lift (pdf_pages sv b);;
      ret (imap (fun i text =>
                   {| page_content := text; source := loader; page := i |})
                pages)
  end.

(** The loop of [from_loaders]: [docs.extend(loader.load())]. *)
Fixpoint load_all (loaders : list string) (docs : list Document)
    : M (list Document) :=
  match loaders with
  | [] => ret docs
  | loader :: rest =>
      loaded <- loader_load loader;;
      load_all rest (docs ++ loaded)
  end.

(** [index_creator.from_loaders(loaders)]: load, split, embed, build. *)
Definition from_loaders (loaders : list string) : M Index :=
  docs <- load_all loaders [];;
  let sub_docs := split_documents sv docs in
  let texts := map page_content sub_docs in
  invoke (EmbedDocuments texts);;;
  vectors <- lift (embed_documents sv texts);;
  invoke BuildIndex;;;
  lift (faiss_build sv sub_docs vectors).

Definition write_local (path : string) (b : bytes) : M unit :=
  invoke (WriteLocal path);;;
  modify (fun w => set_tmp (<[path := b]> (tmp w)) w).

(** [vectorstore.save_local("/tmp")] writes the two files of the index. *)
Definition save_local (index : Index) (folder : string) : M unit :=
  let '(geometry, metadata) := serialize sv index in
  write_local (folder +:+ "/index.faiss") geometry;;;
  write_local (folder +:+ "/index.pkl") metadata.

(** [event["Records"][0]] *)
Definition first_record (event : Event) : M sqs_record :=
  match event with
  | [] => raise IndexError
  | r :: _ => ret r
  end.

(** The [for file in response['Contents']] loop. *)
Fixpoint stage_files (contents : list object_summary) (loaders : list string)
    : M (list string) :=
  match contents with
  | [] => ret loaders
  | file :: rest =>
      let key := Key file in
      if negb (is_pdf key) then stage_files rest loaders
      else
        download_file key (scratch_path key);;;
        let loader := PyPDFLoader (scratch_path key) in
        stage_files rest (loaders ++ [loader])
  end.

(** The handler returns the message of line 54, or [None].  The clients and
    the objects built on lines 77 to 92 (the Bedrock client, the embeddings,
    the index creator) touch no store: they are the services [sv]. *)
Definition lambda_handler (event : Event) : M (option string) :=
  response <- list_objects_v2;;
  match Contents response with
  | None => ret (Some "No files found in the bucket.")
  | Some contents =>
      record <- first_record event;;
      event_body <- lift (json_loads sv (body record));;
      document_id <- lift (getitem event_body "documentid");;
      user_id <- lift (getitem event_body "user");;
      set_doc_status user_id document_id "PROCESSING";;;
      loaders <- stage_files contents [];;
      index_from_loader <- from_loaders loaders;;
      save_local index_from_loader "/tmp";;;
      upload_file "/tmp/index.faiss" (format_value user_id +:+ "/index.faiss");;;
      upload_file "/tmp/index.pkl" (format_value user_id +:+ "/index.pkl");;;
      set_doc_status user_id document_id "READY";;;
      ret None
  end.

End Handler.

Arguments set_docstatus : simpl never.

(** ** Observations on a run *)

(** The status attribute of the record of a key, if the record has one. *)
Definition docstatus (w : World) (k : string * string) : option string :=
  item ← table w !! k; item !! "docstatus".

(** The calls a run added to the trace it started from. *)
Definition calls_since (w w' : World) : list call :=
  drop (length (trace w)) (trace w').

Definition is_listing (c : call) : bool :=
  match c with ListObjectsV2 => true | _ => false end.

Definition is_fetch (c : call) : bool :=
  match c with DownloadFile _ _ => true | _ => false end.

Definition is_upload (c : call) : bool :=
  match c with UploadFile _ _ => true | _ => false end.

(** The calls of loading, embedding, building and saving the index. *)
Definition is_build (c : call) : bool :=
  match c with
  | LoaderLoad _ | EmbedDocuments _ | BuildIndex | WriteLocal _ => true
  | _ => false
  end.

Definition is_load (c : call) : bool :=
  match c with LoaderLoad _ => true | _ => false end.

Definition is_write_local (c : call) : bool :=
  match c with WriteLocal _ => true | _ => false end.

(** The calls of the stages between the two status writes. *)
Definition is_stage (c : call) : bool :=
  is_fetch c || is_build c || is_upload c.

(** The batches of texts a list of calls hands to the embedder. *)
Definition embedded (cs : list call) : list (list string) :=
  omap (fun c => match c with EmbedDocuments texts => Some texts | _ => None end)
    cs.

(** The status values a list of calls asks the table to store. *)
Definition statuses (cs : list call) : list string :=
  omap (fun c => match c with UpdateItem _ _ s => Some s | _ => None end) cs.

(** The keys a list of calls fetches from the bucket. *)
Definition fetched (cs : list call) : list string :=
  omap (fun c => match c with DownloadFile k _ => Some k | _ => None end) cs.

(** The keys of one page of the listing, and the ones the loop keeps. *)
Definition listed (w : World) : list string :=
  map fst (take MaxKeys (bucket w)).

Definition pdf_keys (keys : list string) : list string :=
  List.filter is_pdf keys.

Definition fetch_call (key : string) : call :=
  DownloadFile key (scratch_path key).

(** The owner's namespace of the bucket: the keys under [<owner>/]. *)
Definition in_namespace (owner key : string) : bool :=
  String.prefix (owner +:+ "/") key.

Definition geometry_key (u : string) : string := u +:+ "/index.faiss".
Definition metadata_key (u : string) : string := u +:+ "/index.pkl".

Section Readings.

Context {Vec Index : Type}.
Variable sv : Services Vec Index.

(** The (user, document-id) pair lines 56-58 read from an event. *)
Definition trigger (event : Event) : exn + (pyval * pyval) :=
  match event with
  | [] => inl IndexError
  | r :: _ =>
      match json_loads sv (body r) with
      | inl e => inl e
      | inr d =>
          match getitem d "documentid" with
          | inl e => inl e
          | inr document_id =>
              match getitem d "user" with
              | inl e => inl e
              | inr user_id => inr (user_id, document_id)
              end
          end
      end
  end.

(** What the loaders read from a scratch directory [files], in order: the
    result of the loop of [from_loaders] when no call fails on its own. *)
Fixpoint read_all (files : gmap string bytes) (loaders : list string)
    (docs : list Document) : exn + list Document :=
  match loaders with
  | [] => inr docs
  | loader :: rest =>
      match files !! loader with
      | None => inl (FileNotFoundError loader)
      | Some b =>
          match pdf_pages sv b with
          | inl e => inl e
          | inr pages =>
              read_all files rest
                (docs ++ imap (fun i text =>
                                 {| page_content := text;
                                    source := loader;
                                    page := i |}) pages)
          end
      end
  end.

(** Every batch of [cs] is the text of the documents read by [loaders] from
    [files], after splitting. *)
Definition embeds_from (files : gmap string bytes) (loaders : list string)
    (cs : list call) : Prop :=
  forall texts, texts ∈ embedded cs ->
    exists docs,
      read_all files loaders [] = inr docs /\
      texts = map page_content (split_documents sv docs).

(** Every call made between [w] and [w'] was accepted by its service. *)
Definition accepted (w w' : World) : Prop :=
  length (trace w) <= length (trace w') /\
  forall i, length (trace w) <= i -> i < length (trace w') -> fault sv i = None.

End Readings.

(** The scratch directory after the loop has fetched [keys] from [objs]:
    a later key with the same file name replaces the earlier file. *)
Definition staged (objs : list (string * bytes)) (keys : list string)
    (files : gmap string bytes) : gmap string bytes :=
  foldl (fun t k =>
           match s3_get k objs with
           | Some b => <[scratch_path k := b]> t
           | None => t
           end) files keys.

(** ** The exit points of the handler *)

(** A phase that touches neither the table nor the bucket and makes only
    calls of one kind. *)
Definition quiet (P : call -> bool) (w w' : World) : Prop :=
  table w' = table w /\ bucket w' = bucket w /\
  exists cs, trace w' = trace w ++ cs /\ forallb P cs = true.

(** What a run has done to the table, to the bucket and to the trace. *)
Definition run_shape (w w' : World)
    (t : gmap (string * string) (gmap string string))
    (objs : list (string * bytes)) (cs : list call) : Prop :=
  table w' = t /\ bucket w' = objs /\ trace w' = trace w ++ cs.

(** The first two calls of a run that reaches line 61. *)
Definition started (u d : string) : list call :=
  [ListObjectsV2; UpdateItem (PyStr u) (PyStr d) "PROCESSING"].

Definition upload_geometry (u : string) : call :=
  UploadFile "/tmp/index.faiss" (geometry_key u).

Definition upload_metadata (u : string) : call :=
  UploadFile "/tmp/index.pkl" (metadata_key u).

Section Outcomes.

Context {Vec Index : Type}.
Variable sv : Services Vec Index.

(** The batches of a run are read from the scratch directory as the loop of
    line 64 left it, by the loaders that loop made. *)
Definition embeds_staged (w : World) (cs : list call) : Prop :=
  embeds_from sv (staged (bucket w) (pdf_keys (listed w)) (tmp w))
    (map scratch_path (pdf_keys (listed w))) cs.

(** One constructor per place where [lambda_handler] can stop, with the
    result and the world it stops in. *)
Inductive Outcome (event : Event) (w : World)
    : exn + option string -> World -> Prop :=
  | listing_failed e :
      Outcome event w (inl e) (log ListObjectsV2 w)
  | no_files :
      listed w = [] ->
      Outcome event w (inr (Some "No files found in the bucket."))
        (log ListObjectsV2 w)
  | bad_event e :
      listed w <> [] ->
      trigger sv event = inl e ->
      Outcome event w (inl e) (log ListObjectsV2 w)
  | processing_failed user_id document_id e :
      listed w <> [] ->
      trigger sv event = inr (user_id, document_id) ->
      Outcome event w (inl e)
        (log (UpdateItem user_id document_id "PROCESSING")
           (log ListObjectsV2 w))
  | staging_failed u d e n w' :
      listed w <> [] ->
      trigger sv event = inr (PyStr u, PyStr d) ->
      run_shape w w' (set_docstatus (u, d) "PROCESSING" (table w)) (bucket w)
        (started u d ++ map fetch_call (take n (pdf_keys (listed w)))) ->
      Outcome event w (inl e) w'
  | build_failed u d e cs w' :
      listed w <> [] ->
      trigger sv event = inr (PyStr u, PyStr d) ->
      forallb is_build cs = true ->
      embeds_staged w cs ->
      run_shape w w' (set_docstatus (u, d) "PROCESSING" (table w)) (bucket w)
        (started u d ++ map fetch_call (pdf_keys (listed w)) ++ cs) ->
      Outcome event w (inl e) w'
  | geometry_upload_failed u d e cs w' :
      listed w <> [] ->
      trigger sv event = inr (PyStr u, PyStr d) ->
      forallb is_build cs = true ->
      embeds_staged w cs ->
      run_shape w w' (set_docstatus (u, d) "PROCESSING" (table w)) (bucket w)
        (started u d ++ map fetch_call (pdf_keys (listed w)) ++ cs ++
         [upload_geometry u]) ->
      Outcome event w (inl e) w'
  | metadata_upload_failed u d e cs g w' :
      listed w <> [] ->
      trigger sv event = inr (PyStr u, PyStr d) ->
      forallb is_build cs = true ->
      embeds_staged w cs ->
      run_shape w w' (set_docstatus (u, d) "PROCESSING" (table w))
        (s3_put (geometry_key u) g (bucket w))
        (started u d ++ map fetch_call (pdf_keys (listed w)) ++ cs ++
         [upload_geometry u; upload_metadata u]) ->
      Outcome event w (inl e) w'
  | ready_failed u d e cs g m w' :
      listed w <> [] ->
      trigger sv event = inr (PyStr u, PyStr d) ->
      forallb is_build cs = true ->
      embeds_staged w cs ->
      run_shape w w' (set_docstatus (u, d) "PROCESSING" (table w))
        (s3_put (metadata_key u) m (s3_put (geometry_key u) g (bucket w)))
        (started u d ++ map fetch_call (pdf_keys (listed w)) ++ cs ++
         [upload_geometry u; upload_metadata u;
          UpdateItem (PyStr u) (PyStr d) "READY"]) ->
      Outcome event w (inl e) w'
  | finished u d cs g m w' :
      listed w <> [] ->
      trigger sv event = inr (PyStr u, PyStr d) ->
      forallb is_build cs = true ->
      embeds_staged w cs ->
      run_shape w w'
        (set_docstatus (u, d) "READY"
           (set_docstatus (u, d) "PROCESSING" (table w)))
        (s3_put (metadata_key u) m (s3_put (geometry_key u) g (bucket w)))
        (started u d ++ map fetch_call (pdf_keys (listed w)) ++ cs ++
         [upload_geometry u; upload_metadata u;
          UpdateItem (PyStr u) (PyStr d) "READY"]) ->
      Outcome event w (inr None) w'.

End Outcomes.

(** ** In-memory stand-ins for the libraries, and a few worlds *)

Module Demo.

(** A decoder that knows the message of the test trigger: the body names
    document [d1] of user [u1]. *)
Definition decode (s : string) : exn + decoded :=
  if String.eqb s "u1 d1"
  then inr (DDict (<["documentid" := PyStr "d1"]>
                     (<["user" := PyStr "u1"]> ∅)))
  else inl JSONDecodeError.

(** One page per file, an embedding made of the length of the text, an index
    that pairs the documents with their vectors. *)
Definition services (f : nat -> option exn)
    : Services (list nat) (list (Document * list nat)) :=
  {| json_loads := decode;
     pdf_pages := fun b => inr [b];
     split_documents := fun docs => docs;
     embed_documents := fun texts => inr (map (fun t => [String.length t]) texts);
     faiss_build := fun docs vectors => inr (zip docs vectors);
     serialize := fun index => ("geometry", "metadata");
     fault := f |}.

Definition no_fault : nat -> option exn := fun _ => None.

(** The n-th call of the run fails with [e]. *)
Definition fault_at (n : nat) (e : exn) : nat -> option exn :=
  fun i => if Nat.eqb i n then Some e else None.

(** The same libraries, with an embedder that always refuses. *)
Definition rate_limited : Services (list nat) (list (Document * list nat)) :=
  {| json_loads := decode;
     pdf_pages := fun b => inr [b];
     split_documents := fun docs => docs;
     embed_documents := fun _ => inl (LibraryError "RateLimitedError");
     faiss_build := fun docs vectors => inr (zip docs vectors);
     serialize := fun index => ("geometry", "metadata");
     fault := no_fault |}.

Definition event : Event := [{| body := "u1 d1" |}].

Definition created : gmap (string * string) (gmap string string) :=
  {[ ("u1", "d1") := {[ "docstatus" := "CREATED" ]} ]}.

(** Two owners, each with a file named [a.pdf]. *)
Definition two_owners : World :=
  mkWorld [("u1/a.pdf", "first"); ("u2/a.pdf", "second"); ("u2/notes.txt", "text")]
    created ∅ [].

(** A bucket with no object at all. *)
Definition empty_bucket : World := mkWorld [] created ∅ [].

(** A bucket without any PDF. *)
Definition no_pdf : World := mkWorld [("u1/notes.txt", "text")] created ∅ [].

(** A table without the record of the trigger. *)
Definition no_record : World := mkWorld [] ∅ ∅ [].

(** An event of two records; the second one does not decode. *)
Definition batch : Event := [{| body := "u1 d1" |}; {| body := "junk" |}].

(** The world a run of the handler ends in. *)
Definition after {Vec Index : Type} (sv : Services Vec Index) (ev : Event)
    (w : World) : World :=
  (lambda_handler sv ev w).2.

End Demo.

(** ** More observations: records, scratch files, phases of a run *)

(** An attribute of the record of a key. *)
Definition attribute (w : World) (k : string * string) (a : string)
    : option string :=
  item ← table w !! k; item !! a.

(** No file of the scratch directory is removed between [w] and [w']. *)
Definition keeps_files (w w' : World) : Prop :=
  forall p, is_Some (tmp w !! p) -> is_Some (tmp w' !! p).

(** [m] relates every world to the world it ends in, whatever it returns. *)
Definition always {A} (R : World -> World -> Prop) (m : M A) : Prop :=
  forall w, R w (m w).2.

(** The calls of lines 94 and 96 in a run that succeeds: one load per
    loader, the embedding of [texts], the build, the two local files. *)
Definition build_calls (loaders : list string) (texts : list string)
    : list call :=
  map LoaderLoad loaders ++
  [EmbedDocuments texts; BuildIndex;
   WriteLocal "/tmp/index.faiss"; WriteLocal "/tmp/index.pkl"].

(** The calls of lines 98 to 104: the two uploads, then READY. *)
Definition publish_calls (u d : string) : list call :=
  [upload_geometry u; upload_metadata u; UpdateItem (PyStr u) (PyStr d) "READY"].

Section Building.

Context {Vec Index : Type}.
Variable sv : Services Vec Index.

(** What [from_loaders] makes of the documents it has loaded when no call is
    refused: the split documents are embedded, then the index is built; an
    error of the embedder or of the builder is the result. *)
Definition from_documents (docs : list Document) : exn + Index :=
  let sub_docs := split_documents sv docs in
  match embed_documents sv (map page_content sub_docs) with
  | inl e => inl e
  | inr vectors => faiss_build sv sub_docs vectors
  end.

(** What [from_loaders] returns on a scratch directory when no call is
    refused: the index of the documents read, or the first error. *)
Definition built (files : gmap string bytes) (loaders : list string)
    : exn + Index :=
  match read_all sv files loaders [] with
  | inl e => inl e
  | inr docs => from_documents docs
  end.

(** A refused call ends [m]: its error is the result of [m], and no call is
    made after it. *)
Definition ends_at_refusal {A} (m : M A) : Prop :=
  forall w r w', m w = (r, w') ->
    length (trace w) <= length (trace w') /\
    forall i e,
      length (trace w) <= i -> i < length (trace w') ->
      fault sv i = Some e ->
      r = inl e /\ length (trace w') = S i.

End Building.

(** More stand-ins: messages that decode to something the handler cannot
    use, a table with a second record and a second attribute, a scratch
    directory that is not empty. *)
Module Cases.

Definition decode (s : string) : exn + decoded :=
  if String.eqb s "u1 d1"
  then inr (DDict (<["documentid" := PyStr "d1"]>
                     (<["user" := PyStr "u1"]> ∅)))
  else if String.eqb s "only d1"
  then inr (DDict (<["documentid" := PyStr "d1"]> ∅))
  else if String.eqb s "empty object" then inr (DDict ∅)
  else if String.eqb s "a list" then inr DOther
  else inl JSONDecodeError.

Definition services : Services (list nat) (list (Document * list nat)) :=
  {| json_loads := decode;
     pdf_pages := fun b => inr [b];
     split_documents := fun docs => docs;
     embed_documents := fun texts => inr (map (fun t => [String.length t]) texts);
     faiss_build := fun docs vectors => inr (zip docs vectors);
     serialize := fun index => ("geometry", "metadata");
     fault := fun _ => None |}.

(** The same libraries with an index builder that, like a flat index sized
    by its first vector, has nothing to read the dimension from when it is
    given no vector at all. *)
Definition strict : Services (list nat) (list (Document * list nat)) :=
  {| json_loads := decode;
     pdf_pages := fun b => inr [b];
     split_documents := fun docs => docs;
     embed_documents := fun texts => inr (map (fun t => [String.length t]) texts);
     faiss_build := fun docs vectors =>
       match vectors with
       | [] => inl IndexError
       | _ :: _ => inr (zip docs vectors)
       end;
     serialize := fun index => ("geometry", "metadata");
     fault := fun _ => None |}.

Definition records : gmap (string * string) (gmap string string) :=
  {[ ("u1", "d1") := {[ "docstatus" := "CREATED"; "filename" := "a.pdf" ]};
     ("u2", "d7") := {[ "docstatus" := "READY" ]} ]}.

(** One user with two PDFs, one of them with an upper-case suffix, and a
    file left in the scratch directory by an earlier invocation. *)
Definition library : World :=
  mkWorld [("u1/a.pdf", "first"); ("u1/b.PDF", "second");
           ("u1/notes.txt", "text")]
    records {[ "/tmp/old.bin" := "stale" ]} [].

Definition event : Event := [{| body := "u1 d1" |}].

(** The world a run of the handler ends in. *)
Definition after (ev : Event) (w : World) : World :=
  (lambda_handler services ev w).2.

End Cases.

(** ** Reasoning about runs *)

(** [bind_split H] and [bind_step H as a w1] open a run [H] of a sequence at
    its first statement: either that statement raised, or it returned [a] in
    the world [w1] and the rest ran from there. *)
Lemma bind_inv {A B} (m : M A) (f : A -> M B) w r w' :
  bind m f w = (r, w') ->
  (exists e, m w = (inl e, w') /\ r = inl e) \/
  (exists a w1, m w = (inr a, w1) /\ f a w1 = (r, w')).
Proof.
  unfold bind. destruct (m w) as [[e|a] w1]; intros H.
  - left. exists e. by inversion H.
  - right. by exists a, w1.
Qed.

Ltac bind_split H :=
  let e := fresh "e" in
  let a := fresh "a" in
  let w1 := fresh "w" in
  let Hm := fresh "Hm" in
  apply bind_inv in H as [(e & Hm & ->) | (a & w1 & Hm & H)].

Tactic Notation "bind_step" hyp(H) "as" ident(a) ident(w1) :=
  let e := fresh "e" in
  let Hm := fresh "Hm" in
  apply bind_inv in H as [(e & Hm & ->) | (a & w1 & Hm & H)].

Ltac trace_eq :=
  unfold started, upload_geometry, upload_metadata, geometry_key, metadata_key;
  repeat (progress (cbn; rewrite <- ?app_assoc)); done.

Section Steps.

Context {Vec Index : Type}.
Variable sv : Services Vec Index.

Lemma lift_inv {A} (x : exn + A) w r w' :
  lift x w = (r, w') -> r = x /\ w' = w.
Proof. destruct x; cbn; intros [= <- <-]; done. Qed.

Lemma invoke_inv c w r w' :
  invoke sv c w = (r, w') ->
  w' = log c w /\
  (r = inr tt /\ fault sv (length (trace w)) = None \/
   exists e, r = inl e /\ fault sv (length (trace w)) = Some e).
Proof.
  unfold invoke. destruct (fault sv _) as [e|]; intros [= <- <-]; eauto.
Qed.


Lemma list_objects_v2_inv w r w' :
  list_objects_v2 sv w = (r, w') ->
  w' = log ListObjectsV2 w /\
  ((exists e, r = inl e) \/
   (exists resp, r = inr resp /\
      (Contents resp = None /\ listed w = [] \/
       exists contents, Contents resp = Some contents /\
         map Key contents = listed w /\ listed w <> []))).
Proof.
  unfold list_objects_v2. intros H.
  bind_split H.
  - apply invoke_inv in Hm as [-> _]. eauto.
  - apply invoke_inv in Hm as [-> _]. destruct a.
    unfold bind, get in H. cbn in H. unfold listed.
    destruct (take MaxKeys (bucket w)) as [|o objs] eqn:Hobjs.
    + inversion H; subst. split; [done|]. right. eexists. split; [done|]. by left.
    + inversion H; subst. split; [done|]. right. eexists. split; [done|].
      right. eexists. split; [done|]. split; [|done].
      cbn. f_equal. rewrite <- list_fmap_compose. done.
Qed.

Lemma update_item_inv u d s w r w' :
  update_item sv u d s w = (r, w') ->
  (exists e, r = inl e /\ w' = log (UpdateItem u d s) w) \/
  (exists k, r = inr tt /\ table_key u d = Some k /\
     w' = set_table (set_docstatus k s (table w)) (log (UpdateItem u d s) w)).
Proof.
  unfold update_item. intros H. bind_split H.
  - apply invoke_inv in Hm as [-> _]. eauto.
  - apply invoke_inv in Hm as [-> _].
    destruct (table_key u d) as [k|].
    + inversion H; subst. right. eauto.
    + inversion H; subst. left. eauto.
Qed.

Lemma download_file_inv key f w r w' :
  download_file sv key f w = (r, w') ->
  (exists e, r = inl e /\ w' = log (DownloadFile key f) w) \/
  (exists b, r = inr tt /\ s3_get key (bucket w) = Some b /\
     w' = set_tmp (<[f := b]> (tmp w)) (log (DownloadFile key f) w)).
Proof.
  unfold download_file. intros H. bind_split H.
  - apply invoke_inv in Hm as [-> _]. eauto.
  - apply invoke_inv in Hm as [-> _]. unfold bind, get in H. cbn in H.
    destruct (s3_get key (bucket w)) as [b|].
    + inversion H; subst. right. eauto.
    + inversion H; subst. left. eauto.
Qed.

Lemma upload_file_inv f key w r w' :
  upload_file sv f key w = (r, w') ->
  (exists e, r = inl e /\ w' = log (UploadFile f key) w) \/
  (exists b, r = inr tt /\ tmp w !! f = Some b /\
     w' = set_bucket (s3_put key b (bucket w)) (log (UploadFile f key) w)).
Proof.
  unfold upload_file. intros H. bind_split H.
  - apply invoke_inv in Hm as [-> _]. eauto.
  - apply invoke_inv in Hm as [-> _]. unfold bind, get in H. cbn in H.
    destruct (tmp w !! f) as [b|].
    + inversion H; subst. right. eauto.
    + inversion H; subst. left. eauto.
Qed.

Lemma quiet_refl P w : quiet P w w.
Proof. repeat split. exists []. by rewrite app_nil_r. Qed.

Lemma quiet_trans P w1 w2 w3 : quiet P w1 w2 -> quiet P w2 w3 -> quiet P w1 w3.
Proof.
  intros (Ht1 & Hb1 & cs1 & Hc1 & Hp1) (Ht2 & Hb2 & cs2 & Hc2 & Hp2).
  repeat split; [congruence..|]. exists (cs1 ++ cs2).
  rewrite Hc2, Hc1, <- app_assoc, forallb_app, Hp1, Hp2. done.
Qed.

Lemma quiet_log P c w : P c = true -> quiet P w (log c w).
Proof. intros H. repeat split. exists [c]. cbn. by rewrite H. Qed.

Lemma quiet_set_tmp P f w : quiet P w (set_tmp f w).
Proof. repeat split. exists []. by rewrite app_nil_r. Qed.

Lemma quiet_weaken (P Q : call -> bool) w w' :
  (forall c, P c = true -> Q c = true) -> quiet P w w' -> quiet Q w w'.
Proof.
  intros HPQ (Ht & Hb & cs & Hc & Hp). repeat split; [done..|].
  exists cs. split; [done|]. apply forallb_forall. intros c Hin.
  apply HPQ. by apply (proj1 (forallb_forall _ _) Hp).
Qed.

Lemma omap_forallb {A B} (f : A -> option B) (P : A -> bool) (l : list A) :
  (forall a, P a = true -> f a = None) -> forallb P l = true -> omap f l = [].
Proof.
  intros Hf. induction l as [|a l IH]; [done|]. cbn.
  intros [Ha Hl]%andb_prop. rewrite (Hf a Ha). by apply IH.
Qed.

Lemma embedded_load cs : forallb is_load cs = true -> embedded cs = [].
Proof. apply omap_forallb. by intros []. Qed.

Lemma embedded_write_local cs :
  forallb is_write_local cs = true -> embedded cs = [].
Proof. apply omap_forallb. by intros []. Qed.

Lemma embedded_app cs1 cs2 : embedded (cs1 ++ cs2) = embedded cs1 ++ embedded cs2.
Proof. apply omap_app. Qed.

Lemma loader_load_inv l w r w' :
  loader_load sv l w = (r, w') ->
  quiet is_load w w' /\ tmp w' = tmp w /\
  forall ds, r = inr ds -> read_all sv (tmp w) [l] [] = inr ds.
Proof.
  unfold loader_load. intros H. bind_split H.
  - apply invoke_inv in Hm as [-> _]. split; [by apply quiet_log|done].
  - apply invoke_inv in Hm as [-> _]. unfold bind, get in H. cbn in H.
    destruct (tmp w !! l) as [b|] eqn:Hb; [destruct (pdf_pages sv b) eqn:Hp|];
      cbn in H; inversion H; subst;
      (split; [by apply quiet_log|]); (split; [done|]); intros ds [= <-].
    cbn. by rewrite Hb, Hp.
Qed.

Lemma read_all_cons files l ls docs :
  read_all sv files (l :: ls) docs =
  match read_all sv files [l] [] with
  | inl e => inl e
  | inr ds => read_all sv files ls (docs ++ ds)
  end.
Proof.
  cbn. destruct (files !! l) as [b|]; [|done].
  by destruct (pdf_pages sv b).
Qed.

Lemma load_all_inv ls docs w r w' :
  load_all sv ls docs w = (r, w') ->
  quiet is_load w w' /\ tmp w' = tmp w /\
  forall ds, r = inr ds -> read_all sv (tmp w) ls docs = inr ds.
Proof.
  revert docs w. induction ls as [|l ls IH]; intros docs w; cbn [load_all].
  - intros [= <- <-]. split; [apply quiet_refl|]. split; [done|].
    by intros ds [= <-].
  - intros H. bind_split H.
    + apply loader_load_inv in Hm as (Hq & Ht & _). done.
    + apply loader_load_inv in Hm as (Hq & Ht & Hr).
      apply IH in H as (Hq' & Ht' & Hr').
      split; [by eapply quiet_trans|]. split; [congruence|].
      intros ds Hds. rewrite read_all_cons, (Hr a eq_refl).
      rewrite <- Ht. by apply Hr'.
Qed.

Lemma from_loaders_inv ls w r w' :
  from_loaders sv ls w = (r, w') ->
  table w' = table w /\ bucket w' = bucket w /\ tmp w' = tmp w /\
  exists cs,
    trace w' = trace w ++ cs /\ forallb is_build cs = true /\
    embeds_from sv (tmp w) ls cs.
Proof.
  unfold from_loaders. intros H. bind_step H as docs w1.
  { apply load_all_inv in Hm as ((Ht & Hb & cs & Hc & Hp) & Htmp & _).
    repeat split; [done..|]. exists cs. split; [done|]. split.
    - apply forallb_forall. intros c Hin.
      apply (proj1 (forallb_forall _ _) Hp) in Hin. by destruct c.
    - intros texts. rewrite (embedded_load _ Hp). by intros ?%elem_of_nil. }
  apply load_all_inv in Hm as ((Ht & Hb & cs & Hc & Hp) & Htmp & Hdocs).
  specialize (Hdocs docs eq_refl).
  assert (Hbuild : forallb is_build cs = true).
  { apply forallb_forall. intros c Hin.
    apply (proj1 (forallb_forall _ _) Hp) in Hin. by destruct c. }
  assert (Hembeds : forall tl,
            embedded tl = [] ->
            embeds_from sv (tmp w) ls
              (cs ++ EmbedDocuments (map page_content (split_documents sv docs))
                  :: tl)).
  { intros tl Htl texts. rewrite embedded_app, (embedded_load _ Hp). cbn.
    fold (embedded tl). rewrite Htl. intros ->%list_elem_of_singleton. eauto. }
  bind_step H as x w2.
  { apply invoke_inv in Hm as [-> _]. repeat split; [done..|].
    eexists. split; [cbn; by rewrite Hc, <- app_assoc|].
    split; [|by apply Hembeds]. by rewrite forallb_app, Hbuild. }
  apply invoke_inv in Hm as [-> _]. clear x.
  bind_step H as vectors w2.
  { apply lift_inv in Hm as [_ ->]. repeat split; [done..|].
    eexists. split; [cbn; by rewrite Hc, <- app_assoc|].
    split; [|by apply Hembeds]. by rewrite forallb_app, Hbuild. }
  apply lift_inv in Hm as [_ ->].
  assert (Hlast : forall w3, w3 = log BuildIndex
            (log (EmbedDocuments (map page_content (split_documents sv docs)))
               w1) ->
            table w3 = table w /\ bucket w3 = bucket w /\ tmp w3 = tmp w /\
            exists cs, trace w3 = trace w ++ cs /\
              forallb is_build cs = true /\ embeds_from sv (tmp w) ls cs).
  { intros w3 ->. repeat split; [done..|].
    exists (cs ++ [EmbedDocuments (map page_content (split_documents sv docs));
                   BuildIndex]).
    split; [cbn; by rewrite Hc, <- !app_assoc|].
    split; [|by apply Hembeds]. by rewrite forallb_app, Hbuild. }
  bind_step H as x w2.
  { apply invoke_inv in Hm as [-> _]. by apply Hlast. }
  apply invoke_inv in Hm as [-> _]. apply lift_inv in H as [_ ->].
  by apply Hlast.
Qed.

Lemma write_local_inv p b w r w' :
  write_local sv p b w = (r, w') ->
  (exists e, r = inl e /\ w' = log (WriteLocal p) w) \/
  (r = inr tt /\ w' = set_tmp (<[p := b]> (tmp w)) (log (WriteLocal p) w)).
Proof.
  unfold write_local. intros H. bind_split H.
  - apply invoke_inv in Hm as [-> _]. eauto.
  - apply invoke_inv in Hm as [-> _]. inversion H; subst. eauto.
Qed.

Lemma write_local_quiet p b w r w' :
  write_local sv p b w = (r, w') -> quiet is_write_local w w'.
Proof.
  intros [(e & -> & ->)|[-> ->]]%write_local_inv.
  - by apply quiet_log.
  - eapply quiet_trans; [by apply (quiet_log _ (WriteLocal p))|apply quiet_set_tmp].
Qed.

Lemma save_local_quiet idx folder w r w' :
  save_local sv idx folder w = (r, w') -> quiet is_write_local w w'.
Proof.
  unfold save_local. destruct (serialize sv idx) as [g m]. intros H.
  bind_split H.
  - by apply write_local_quiet in Hm.
  - apply write_local_quiet in Hm. apply write_local_quiet in H.
    by eapply quiet_trans.
Qed.

Lemma staged_cons objs k ks t :
  staged objs (k :: ks) t =
  staged objs ks (match s3_get k objs with
                  | Some b => <[scratch_path k := b]> t
                  | None => t
                  end).
Proof. done. Qed.

Lemma stage_files_inv contents loaders w r w' :
  stage_files sv contents loaders w = (r, w') ->
  table w' = table w /\ bucket w' = bucket w /\
  exists n,
    trace w' = trace w ++ map fetch_call (take n (pdf_keys (map Key contents))) /\
    forall l, r = inr l ->
      l = loaders ++ map scratch_path (pdf_keys (map Key contents)) /\
      trace w' = trace w ++ map fetch_call (pdf_keys (map Key contents)) /\
      tmp w' = staged (bucket w) (pdf_keys (map Key contents)) (tmp w).
Proof.
  revert loaders w. induction contents as [|file rest IH]; intros loaders w; cbn.
  - intros [= <- <-]. repeat split. exists 0. cbn. rewrite !app_nil_r.
    split; [done|]. by intros l [= <-].
  - destruct (is_pdf (Key file)) eqn:Hpdf; cbn.
    + intros H. bind_split H.
      * apply download_file_inv in Hm as [(e' & [= <-] & ->)|(b & [=] & _)].
        repeat split. exists 1. cbn. split; [done|]. intros l [=].
      * apply download_file_inv in Hm as [(e' & [=] & _)|(b & _ & Hb & ->)].
        apply IH in H as (Ht & Hbk & n & Htr & Hok). cbn in *.
        repeat split; [done..|]. exists (S n). cbn.
        split; [by rewrite Htr, <- app_assoc|].
        intros l Hl. destruct (Hok l Hl) as (-> & Htr' & Htmp).
        rewrite <- app_assoc. split; [done|]. rewrite Htr', <- app_assoc.
        split; [done|]. rewrite Htmp. by rewrite Hb.
    + apply IH.
Qed.

Lemma table_key_inv uid did k :
  table_key uid did = Some k -> exists u d, uid = PyStr u /\ did = PyStr d /\ k = (u, d).
Proof. destruct uid, did; cbn; intros [= <-]; eauto. Qed.

Lemma lambda_handler_outcome event w r w' :
  lambda_handler sv event w = (r, w') -> Outcome sv event w r w'.
Proof.
  unfold lambda_handler. intros H.
  bind_step H as resp wl.
  { apply list_objects_v2_inv in Hm as [-> _]. constructor. }
  apply list_objects_v2_inv in Hm as [-> [[e [=]]|(resp' & [= <-] & Hresp)]].
  destruct Hresp as [[Hc Hnone]|(contents & Hc & Hkeys & Hsome)];
    rewrite Hc in H; clear Hc.
  { inversion H; subst. by constructor. }
  bind_step H as record w0.
  { destruct event; inversion Hm; subst. by apply bad_event. }
  destruct event as [|rec event]; [done|]. inversion Hm; subst record w0.
  clear Hm.
  bind_step H as event_body w0.
  { apply lift_inv in Hm as [He ->]. apply bad_event; [done|].
    cbn. by rewrite <- He. }
  apply lift_inv in Hm as [Hbody ->].
  bind_step H as document_id w0.
  { apply lift_inv in Hm as [He ->]. apply bad_event; [done|].
    cbn. by rewrite <- Hbody, <- He. }
  apply lift_inv in Hm as [Hdid ->].
  bind_step H as user_id w0.
  { apply lift_inv in Hm as [He ->]. apply bad_event; [done|].
    cbn. by rewrite <- Hbody, <- Hdid, <- He. }
  apply lift_inv in Hm as [Huid ->].
  assert (Htrig : trigger sv (rec :: event) = inr (user_id, document_id)).
  { cbn. by rewrite <- Hbody, <- Hdid, <- Huid. }
  clear Hbody Hdid Huid.
  bind_step H as x w1.
  { apply update_item_inv in Hm as [(e' & [= <-] & ->)|(k & [=] & _)].
    by apply processing_failed. }
  apply update_item_inv in Hm as [(e' & [=] & _)|(k & _ & Hk & ->)].
  apply table_key_inv in Hk as (u & d & -> & -> & ->). clear x.
  bind_step H as loaders w2.
  { apply stage_files_inv in Hm as (Ht & Hb & n & Htr & _).
    eapply (staging_failed _ _ _ u d _ n); [done..|].
    rewrite Hkeys in Htr. repeat split; [done..|].
    rewrite Htr. cbn. by rewrite <- !app_assoc. }
  apply stage_files_inv in Hm as (Ht & Hb & _ & _ & Hok).
  destruct (Hok loaders eq_refl) as (-> & Htr & Htmp). clear Hok.
  rewrite Hkeys in Htr. cbn in Ht, Hb, Htr, Htmp.
  assert (Hfiles : tmp w2 = staged (bucket w) (pdf_keys (listed w)) (tmp w)).
  { by rewrite Htmp, Hkeys. }
  rewrite Hkeys in H. cbn [app] in H.
  bind_step H as index_from_loader w3.
  { apply from_loaders_inv in Hm as (Ht' & Hb' & _ & cs & Htr' & Hcs & Hemb).
    eapply (build_failed _ _ _ u d _ cs); [done..| |].
    { unfold embeds_staged. by rewrite <- Hfiles. }
    repeat split; [congruence..|]. rewrite Htr', Htr. trace_eq. }
  apply from_loaders_inv in Hm as (Ht1 & Hb1 & _ & cs1 & Htr1 & Hcs1 & Hemb1).
  rewrite Hfiles in Hemb1.
  assert (Hemb : forall cs2, forallb is_write_local cs2 = true ->
            forallb is_build (cs1 ++ cs2) = true /\
            embeds_staged sv w (cs1 ++ cs2)).
  { intros cs2 Hcs2. split.
    - rewrite forallb_app, Hcs1. apply forallb_forall. intros c Hin.
      apply (proj1 (forallb_forall _ _) Hcs2) in Hin. by destruct c.
    - intros texts. rewrite embedded_app, (embedded_write_local _ Hcs2), app_nil_r.
      apply Hemb1. }
  bind_step H as x w4.
  { apply save_local_quiet in Hm as (Ht' & Hb' & cs & Htr' & Hcs).
    destruct (Hemb cs Hcs) as [Hb2 He2].
    eapply (build_failed _ _ _ u d _ (cs1 ++ cs)); [done..|].
    repeat split; [congruence..|]. rewrite Htr', Htr1, Htr. trace_eq. }
  apply save_local_quiet in Hm as (Ht2 & Hb2 & cs2 & Htr2 & Hcs2). clear x.
  destruct (Hemb cs2 Hcs2) as [Hcs He]. clear Hemb Hemb1.
  assert (Htr3 : trace w4 = trace w ++ started u d ++
            map fetch_call (pdf_keys (listed w)) ++ cs1 ++ cs2).
  { rewrite Htr2, Htr1, Htr. trace_eq. }
  assert (Ht3 : table w4 = set_docstatus (u, d) "PROCESSING" (table w))
    by congruence.
  assert (Hb3 : bucket w4 = bucket w) by congruence.
  clear Ht Hb Htr Ht1 Hb1 Htr1 Hcs1 Ht2 Hb2 Htr2 Hcs2.
  bind_step H as x w5.
  { apply upload_file_inv in Hm as [(e' & [= <-] & ->)|(b & [=] & _)].
    eapply (geometry_upload_failed _ _ _ u d _ (cs1 ++ cs2)); [done..|].
    repeat split; cbn; [done|done|]. rewrite Htr3. trace_eq. }
  apply upload_file_inv in Hm as [(e' & [=] & _)|(g & _ & _ & ->)]. clear x.
  bind_step H as x w5.
  { apply upload_file_inv in Hm as [(e' & [= <-] & ->)|(b & [=] & _)].
    eapply (metadata_upload_failed _ _ _ u d _ (cs1 ++ cs2) g); [done..|].
    repeat split; cbn; [done|by rewrite Hb3|].
    rewrite Htr3. trace_eq. }
  apply upload_file_inv in Hm as [(e' & [=] & _)|(m & _ & _ & ->)]. clear x.
  bind_step H as x w5.
  { apply update_item_inv in Hm as [(e' & [= <-] & ->)|(k & [=] & _)].
    eapply (ready_failed _ _ _ u d _ (cs1 ++ cs2) g m); [done..|].
    repeat split; cbn; [done|by rewrite Hb3|].
    rewrite Htr3. trace_eq. }
  apply update_item_inv in Hm as [(e' & [=] & _)|(k & _ & [= <-] & ->)].
  inversion H; subst.
  eapply (finished _ _ _ u d (cs1 ++ cs2) g m); [done..|].
  repeat split; cbn; [by rewrite Ht3|by rewrite Hb3|].
  rewrite Htr3. trace_eq.
Qed.

End Steps.

(** ** Runs that return

    A run that returns without raising has had every one of its calls
    accepted: no failure is swallowed on the way. *)

Lemma bind_inv_ok {A B} (m : M A) (f : A -> M B) w b w' :
  bind m f w = (inr b, w') ->
  exists a w1, m w = (inr a, w1) /\ f a w1 = (inr b, w').
Proof.
  intros [(e & _ & [=])|H]%bind_inv. exact H.
Qed.

Tactic Notation "bind_ok" hyp(H) "as" ident(a) ident(w1) :=
  let Hm := fresh "Hm" in
  apply bind_inv_ok in H as (a & w1 & Hm & H).

Section Accepted.

Context {Vec Index : Type}.
Variable sv : Services Vec Index.

Lemma accepted_refl w : accepted sv w w.
Proof. split; [done|]. lia. Qed.

Lemma accepted_trans w1 w2 w3 :
  accepted sv w1 w2 -> accepted sv w2 w3 -> accepted sv w1 w3.
Proof.
  intros [Hl1 H1] [Hl2 H2]. split; [lia|]. intros i Hi1 Hi3.
  destruct (decide (i < length (trace w2))); [by apply H1|apply H2; lia].
Qed.

Lemma accepted_same_trace w w' : trace w' = trace w -> accepted sv w w'.
Proof. intros Ht. unfold accepted. rewrite Ht. split; [done|]. lia. Qed.

Lemma invoke_accepted c w x w' :
  invoke sv c w = (inr x, w') -> accepted sv w w'.
Proof.
  intros [-> [[_ Hf]|(e & [=] & _)]]%invoke_inv. unfold accepted. cbn.
  rewrite length_app. cbn. split; [lia|]. intros i Hi1 Hi2.
  by replace i with (length (trace w)) by lia.
Qed.

Lemma invoke_bind_accepted {A} c (k : M A) w a w' :
  (forall w1 r w2, k w1 = (r, w2) -> trace w2 = trace w1) ->
  bind (invoke sv c) (fun _ => k) w = (inr a, w') -> accepted sv w w'.
Proof.
  intros Hk H. bind_ok H as x w1.
  apply invoke_accepted in Hm. apply Hk in H.
  eapply accepted_trans; [done|]. by apply accepted_same_trace.
Qed.

Lemma list_objects_v2_accepted w resp w' :
  list_objects_v2 sv w = (inr resp, w') -> accepted sv w w'.
Proof.
  apply invoke_bind_accepted. intros w1 r w2. unfold bind, get.
  by destruct (take MaxKeys (bucket w1)); intros [= _ <-].
Qed.

Lemma update_item_accepted u d s w x w' :
  update_item sv u d s w = (inr x, w') -> accepted sv w w'.
Proof.
  apply invoke_bind_accepted. intros w1 r w2.
  by destruct (table_key u d); intros [= _ <-].
Qed.

Lemma download_file_accepted key f w x w' :
  download_file sv key f w = (inr x, w') -> accepted sv w w'.
Proof.
  apply invoke_bind_accepted. intros w1 r w2. unfold bind, get.
  by destruct (s3_get key (bucket w1)); intros [= _ <-].
Qed.

Lemma upload_file_accepted f key w x w' :
  upload_file sv f key w = (inr x, w') -> accepted sv w w'.
Proof.
  apply invoke_bind_accepted. intros w1 r w2. unfold bind, get. cbn.
  by destruct (tmp w1 !! f); intros [= _ <-].
Qed.

Lemma write_local_accepted p b w x w' :
  write_local sv p b w = (inr x, w') -> accepted sv w w'.
Proof. apply invoke_bind_accepted. by intros w1 r w2 [= _ <-]. Qed.

Lemma loader_load_accepted l w ds w' :
  loader_load sv l w = (inr ds, w') -> accepted sv w w'.
Proof.
  apply invoke_bind_accepted. intros w1 r w2. unfold bind, get. cbn.
  destruct (tmp w1 !! l) as [b|]; [|by intros [= _ <-]].
  by destruct (pdf_pages sv b); intros [= _ <-].
Qed.

Lemma load_all_accepted ls docs w ds w' :
  load_all sv ls docs w = (inr ds, w') -> accepted sv w w'.
Proof.
  revert docs w. induction ls as [|l ls IH]; intros docs w; cbn [load_all].
  - intros [= _ <-]. apply accepted_refl.
  - intros H. bind_ok H as loaded w1.
    apply loader_load_accepted in Hm. apply IH in H.
    by eapply accepted_trans.
Qed.

Lemma from_loaders_accepted ls w index w' :
  from_loaders sv ls w = (inr index, w') ->
  accepted sv w w' /\
  exists texts vectors, embed_documents sv texts = inr vectors.
Proof.
  unfold from_loaders. intros H. bind_ok H as docs w1.
  apply load_all_accepted in Hm. rename Hm into H1.
  bind_ok H as x w2. apply invoke_accepted in Hm. rename Hm into H2.
  bind_ok H as vectors w3. apply lift_inv in Hm as [Hv ->].
  bind_ok H as y w3. apply invoke_accepted in Hm.
  apply lift_inv in H as [_ ->]. split; [|eauto].
  eapply accepted_trans; [done|]. by eapply accepted_trans.
Qed.

Lemma save_local_accepted index folder w x w' :
  save_local sv index folder w = (inr x, w') -> accepted sv w w'.
Proof.
  unfold save_local. destruct (serialize sv index) as [g m]. intros H.
  bind_ok H as y w1.
  apply write_local_accepted in Hm. apply write_local_accepted in H.
  by eapply accepted_trans.
Qed.

Lemma stage_files_accepted contents loaders w ls w' :
  stage_files sv contents loaders w = (inr ls, w') -> accepted sv w w'.
Proof.
  revert loaders w. induction contents as [|file rest IH]; intros loaders w; cbn.
  - intros [= _ <-]. apply accepted_refl.
  - destruct (is_pdf (Key file)); cbn; [|apply IH].
    intros H. bind_ok H as x w1.
    apply download_file_accepted in Hm. apply IH in H.
    by eapply accepted_trans.
Qed.

Lemma lambda_handler_accepted event w v w' :
  lambda_handler sv event w = (inr v, w') ->
  accepted sv w w' /\
  (v = None -> exists texts vectors, embed_documents sv texts = inr vectors).
Proof.
  unfold lambda_handler. intros H.
  bind_ok H as resp w1. apply list_objects_v2_accepted in Hm.
  rename Hm into H1.
  destruct (Contents resp) as [contents|]; [|by inversion H; subst].
  bind_ok H as record w2.
  assert (w2 = w1) as -> by (by destruct event; inversion Hm). clear Hm.
  bind_ok H as event_body w2. apply lift_inv in Hm as [_ ->].
  bind_ok H as document_id w2. apply lift_inv in Hm as [_ ->].
  bind_ok H as user_id w2. apply lift_inv in Hm as [_ ->].
  bind_ok H as x1 w2. apply update_item_accepted in Hm.
  rename Hm into H2.
  bind_ok H as loaders w3. apply stage_files_accepted in Hm.
  rename Hm into H3.
  bind_ok H as index w4.
  apply from_loaders_accepted in Hm as [H4 Hembed].
  bind_ok H as x2 w5. apply save_local_accepted in Hm.
  rename Hm into H5.
  bind_ok H as x3 w6. apply upload_file_accepted in Hm.
  rename Hm into H6.
  bind_ok H as x4 w7. apply upload_file_accepted in Hm.
  rename Hm into H7.
  bind_ok H as x5 w8. apply update_item_accepted in Hm.
  inversion H; subst. split; [|done].
  repeat (eapply accepted_trans; [eassumption|]). apply accepted_refl.
Qed.

End Accepted.

(** ** Calls of a run *)

Lemma calls_since_log c w : calls_since w (log c w) = [c].
Proof. unfold calls_since. cbn. by rewrite drop_app_length. Qed.

Lemma calls_since_log2 c1 c2 w : calls_since w (log c2 (log c1 w)) = [c1; c2].
Proof. unfold calls_since. cbn. by rewrite <- app_assoc, drop_app_length. Qed.

Lemma calls_since_app w w' cs :
  trace w' = trace w ++ cs -> calls_since w w' = cs.
Proof. unfold calls_since. intros ->. by rewrite drop_app_length. Qed.

Lemma omap_fetch_calls {B} (f : call -> option B) ks :
  (forall k, f (fetch_call k) = None) -> omap f (map fetch_call ks) = [].
Proof. intros Hf. induction ks as [|k ks IH]; [done|]. cbn. by rewrite Hf. Qed.

Lemma statuses_build cs : forallb is_build cs = true -> statuses cs = [].
Proof. apply omap_forallb. by intros []. Qed.

Lemma fetched_build cs : forallb is_build cs = true -> fetched cs = [].
Proof. apply omap_forallb. by intros []. Qed.

Lemma statuses_fetch_calls ks : statuses (map fetch_call ks) = [].
Proof. by apply omap_fetch_calls. Qed.

Lemma fetched_fetch_calls ks : fetched (map fetch_call ks) = ks.
Proof. unfold fetched. induction ks as [|k ks IH]; [done|]. cbn. by rewrite IH. Qed.

Lemma listing_fetch_calls ks : existsb is_listing (map fetch_call ks) = false.
Proof. induction ks as [|k ks IH]; [done|]. cbn. done. Qed.

Lemma existsb_build (P : call -> bool) cs :
  (forall c, is_build c = true -> P c = false) ->
  forallb is_build cs = true -> existsb P cs = false.
Proof.
  intros HP. induction cs as [|c cs IH]; [done|]. cbn.
  intros [Hc Hcs]%andb_prop. by rewrite (HP c Hc), (IH Hcs).
Qed.

Lemma listing_build cs :
  forallb is_build cs = true -> existsb is_listing cs = false.
Proof. apply existsb_build. by intros []. Qed.


Lemma embedded_fetch_calls ks : embedded (map fetch_call ks) = [].
Proof. by apply omap_fetch_calls. Qed.

Lemma statuses_app cs1 cs2 : statuses (cs1 ++ cs2) = statuses cs1 ++ statuses cs2.
Proof. apply omap_app. Qed.

Lemma fetched_app cs1 cs2 : fetched (cs1 ++ cs2) = fetched cs1 ++ fetched cs2.
Proof. apply omap_app. Qed.

Lemma docstatus_set w k s t :
  table w = set_docstatus k s t -> docstatus w k = Some s.
Proof.
  unfold docstatus, set_docstatus. intros ->.
  rewrite lookup_insert_eq. cbn. by rewrite lookup_insert_eq.
Qed.

(** [run_cases H] splits a run [H] of the handler by exit point and names
    what the run did to the table, to the bucket and to the trace;
    [calls_simpl] reads the statuses and the fetched keys off the calls. *)
Ltac run_cases H :=
  apply lambda_handler_outcome in H; inversion H; subst;
  repeat match goal with
         | Hs : run_shape _ _ _ _ _ |- _ =>
             let Ht := fresh "Htable" in
             let Hb := fresh "Hbucket" in
             let Hc := fresh "Hcalls" in
             destruct Hs as (Ht & Hb & Hc); apply calls_since_app in Hc
         end;
  rewrite ?calls_since_log, ?calls_since_log2 in *.

Ltac calls_simpl :=
  unfold started, upload_geometry, upload_metadata;
  repeat first
    [ rewrite statuses_app | rewrite fetched_app
    | rewrite statuses_fetch_calls | rewrite fetched_fetch_calls
    | match goal with
      | Hb : forallb is_build ?cs = true |- _ =>
          first [ rewrite (statuses_build cs Hb) | rewrite (fetched_build cs Hb) ]
      end
    | rewrite existsb_app | rewrite forallb_app ];
  cbn.

(** ** Runs in which the calls are accepted *)

Section Forward.

Context {Vec Index : Type}.
Variable sv : Services Vec Index.

Lemma bind_run {A B} (m : M A) (f : A -> M B) w a w1 :
  m w = (inr a, w1) -> bind m f w = f a w1.
Proof. unfold bind. by intros ->. Qed.

Lemma invoke_run c w :
  fault sv (length (trace w)) = None -> invoke sv c w = (inr tt, log c w).
Proof. unfold invoke. by intros ->. Qed.

Lemma invoke_fault c w e :
  fault sv (length (trace w)) = Some e -> invoke sv c w = (inl e, log c w).
Proof. unfold invoke. by intros ->. Qed.

Lemma listed_nil w : listed w = [] -> take MaxKeys (bucket w) = [].
Proof. unfold listed. by destruct (take MaxKeys (bucket w)). Qed.

Lemma list_objects_v2_run w :
  listed w <> [] ->
  fault sv (length (trace w)) = None ->
  exists contents,
    map Key contents = listed w /\
    list_objects_v2 sv w =
      (inr {| Contents := Some contents |}, log ListObjectsV2 w).
Proof.
  intros Hne Hf. unfold listed in *. unfold list_objects_v2.
  destruct (take MaxKeys (bucket w)) as [|o objs] eqn:Hobjs; [done|].
  exists (map (fun o => {| Key := o.1 |}) (o :: objs)). split.
  { rewrite <- list_fmap_compose. done. }
  rewrite (bind_run _ _ _ _ _ (invoke_run _ _ Hf)).
  unfold bind, get. cbn. by rewrite Hobjs.
Qed.

Lemma no_files_run event w :
  listed w = [] ->
  fault sv (length (trace w)) = None ->
  lambda_handler sv event w =
    (inr (Some "No files found in the bucket."), log ListObjectsV2 w).
Proof.
  intros Hl Hf. unfold lambda_handler, list_objects_v2.
  unfold bind at 1. unfold bind at 1. rewrite (invoke_run _ _ Hf).
  unfold get. cbn. by rewrite (listed_nil _ Hl).
Qed.

Lemma update_item_run u d s w :
  fault sv (length (trace w)) = None ->
  update_item sv (PyStr u) (PyStr d) s w =
    (inr tt, set_table (set_docstatus (u, d) s (table w))
               (log (UpdateItem (PyStr u) (PyStr d) s) w)).
Proof.
  intros Hf. unfold update_item.
  by rewrite (bind_run _ _ _ _ _ (invoke_run _ _ Hf)).
Qed.

Lemma stage_files_no_pdf contents loaders w :
  pdf_keys (map Key contents) = [] ->
  stage_files sv contents loaders w = (inr loaders, w).
Proof.
  induction contents as [|file rest IH]; [done|]. cbn.
  destruct (is_pdf (Key file)); [done|]. cbn. apply IH.
Qed.


Lemma trigger_inv event u d :
  trigger sv event = inr (u, d) ->
  exists rec rest event_body,
    event = rec :: rest /\
    json_loads sv (body rec) = inr event_body /\
    getitem event_body "documentid" = inr d /\
    getitem event_body "user" = inr u.
Proof.
  destruct event as [|rec rest]; [done|]. cbn.
  destruct (json_loads sv (body rec)) as [|event_body] eqn:Hb; [done|].
  destruct (getitem event_body "documentid") as [|did] eqn:Hd; [done|].
  destruct (getitem event_body "user") as [|uid] eqn:Hu; [done|].
  intros [= -> ->]. by exists rec, rest, event_body.
Qed.

Lemma upload_file_run f key b w :
  fault sv (length (trace w)) = None ->
  tmp w !! f = Some b ->
  upload_file sv f key w =
    (inr tt, set_bucket (s3_put key b (bucket w)) (log (UploadFile f key) w)).
Proof.
  intros Hf Hb. unfold upload_file.
  rewrite (bind_run _ _ _ _ _ (invoke_run _ _ Hf)).
  unfold bind, get. cbn. by rewrite Hb.
Qed.

Lemma write_local_run p b w :
  fault sv (length (trace w)) = None ->
  write_local sv p b w =
    (inr tt, set_tmp (<[p := b]> (tmp w)) (log (WriteLocal p) w)).
Proof.
  intros Hf. unfold write_local.
  by rewrite (bind_run _ _ _ _ _ (invoke_run _ _ Hf)).
Qed.

Lemma bind_ret {A B} (a : A) (f : A -> M B) w : bind (ret a) f w = f a w.
Proof. done. Qed.

Lemma bind_lift {A B} (a : A) (f : A -> M B) w :
  bind (lift (inr a)) f w = f a w.
Proof. done. Qed.

Lemma from_loaders_nil_run w vectors index :
  (forall n, fault sv n = None) ->
  embed_documents sv (map page_content (split_documents sv [])) = inr vectors ->
  faiss_build sv (split_documents sv []) vectors = inr index ->
  from_loaders sv [] w =
    (inr index,
     log BuildIndex
       (log (EmbedDocuments (map page_content (split_documents sv []))) w)).
Proof.
  intros Hf Hembed Hbuild. unfold from_loaders. cbn [load_all].
  rewrite bind_ret. cbv zeta.
  rewrite (bind_run _ _ _ _ _ (invoke_run _ _ (Hf _))).
  rewrite Hembed, bind_lift.
  rewrite (bind_run _ _ _ _ _ (invoke_run _ _ (Hf _))).
  by rewrite Hbuild.
Qed.

Lemma save_local_run index folder w :
  (forall n, fault sv n = None) ->
  save_local sv index folder w =
    (inr tt,
     set_tmp (<[folder +:+ "/index.pkl" := (serialize sv index).2]>
                (<[folder +:+ "/index.faiss" := (serialize sv index).1]> (tmp w)))
       (log (WriteLocal (folder +:+ "/index.pkl"))
          (log (WriteLocal (folder +:+ "/index.faiss")) w))).
Proof.
  intros Hf. unfold save_local. destruct (serialize sv index) as [g m].
  rewrite (bind_run _ _ _ _ _ (write_local_run _ _ _ (Hf _))).
  by rewrite (write_local_run _ _ _ (Hf _)).
Qed.

End Forward.

(** ** Status calls, scratch paths and the staged directory *)

Lemma status_call_fetch uid did s ks : UpdateItem uid did s ∉ map fetch_call ks.
Proof. intros (k & [=] & _)%list_elem_of_fmap. Qed.

Lemma status_call_build uid did s cs :
  forallb is_build cs = true -> UpdateItem uid did s ∉ cs.
Proof.
  intros Hcs Hin. apply list_elem_of_In in Hin.
  rewrite forallb_forall in Hcs. by apply Hcs in Hin.
Qed.

Lemma scratch_path_inj k1 k2 :
  scratch_path k1 = scratch_path k2 <-> file_name_full k1 = file_name_full k2.
Proof.
  unfold scratch_path. split; [|by intros ->]. cbn. intros [= H]. exact H.
Qed.



Lemma staged_app objs ks1 ks2 t :
  staged objs (ks1 ++ ks2) t = staged objs ks2 (staged objs ks1 t).
Proof. apply foldl_app. Qed.



(** ** File names and PDF keys *)

Lemma split_nonempty sep s : split sep s <> [].
Proof.
  destruct s as [|c r]; [done|]. cbn.
  destruct (Ascii.eqb c sep); [done|]. by destruct (split sep r).
Qed.

Lemma split_single sep s h : split sep s = [h] -> h = s.
Proof.
  revert h. induction s as [|c r IH]; intros h; cbn.
  - by intros [= <-].
  - destruct (Ascii.eqb c sep).
    + intros [= _ Hr]. by apply split_nonempty in Hr.
    + destruct (split sep r) as [|h' t] eqn:Hr; [by apply split_nonempty in Hr|].
      intros [= <- ->]. by rewrite (IH h' eq_refl).
Qed.

Lemma file_name_full_slash r :
  file_name_full (String "/" r) = file_name_full r.
Proof.
  unfold file_name_full. cbn.
  destruct (split "/" r) eqn:Hr; [by apply split_nonempty in Hr|done].
Qed.

Lemma file_name_full_other c r :
  Ascii.eqb c "/" = false ->
  file_name_full (String c r) = String c r \/
  (file_name_full (String c r) = file_name_full r /\
   exists h t, split "/" r = h :: t /\ t <> []).
Proof.
  intros Hc. unfold file_name_full. cbn [split]. rewrite Hc.
  destruct (split "/" r) as [|h t] eqn:Hr; [by apply split_nonempty in Hr|].
  destruct t as [|h2 t].
  - left. cbn. by rewrite (split_single _ _ _ Hr).
  - right. split; [done|]. by exists h, (h2 :: t).
Qed.

Lemma lower_ascii_slash c : lower_ascii c = "/"%char -> c = "/"%char.
Proof.
  unfold lower_ascii.
  destruct ((65 <=? nat_of_ascii c)%nat && (nat_of_ascii c <=? 90)%nat) eqn:Hc;
    [|done].
  apply andb_prop in Hc as [H1%Nat.leb_le H2%Nat.leb_le].
  intros H. apply (f_equal nat_of_ascii) in H.
  rewrite nat_ascii_embedding in H by lia.
  change (nat_of_ascii "/") with 47 in H. lia.
Qed.

Lemma split_no_slash s :
  (forall c, c ∈ list_ascii_of_string s -> c <> "/"%char) -> split "/" s = [s].
Proof.
  induction s as [|c r IH]; [done|]. intros Hs. cbn.
  destruct (Ascii.eqb_spec c "/") as [->|_].
  - exfalso. apply (Hs "/"%char); [by left|done].
  - rewrite IH; [done|]. intros c' Hc'. apply Hs. by right.
Qed.

Lemma lower_pdf_no_slash c r :
  String (lower_ascii c) (lower r) = ".pdf" -> split "/" r = [r].
Proof.
  intros [= _ Hr]. apply split_no_slash. intros c' Hin ->.
  destruct r as [|a [|b [|c0 [|? ?]]]]; try done. cbn in Hr.
  injection Hr as Ha Hb Hc0.
  repeat (apply elem_of_cons in Hin as [<-|Hin]; [done|]).
  by apply elem_of_nil in Hin.
Qed.

Lemma is_pdf_file_name key : is_pdf key = is_pdf (file_name_full key).
Proof.
  induction key as [|c r IH]; [done|].
  destruct (Ascii.eqb_spec c "/") as [->|Hc%Ascii.eqb_neq].
  - by rewrite file_name_full_slash, <- IH.
  - destruct (file_name_full_other c r Hc) as [->|(-> & h & t & Hr & Ht)]; [done|].
    rewrite <- IH. unfold is_pdf. cbn [lower endswith].
    destruct (String.eqb_spec (String (lower_ascii c) (lower r)) ".pdf")
      as [Heq|_]; [|done].
    apply lower_pdf_no_slash in Heq. congruence.
Qed.

(** ** Reading back what was put in the bucket *)

Lemma s3_get_put_eq key b objs : s3_get key (s3_put key b objs) = Some b.
Proof.
  induction objs as [|[k v] rest IH]; cbn.
  - by rewrite String.eqb_refl.
  - destruct (String.compare key k) eqn:Hc; cbn.
    + by rewrite String.eqb_refl.
    + by rewrite String.eqb_refl.
    + destruct (String.eqb_spec key k) as [->|_]; [|done].
      pose proof (String.compare_antisym k k) as Ha. rewrite Hc in Ha. done.
Qed.

Lemma s3_get_put_ne key key' b objs :
  key' <> key -> s3_get key' (s3_put key b objs) = s3_get key' objs.
Proof.
  intros Hne. induction objs as [|[k v] rest IH]; cbn.
  - by destruct (String.eqb_spec key' key).
  - destruct (String.compare key k) eqn:Hc; cbn.
    + apply String.compare_eq_iff in Hc as <-.
      by destruct (String.eqb_spec key' key).
    + by destruct (String.eqb_spec key' key).
    + by rewrite IH.
Qed.

Lemma artifact_keys_differ u : geometry_key u <> metadata_key u.
Proof.
  unfold geometry_key, metadata_key. induction u as [|c u IH]; [done|].
  cbn. by intros [= H].
Qed.

(** ** What a run that returns has done *)

Section Completed.
Context {Vec Index : Type}.
Variable sv : Services Vec Index.

Lemma loader_load_ok l w ds w' :
  loader_load sv l w = (inr ds, w') ->
  w' = log (LoaderLoad l) w /\ read_all sv (tmp w) [l] [] = inr ds.
Proof.
  unfold loader_load. intros H. bind_ok H as x w1.
  apply invoke_inv in Hm as [-> _]. unfold bind, get in H. cbn in H.
  destruct (tmp w !! l) as [b|] eqn:Hb; [|done].
  destruct (pdf_pages sv b) eqn:Hp; cbn in H; [done|].
  inversion H; subst. split; [done|]. cbn. by rewrite Hb, Hp.
Qed.

Lemma load_all_ok ls docs w ds w' :
  load_all sv ls docs w = (inr ds, w') ->
  table w' = table w /\ bucket w' = bucket w /\ tmp w' = tmp w /\
  trace w' = trace w ++ map LoaderLoad ls /\
  read_all sv (tmp w) ls docs = inr ds.
Proof.
  revert docs w. induction ls as [|l ls IH]; intros docs w; cbn [load_all].
  - intros [= <- <-]. cbn. by rewrite app_nil_r.
  - intros H. bind_ok H as loaded w1.
    apply loader_load_ok in Hm as [-> Hr].
    apply IH in H as (Ht & Hb & Htmp & Htr & Hds).
    cbn [table bucket tmp trace log map] in *.
    repeat split; [done..| |].
    + by rewrite Htr, <- app_assoc.
    + by rewrite read_all_cons, Hr.
Qed.

Lemma from_loaders_ok ls w index w' :
  from_loaders sv ls w = (inr index, w') ->
  exists docs vectors,
    read_all sv (tmp w) ls [] = inr docs /\
    embed_documents sv (map page_content (split_documents sv docs))
      = inr vectors /\
    faiss_build sv (split_documents sv docs) vectors = inr index /\
    table w' = table w /\ bucket w' = bucket w /\ tmp w' = tmp w /\
    trace w' = trace w ++ map LoaderLoad ls ++
      [EmbedDocuments (map page_content (split_documents sv docs)); BuildIndex].
Proof.
  unfold from_loaders. intros H. bind_ok H as docs w1.
  apply load_all_ok in Hm as (Ht & Hb & Htmp & Htr & Hdocs).
  bind_ok H as x w2. apply invoke_inv in Hm as [-> _].
  bind_ok H as vectors w2. apply lift_inv in Hm as [Hv ->].
  bind_ok H as y w2. apply invoke_inv in Hm as [-> _].
  apply lift_inv in H as [Hi ->].
  exists docs, vectors. repeat split; [done..|].
  cbn. by rewrite Htr, <- !app_assoc.
Qed.

Lemma save_local_ok index folder w x w' :
  save_local sv index folder w = (inr x, w') ->
  w' = set_tmp (<[folder +:+ "/index.pkl" := (serialize sv index).2]>
                  (<[folder +:+ "/index.faiss" := (serialize sv index).1]>
                     (tmp w)))
         (log (WriteLocal (folder +:+ "/index.pkl"))
            (log (WriteLocal (folder +:+ "/index.faiss")) w)).
Proof.
  unfold save_local. destruct (serialize sv index) as [g m]. intros H.
  bind_ok H as y w1.
  apply write_local_inv in Hm as [(e & [=] & _)|[_ ->]].
  by apply write_local_inv in H as [(e & [=] & _)|[_ ->]].
Qed.

(** What a run that reaches its last line has done. *)
Lemma lambda_handler_completed event w w' :
  lambda_handler sv event w = (inr None, w') ->
  let files := staged (bucket w) (pdf_keys (listed w)) (tmp w) in
  let loaders := map scratch_path (pdf_keys (listed w)) in
  exists u d docs vectors index,
    listed w <> [] /\
    trigger sv event = inr (PyStr u, PyStr d) /\
    read_all sv files loaders [] = inr docs /\
    embed_documents sv (map page_content (split_documents sv docs))
      = inr vectors /\
    faiss_build sv (split_documents sv docs) vectors = inr index /\
    table w' =
      set_docstatus (u, d) "READY"
        (set_docstatus (u, d) "PROCESSING" (table w)) /\
    bucket w' =
      s3_put (metadata_key u) (serialize sv index).2
        (s3_put (geometry_key u) (serialize sv index).1 (bucket w)) /\
    tmp w' =
      <["/tmp/index.pkl" := (serialize sv index).2]>
        (<["/tmp/index.faiss" := (serialize sv index).1]> files) /\
    trace w' =
      trace w ++ started u d ++ map fetch_call (pdf_keys (listed w)) ++
      build_calls loaders (map page_content (split_documents sv docs)) ++
      publish_calls u d.
Proof.
  intros H files loaders. pose proof H as Hrun.
  unfold lambda_handler in H.
  bind_ok H as resp w1.
  apply list_objects_v2_inv in Hm as [-> [[e [=]]|(resp' & [= <-] & Hresp)]].
  destruct Hresp as [[Hc Hnone]|(contents & Hc & Hkeys & Hsome)];
    rewrite Hc in H; clear Hc; [done|].
  bind_ok H as record w2.
  destruct event as [|rec event]; [done|]. inversion Hm; subst record w2.
  clear Hm.
  bind_ok H as event_body w2. apply lift_inv in Hm as [Hbody ->].
  bind_ok H as document_id w2. apply lift_inv in Hm as [Hdid ->].
  bind_ok H as user_id w2. apply lift_inv in Hm as [Huid ->].
  assert (Htrig : trigger sv (rec :: event) = inr (user_id, document_id)).
  { cbn. by rewrite <- Hbody, <- Hdid, <- Huid. }
  clear Hbody Hdid Huid.
  bind_ok H as x w2.
  apply update_item_inv in Hm as [(e' & [=] & _)|(k & _ & Hk & ->)].
  apply table_key_inv in Hk as (u & d & -> & -> & ->). clear x.
  bind_ok H as ls w3.
  apply stage_files_inv in Hm as (Ht3 & Hb3 & _ & _ & Hok).
  destruct (Hok ls eq_refl) as (-> & Htr3 & Htmp3). clear Hok.
  rewrite Hkeys in *. cbn in Ht3, Hb3, Htr3, Htmp3. cbn [app] in H.
  bind_ok H as index w4.
  apply from_loaders_ok in Hm
    as (docs & vectors & Hdocs & Hv & Hi & Ht4 & Hb4 & Htmp4 & Htr4).
  bind_ok H as x w5. apply save_local_ok in Hm as ->. clear x.
  bind_ok H as x w6.
  apply upload_file_inv in Hm as [(e' & [=] & _)|(g & _ & Hg & ->)]. clear x.
  bind_ok H as x w7.
  apply upload_file_inv in Hm as [(e' & [=] & _)|(m & _ & Hm' & ->)]. clear x.
  bind_ok H as x w8.
  apply update_item_inv in Hm as [(e' & [=] & _)|(k & _ & [= <-] & ->)].
  inversion H; subst w'. clear H x.
  cbn in Hg, Hm'.
  rewrite lookup_insert_ne in Hg by done. rewrite lookup_insert_eq in Hg.
  rewrite lookup_insert_eq in Hm'. injection Hg as <-. injection Hm' as <-.
  subst files loaders. exists u, d, docs, vectors, index.
  split; [done|]. split; [done|]. split; [by rewrite <- Htmp3|].
  split; [done|]. split; [done|]. cbn.
  split; [by rewrite Ht4, Ht3|]. split; [by rewrite Hb4, Hb3|].
  split; [by rewrite Htmp4, Htmp3|].
  rewrite Htr4, Htr3. unfold build_calls, publish_calls. trace_eq.
Qed.

End Completed.

(** ** Scratch files are kept by every step *)

Section Frames.
Context {Vec Index : Type}.
Variable sv : Services Vec Index.

Lemma keeps_files_refl w : keeps_files w w.
Proof. by intros p. Qed.

Lemma keeps_files_trans w1 w2 w3 :
  keeps_files w1 w2 -> keeps_files w2 w3 -> keeps_files w1 w3.
Proof. intros H1 H2 p Hp. by apply H2, H1. Qed.

Lemma keeps_files_same w w' : tmp w' = tmp w -> keeps_files w w'.
Proof. intros Ht p. by rewrite Ht. Qed.

Lemma keeps_files_insert w w' p b :
  tmp w' = <[p := b]> (tmp w) -> keeps_files w w'.
Proof.
  intros Ht q Hq. rewrite Ht. destruct (decide (p = q)) as [->|Hne].
  - by rewrite lookup_insert_eq.
  - by rewrite lookup_insert_ne.
Qed.

Lemma always_ret {A} (a : A) : always keeps_files (ret a).
Proof. intros w. apply keeps_files_refl. Qed.

Lemma always_raise {A} e : always keeps_files (@raise A e).
Proof. intros w. apply keeps_files_refl. Qed.

Lemma always_lift {A} (x : exn + A) : always keeps_files (lift x).
Proof. destruct x; [apply always_raise|apply always_ret]. Qed.

Lemma always_bind {A B} (m : M A) (f : A -> M B) :
  always keeps_files m -> (forall a, always keeps_files (f a)) ->
  always keeps_files (bind m f).
Proof.
  intros Hm Hf w. unfold bind. specialize (Hm w).
  destruct (m w) as [[e|a] w1]; [done|].
  eapply keeps_files_trans; [exact Hm|apply Hf].
Qed.

Lemma always_invoke c : always keeps_files (invoke sv c).
Proof.
  intros w. unfold invoke. by destruct (fault sv _); apply keeps_files_same.
Qed.

Lemma always_get : always keeps_files get.
Proof. intros w. apply keeps_files_refl. Qed.

Lemma always_list_objects_v2 : always keeps_files (list_objects_v2 sv).
Proof.
  apply always_bind; [apply always_invoke|intros _].
  apply always_bind; [apply always_get|intros w1].
  destruct (take MaxKeys (bucket w1)); apply always_ret.
Qed.

Lemma always_update_item u d s : always keeps_files (update_item sv u d s).
Proof.
  apply always_bind; [apply always_invoke|intros _].
  destruct (table_key u d); [|apply always_raise].
  intros w. by apply keeps_files_same.
Qed.

Lemma always_download_file key f : always keeps_files (download_file sv key f).
Proof.
  apply always_bind; [apply always_invoke|intros _].
  apply always_bind; [apply always_get|intros w1].
  destruct (s3_get key (bucket w1)); [|apply always_raise].
  intros w. by eapply keeps_files_insert.
Qed.

Lemma always_upload_file f key : always keeps_files (upload_file sv f key).
Proof.
  apply always_bind; [apply always_invoke|intros _].
  apply always_bind; [apply always_get|intros w1].
  destruct (tmp w1 !! f); [|apply always_raise].
  intros w. by apply keeps_files_same.
Qed.

Lemma always_write_local p b : always keeps_files (write_local sv p b).
Proof.
  apply always_bind; [apply always_invoke|intros _].
  intros w. by eapply keeps_files_insert.
Qed.

Lemma always_loader_load l : always keeps_files (loader_load sv l).
Proof.
  apply always_bind; [apply always_invoke|intros _].
  apply always_bind; [apply always_get|intros w1].
  destruct (tmp w1 !! l); [|apply always_raise].
  apply always_bind; [apply always_lift|intros pages]. apply always_ret.
Qed.

Lemma always_load_all ls docs : always keeps_files (load_all sv ls docs).
Proof.
  revert docs. induction ls as [|l ls IH]; intros docs; cbn [load_all].
  - apply always_ret.
  - apply always_bind; [apply always_loader_load|intros loaded]. apply IH.
Qed.

Lemma always_from_loaders ls : always keeps_files (from_loaders sv ls).
Proof.
  apply always_bind; [apply always_load_all|intros docs]. cbv zeta.
  apply always_bind; [apply always_invoke|intros _].
  apply always_bind; [apply always_lift|intros vectors].
  apply always_bind; [apply always_invoke|intros _]. apply always_lift.
Qed.

Lemma always_save_local index folder :
  always keeps_files (save_local sv index folder).
Proof.
  unfold save_local. destruct (serialize sv index) as [g m].
  apply always_bind; [apply always_write_local|intros _].
  apply always_write_local.
Qed.

Lemma always_stage_files contents loaders :
  always keeps_files (stage_files sv contents loaders).
Proof.
  revert loaders. induction contents as [|file rest IH]; intros loaders; cbn.
  - apply always_ret.
  - destruct (is_pdf (Key file)); cbn; [|apply IH].
    apply always_bind; [apply always_download_file|intros _]. apply IH.
Qed.

Lemma always_lambda_handler event :
  always keeps_files (lambda_handler sv event).
Proof.
  apply always_bind; [apply always_list_objects_v2|intros resp].
  destruct (Contents resp) as [contents|]; [|apply always_ret].
  apply always_bind; [destruct event; [apply always_raise|apply always_ret]|].
  intros record.
  apply always_bind; [apply always_lift|intros event_body].
  apply always_bind; [apply always_lift|intros document_id].
  apply always_bind; [apply always_lift|intros user_id].
  apply always_bind; [apply always_update_item|intros _].
  apply always_bind; [apply always_stage_files|intros loaders].
  apply always_bind; [apply always_from_loaders|intros index].
  apply always_bind; [apply always_save_local|intros _].
  apply always_bind; [apply always_upload_file|intros _].
  apply always_bind; [apply always_upload_file|intros _].
  apply always_bind; [apply always_update_item|intros _].
  apply always_ret.
Qed.

End Frames.

(** ** Runs that nothing refuses *)

Section ForwardRuns.
Context {Vec Index : Type}.
Variable sv : Services Vec Index.

Lemma s3_get_listed n k (objs : list (string * bytes)) :
  k ∈ map fst (take n objs) -> is_Some (s3_get k objs).
Proof.
  revert n. induction objs as [|[k' b] objs IH]; intros [|n]; cbn;
    try by intros ?%elem_of_nil.
  intros [->|Hin]%elem_of_cons.
  - by rewrite String.eqb_refl.
  - destruct (String.eqb k k'); [done|]. by eapply IH.
Qed.

Lemma download_file_run key f b w :
  fault sv (length (trace w)) = None ->
  s3_get key (bucket w) = Some b ->
  download_file sv key f w =
    (inr tt, set_tmp (<[f := b]> (tmp w)) (log (DownloadFile key f) w)).
Proof.
  intros Hf Hb. unfold download_file.
  rewrite (bind_run _ _ _ _ _ (invoke_run _ _ _ Hf)).
  unfold bind, get. cbn. by rewrite Hb.
Qed.

Lemma stage_files_run contents loaders w :
  (forall n, fault sv n = None) ->
  (forall k, k ∈ pdf_keys (map Key contents) -> is_Some (s3_get k (bucket w))) ->
  exists ls w1, stage_files sv contents loaders w = (inr ls, w1).
Proof.
  intros Hf. revert loaders w.
  induction contents as [|file rest IH]; intros loaders w Hin; cbn.
  - by eexists _, _.
  - cbn in Hin. destruct (is_pdf (Key file)) eqn:Hpdf; cbn.
    + destruct (Hin (Key file)) as [b Hb]; [by left|].
      rewrite (bind_run _ _ _ _ _ (download_file_run _ _ _ _ (Hf _) Hb)).
      apply IH. intros k Hk. cbn. apply Hin. by right.
    + by apply IH.
Qed.

Lemma load_all_run ls docs ds w :
  (forall n, fault sv n = None) ->
  read_all sv (tmp w) ls docs = inr ds ->
  exists w1, load_all sv ls docs w = (inr ds, w1).
Proof.
  intros Hf. revert docs w. induction ls as [|l ls IH]; intros docs w; cbn.
  - intros [= <-]. by eexists.
  - destruct (tmp w !! l) as [b|] eqn:Hb; [|done].
    destruct (pdf_pages sv b) as [e|pages] eqn:Hp; [done|]. intros Hr.
    unfold loader_load.
    unfold bind at 1. unfold bind at 1. rewrite (invoke_run _ _ _ (Hf _)).
    unfold bind at 1, get. cbn [tmp log]. rewrite Hb, Hp. cbn [lift].
    rewrite bind_ret. cbn [ret]. by apply IH.
Qed.

Lemma from_loaders_run ls docs vectors index w :
  (forall n, fault sv n = None) ->
  read_all sv (tmp w) ls [] = inr docs ->
  embed_documents sv (map page_content (split_documents sv docs))
    = inr vectors ->
  faiss_build sv (split_documents sv docs) vectors = inr index ->
  exists w1, from_loaders sv ls w = (inr index, w1).
Proof.
  intros Hf Hdocs Hv Hi. unfold from_loaders.
  destruct (load_all_run _ _ _ _ Hf Hdocs) as [w1 Hl].
  rewrite (bind_run _ _ _ _ _ Hl). cbv zeta.
  rewrite (bind_run _ _ _ _ _ (invoke_run _ _ _ (Hf _))).
  rewrite Hv, bind_lift.
  rewrite (bind_run _ _ _ _ _ (invoke_run _ _ _ (Hf _))).
  rewrite Hi. by eexists.
Qed.

Lemma lambda_handler_run event w u d docs vectors index :
  (forall n, fault sv n = None) ->
  listed w <> [] ->
  trigger sv event = inr (PyStr u, PyStr d) ->
  read_all sv (staged (bucket w) (pdf_keys (listed w)) (tmp w))
    (map scratch_path (pdf_keys (listed w))) [] = inr docs ->
  embed_documents sv (map page_content (split_documents sv docs))
    = inr vectors ->
  faiss_build sv (split_documents sv docs) vectors = inr index ->
  exists w', lambda_handler sv event w = (inr None, w').
Proof.
  intros Hf Hne Htrig Hdocs Hv Hi.
  destruct (list_objects_v2_run sv w Hne (Hf _)) as (contents & Hkeys & Hlist).
  apply trigger_inv in Htrig as (rec & rest & event_body & -> & Hb & Hd & Hu).
  unfold lambda_handler.
  rewrite (bind_run _ _ _ _ _ Hlist). cbn [Contents first_record].
  rewrite bind_ret, Hb, bind_lift, Hd, bind_lift, Hu, bind_lift.
  unfold set_doc_status.
  rewrite (bind_run _ _ _ _ _ (update_item_run sv _ _ _ _ (Hf _))).
  match goal with |- context [bind (stage_files sv contents []) _ ?w0] =>
    destruct (stage_files_run contents [] w0 Hf) as (ls & w1 & Hs)
  end.
  { intros k [Hk _]%list_elem_of_In%filter_In. apply list_elem_of_In in Hk.
    rewrite Hkeys in Hk. cbn. by eapply s3_get_listed. }
  rewrite (bind_run _ _ _ _ _ Hs).
  apply stage_files_inv in Hs as (_ & _ & _ & _ & Hok).
  destruct (Hok ls eq_refl) as (-> & _ & Htmp). clear Hok.
  rewrite Hkeys in *. cbn in Htmp. cbn [app].
  rewrite <- Htmp in Hdocs.
  destruct (from_loaders_run _ _ _ _ w1 Hf Hdocs Hv Hi) as [w2 Hfl].
  rewrite (bind_run _ _ _ _ _ Hfl).
  rewrite (bind_run _ _ _ _ _ (save_local_run sv _ _ _ Hf)).
  erewrite (bind_run _ _ _ _ _
              (upload_file_run sv _ _ (serialize sv index).1 _ (Hf _) _)).
  erewrite (bind_run _ _ _ _ _
              (upload_file_run sv _ _ (serialize sv index).2 _ (Hf _) _)).
  rewrite (bind_run _ _ _ _ _ (update_item_run sv _ _ _ _ (Hf _))).
  by eexists.
  Unshelve.
  all: cbn; rewrite ?lookup_insert_ne by done; by rewrite lookup_insert_eq.
Qed.

End ForwardRuns.

(** ** Records, objects and file names *)

Lemma set_docstatus_attribute k s t k' a :
  (k' = k -> a <> "docstatus") ->
  (set_docstatus k s t !! k') ≫= (fun item => item !! a) =
  (t !! k') ≫= (fun item => item !! a).
Proof.
  intros Hka. unfold set_docstatus. destruct (decide (k' = k)) as [->|Hne].
  - rewrite lookup_insert_eq. cbn.
    rewrite lookup_insert_ne by (intros Heq; by apply Hka).
    by destruct (t !! k).
  - by rewrite lookup_insert_ne.
Qed.

Lemma set_docstatus_keeps k s t k' :
  is_Some (t !! k') -> is_Some (set_docstatus k s t !! k').
Proof.
  unfold set_docstatus. destruct (decide (k' = k)) as [->|Hne].
  - by rewrite lookup_insert_eq.
  - by rewrite lookup_insert_ne.
Qed.

Lemma set_docstatus_twice k s1 s2 t :
  set_docstatus k s2 (set_docstatus k s1 t) = set_docstatus k s2 t.
Proof.
  unfold set_docstatus. rewrite lookup_insert_eq. cbn.
  by rewrite !insert_insert_eq.
Qed.

Lemma append_nil_l s : "" +:+ s = s.
Proof. done. Qed.

Lemma append_cons c u v : String c u +:+ v = String c (u +:+ v).
Proof. done. Qed.

Lemma split_app sep u v :
  split sep (u +:+ String sep v) = split sep u ++ split sep v.
Proof.
  induction u as [|c u IH].
  - rewrite append_nil_l. cbn. by rewrite Ascii.eqb_refl.
  - rewrite append_cons. cbn. destruct (Ascii.eqb c sep); [by rewrite IH|].
    rewrite IH. destruct (split sep u) as [|h t] eqn:Hu; [|done].
    by apply split_nonempty in Hu.
Qed.

Lemma split_last_suffix s :
  match split "/" s with
  | [h] => s = h
  | parts => exists dir, s = dir +:+ String "/" (List.last parts "")
  end.
Proof.
  induction s as [|c r IH]; [done|]. cbn [split].
  destruct (Ascii.eqb_spec c "/") as [->|Hc].
  - destruct (split "/" r) as [|h [|h2 t]] eqn:Hr.
    + by apply split_nonempty in Hr.
    + subst r. by exists "".
    + destruct IH as [dir Hdir]. exists (String "/" dir).
      rewrite append_cons. f_equal. exact Hdir.
  - destruct (split "/" r) as [|h [|h2 t]] eqn:Hr.
    + by apply split_nonempty in Hr.
    + by subst r.
    + destruct IH as [dir Hdir]. exists (String c dir).
      rewrite append_cons. f_equal. exact Hdir.
Qed.

Lemma last_app_cons {A} (l1 : list A) h t d :
  List.last (l1 ++ h :: t) d = List.last (h :: t) d.
Proof.
  induction l1 as [|a l1 IH]; [done|]. rewrite <- IH. cbn.
  by destruct (l1 ++ h :: t) eqn:Hl; [destruct l1|].
Qed.

Lemma file_name_full_app u name :
  file_name_full (u +:+ String "/" name) = file_name_full name.
Proof.
  unfold file_name_full. rewrite split_app.
  destruct (split "/" name) as [|h t] eqn:Hn; [by apply split_nonempty in Hn|].
  by rewrite last_app_cons.
Qed.

Lemma split_sep_free sep s :
  Forall (fun part => forall c, c ∈ list_ascii_of_string part -> c <> sep)
    (split sep s).
Proof.
  induction s as [|c s IH]; cbn.
  - constructor; [|constructor]. by intros c ?%elem_of_nil.
  - destruct (Ascii.eqb_spec c sep) as [->|Hc].
    + constructor; [|done]. by intros c ?%elem_of_nil.
    + destruct (split sep s) as [|h t]; [|inversion IH; subst].
      * constructor; [|constructor]. cbn.
        intros c' [->|?%elem_of_nil]%elem_of_cons; done.
      * constructor; [|done]. cbn.
        intros c' [->|Hin]%elem_of_cons; [done|by apply H1].
Qed.

Lemma last_Forall {A} (P : A -> Prop) (l : list A) d :
  l <> [] -> Forall P l -> P (List.last l d).
Proof.
  induction l as [|a [|b l] IH]; [done| |].
  - intros _ HP. by inversion HP.
  - intros _ HP. inversion HP; subst. by apply IH.
Qed.

Lemma artifact_keys_not_pdf u :
  is_pdf (geometry_key u) = false /\ is_pdf (metadata_key u) = false.
Proof.
  unfold geometry_key, metadata_key.
  rewrite (is_pdf_file_name (u +:+ "/index.faiss")).
  rewrite (is_pdf_file_name (u +:+ "/index.pkl")).
  by rewrite !file_name_full_app.
Qed.

Lemma s3_get_put_other_kind key key' b objs :
  is_pdf key' = true -> is_pdf key = false ->
  s3_get key' (s3_put key b objs) = s3_get key' objs.
Proof. intros H1 H2. apply s3_get_put_ne. congruence. Qed.

Lemma s3_put_length key b objs : length (s3_put key b objs) <= S (length objs).
Proof.
  induction objs as [|[k v] rest IH]; cbn; [lia|].
  destruct (String.compare key k); cbn; lia.
Qed.

Lemma pdf_keys_s3_put key b objs :
  is_pdf key = false ->
  pdf_keys (map fst (s3_put key b objs)) = pdf_keys (map fst objs).
Proof.
  intros Hk. unfold pdf_keys.
  induction objs as [|[k v] rest IH]; cbn [s3_put map fst List.filter].
  { by rewrite Hk. }
  destruct (String.compare key k) eqn:Hc; cbn [map fst List.filter].
  - apply String.compare_eq_iff in Hc as <-. by rewrite Hk.
  - by rewrite Hk.
  - by rewrite IH.
Qed.

Lemma staged_lookup_ext objs1 objs2 ks t1 t2 p :
  (forall k, k ∈ ks -> s3_get k objs1 = s3_get k objs2) ->
  (t1 !! p = t2 !! p \/
   exists k, k ∈ ks /\ scratch_path k = p /\ is_Some (s3_get k objs1)) ->
  staged objs1 ks t1 !! p = staged objs2 ks t2 !! p.
Proof.
  revert t1 t2. induction ks as [|k ks IH]; intros t1 t2 Hobjs Hp.
  - destruct Hp as [Hp|(k & Hk & _)]; [done|by apply elem_of_nil in Hk].
  - rewrite !staged_cons. rewrite <- (Hobjs k) by by left.
    apply IH; [intros k' Hk'; apply Hobjs; by right|].
    destruct (s3_get k objs1) as [b|] eqn:Hb.
    + destruct (decide (scratch_path k = p)) as [<-|Hne].
      * left. by rewrite !lookup_insert_eq.
      * rewrite !lookup_insert_ne by done.
        destruct Hp as [Hp|(k' & [->|Hk']%elem_of_cons & Hpath & Hs)];
          [by left|done|]. right. by exists k'.
    + destruct Hp as [Hp|(k' & [->|Hk']%elem_of_cons & Hpath & Hs)];
        [by left| |].
      * rewrite Hb in Hs. by destruct Hs.
      * right. by exists k'.
Qed.

(** ** A refused call ends the run *)

Section Refusals.
Context {Vec Index : Type}.
Variable sv : Services Vec Index.

Lemma ends_silent {A} (m : M A) :
  (forall w, trace (m w).2 = trace w) -> ends_at_refusal sv m.
Proof.
  intros Hm w r w' H. pose proof (Hm w) as Ht. rewrite H in Ht. cbn in Ht.
  rewrite Ht. split; [done|]. intros i e H1 H2. lia.
Qed.

Lemma ends_ret {A} (a : A) : ends_at_refusal sv (ret a).
Proof. by apply ends_silent. Qed.

Lemma ends_raise {A} e : ends_at_refusal sv (@raise A e).
Proof. by apply ends_silent. Qed.

Lemma ends_lift {A} (x : exn + A) : ends_at_refusal sv (lift x).
Proof. destruct x; [apply ends_raise|apply ends_ret]. Qed.

Lemma ends_get : ends_at_refusal sv get.
Proof. by apply ends_silent. Qed.

Lemma ends_modify f :
  (forall w, trace (f w) = trace w) -> ends_at_refusal sv (modify f).
Proof. intros Hf. by apply ends_silent. Qed.

Lemma ends_invoke c : ends_at_refusal sv (invoke sv c).
Proof.
  intros w r w' H. apply invoke_inv in H as [-> Hr]. cbn.
  rewrite length_app. cbn. split; [lia|]. intros i e H1 H2 Hf.
  assert (i = length (trace w)) as -> by lia.
  destruct Hr as [[_ Hn]|(e' & -> & He)]; [congruence|].
  split; [congruence|lia].
Qed.

Lemma ends_bind {A B} (m : M A) (f : A -> M B) :
  ends_at_refusal sv m -> (forall a, ends_at_refusal sv (f a)) ->
  ends_at_refusal sv (bind m f).
Proof.
  intros Hm Hf w r w' H.
  apply bind_inv in H as [(e & H & ->)|(a & w1 & H1 & H2)].
  - apply Hm in H as [Hle Hr]. split; [done|]. intros i e0 Hi1 Hi2 Hfault.
    destruct (Hr i e0 Hi1 Hi2 Hfault) as [[= ->] Hlen]. done.
  - apply Hm in H1 as [Hle1 Hr1]. apply Hf in H2 as [Hle2 Hr2].
    split; [lia|]. intros i e Hi1 Hi2 Hfault.
    destruct (decide (i < length (trace w1))) as [Hlt|Hge].
    + by destruct (Hr1 i e Hi1 Hlt Hfault).
    + apply Hr2; [lia|done..].
Qed.

Lemma ends_list_objects_v2 : ends_at_refusal sv (list_objects_v2 sv).
Proof.
  apply ends_bind; [apply ends_invoke|intros _].
  apply ends_bind; [apply ends_get|intros w1].
  destruct (take MaxKeys (bucket w1)); apply ends_ret.
Qed.

Lemma ends_update_item u d s : ends_at_refusal sv (update_item sv u d s).
Proof.
  apply ends_bind; [apply ends_invoke|intros _].
  destruct (table_key u d); [by apply ends_modify|apply ends_raise].
Qed.

Lemma ends_download_file key f : ends_at_refusal sv (download_file sv key f).
Proof.
  apply ends_bind; [apply ends_invoke|intros _].
  apply ends_bind; [apply ends_get|intros w1].
  destruct (s3_get key (bucket w1)); [by apply ends_modify|apply ends_raise].
Qed.

Lemma ends_upload_file f key : ends_at_refusal sv (upload_file sv f key).
Proof.
  apply ends_bind; [apply ends_invoke|intros _].
  apply ends_bind; [apply ends_get|intros w1].
  destruct (tmp w1 !! f); [by apply ends_modify|apply ends_raise].
Qed.

Lemma ends_write_local p b : ends_at_refusal sv (write_local sv p b).
Proof.
  apply ends_bind; [apply ends_invoke|intros _]. by apply ends_modify.
Qed.

Lemma ends_loader_load l : ends_at_refusal sv (loader_load sv l).
Proof.
  apply ends_bind; [apply ends_invoke|intros _].
  apply ends_bind; [apply ends_get|intros w1].
  destruct (tmp w1 !! l); [|apply ends_raise].
  apply ends_bind; [apply ends_lift|intros pages]. apply ends_ret.
Qed.

Lemma ends_load_all ls docs : ends_at_refusal sv (load_all sv ls docs).
Proof.
  revert docs. induction ls as [|l ls IH]; intros docs; cbn.
  - apply ends_ret.
  - apply ends_bind; [apply ends_loader_load|intros loaded]. apply IH.
Qed.

Lemma ends_from_loaders ls : ends_at_refusal sv (from_loaders sv ls).
Proof.
  apply ends_bind; [apply ends_load_all|intros docs].
  apply ends_bind; [apply ends_invoke|intros _].
  apply ends_bind; [apply ends_lift|intros vectors].
  apply ends_bind; [apply ends_invoke|intros _]. apply ends_lift.
Qed.

Lemma ends_save_local index folder :
  ends_at_refusal sv (save_local sv index folder).
Proof.
  unfold save_local. destruct (serialize sv index) as [g m].
  apply ends_bind; [apply ends_write_local|intros _]. apply ends_write_local.
Qed.

Lemma ends_stage_files contents loaders :
  ends_at_refusal sv (stage_files sv contents loaders).
Proof.
  revert loaders. induction contents as [|file rest IH]; intros loaders; cbn.
  - apply ends_ret.
  - destruct (is_pdf (Key file)); cbn; [|apply IH].
    apply ends_bind; [apply ends_download_file|intros _]. apply IH.
Qed.

Lemma ends_lambda_handler event : ends_at_refusal sv (lambda_handler sv event).
Proof.
  apply ends_bind; [apply ends_list_objects_v2|intros response].
  destruct (Contents response) as [contents|]; [|apply ends_ret].
  apply ends_bind; [destruct event; [apply ends_raise|apply ends_ret]|].
  intros record.
  apply ends_bind; [apply ends_lift|intros event_body].
  apply ends_bind; [apply ends_lift|intros document_id].
  apply ends_bind; [apply ends_lift|intros user_id].
  apply ends_bind; [apply ends_update_item|intros _].
  apply ends_bind; [apply ends_stage_files|intros loaders].
  apply ends_bind; [apply ends_from_loaders|intros index].
  apply ends_bind; [apply ends_save_local|intros _].
  apply ends_bind; [apply ends_upload_file|intros _].
  apply ends_bind; [apply ends_upload_file|intros _].
  apply ends_bind; [apply ends_update_item|intros _]. apply ends_ret.
Qed.

End Refusals.

(** ** Runs in which no call is refused: the libraries decide *)

Section Unrefused.
Context {Vec Index : Type}.
Variable sv : Services Vec Index.
Hypothesis Hf : forall n, fault sv n = None.

Lemma load_all_unrefused ls docs w :
  exists w1, load_all sv ls docs w = (read_all sv (tmp w) ls docs, w1).
Proof.
  revert docs w. induction ls as [|l ls IH]; intros docs w; cbn.
  - by eexists.
  - unfold loader_load.
    unfold bind at 1. unfold bind at 1. rewrite (invoke_run _ _ _ (Hf _)).
    unfold bind at 1, get. cbn [tmp log].
    destruct (tmp w !! l) as [b|] eqn:Hb; [|by eexists].
    destruct (pdf_pages sv b) as [e|pages] eqn:Hp; cbn [lift].
    + by eexists.
    + rewrite bind_ret. cbn [ret].
      destruct (IH (docs ++ imap (fun i text =>
                      {| page_content := text; source := l; page := i |}) pages)
                   (log (LoaderLoad l) w)) as [w1 H1].
      exists w1. exact H1.
Qed.

Lemma from_loaders_unrefused ls w :
  exists w1, from_loaders sv ls w = (built sv (tmp w) ls, w1).
Proof.
  unfold from_loaders, built, from_documents.
  destruct (load_all_unrefused ls [] w) as [w1 Hl].
  unfold bind at 1. rewrite Hl.
  destruct (read_all sv (tmp w) ls []) as [e|docs]; [by eexists|]. cbv zeta.
  rewrite (bind_run _ _ _ _ _ (invoke_run _ _ _ (Hf _))).
  destruct (embed_documents sv _) as [e|vectors]; [by eexists|].
  rewrite bind_lift.
  rewrite (bind_run _ _ _ _ _ (invoke_run _ _ _ (Hf _))).
  destruct (faiss_build sv _ _); by eexists.
Qed.

Lemma lambda_handler_unrefused event w u d :
  listed w <> [] ->
  trigger sv event = inr (PyStr u, PyStr d) ->
  (lambda_handler sv event w).1 =
    match built sv (staged (bucket w) (pdf_keys (listed w)) (tmp w))
            (map scratch_path (pdf_keys (listed w))) with
    | inl e => inl e
    | inr _ => inr None
    end.
Proof.
  intros Hne Htrig.
  destruct (built sv _ _) as [e|index] eqn:Hbuilt.
  2: { unfold built, from_documents in Hbuilt.
       destruct (read_all sv _ _ []) as [e|docs] eqn:Hdocs; [done|].
       destruct (embed_documents sv _) as [e|vectors] eqn:Hv; [done|].
       destruct (lambda_handler_run sv event w u d docs vectors index
                   Hf Hne Htrig Hdocs Hv Hbuilt) as [w' ->]. done. }
  destruct (list_objects_v2_run sv w Hne (Hf _)) as (contents & Hkeys & Hlist).
  apply trigger_inv in Htrig as (rec & rest & event_body & -> & Hb & Hd & Hu).
  unfold lambda_handler.
  rewrite (bind_run _ _ _ _ _ Hlist). cbn [Contents first_record].
  rewrite bind_ret, Hb, bind_lift, Hd, bind_lift, Hu, bind_lift.
  unfold set_doc_status.
  rewrite (bind_run _ _ _ _ _ (update_item_run sv _ _ _ _ (Hf _))).
  match goal with |- context [bind (stage_files sv contents []) _ ?w0] =>
    destruct (stage_files_run sv contents [] w0 Hf) as (ls & w1 & Hs)
  end.
  { intros k [Hk _]%list_elem_of_In%filter_In. apply list_elem_of_In in Hk.
    rewrite Hkeys in Hk. cbn. by eapply s3_get_listed. }
  rewrite (bind_run _ _ _ _ _ Hs).
  apply stage_files_inv in Hs as (_ & _ & _ & _ & Hok).
  destruct (Hok ls eq_refl) as (-> & _ & Htmp). clear Hok.
  rewrite Hkeys in *. cbn in Htmp. cbn [app].
  destruct (from_loaders_unrefused (map scratch_path (pdf_keys (listed w))) w1)
    as [w2 Hfl].
  rewrite Htmp, Hbuilt in Hfl. unfold bind at 1. by rewrite Hfl.
Qed.

End Unrefused.

(** ** Runs that reach the uploads *)

Lemma existsb_none (P Q : call -> bool) cs :
  (forall c, Q c = true -> P c = false) ->
  forallb Q cs = true -> existsb P cs = false.
Proof.
  intros HP. induction cs as [|c cs IH]; [done|]. cbn.
  intros [Hc Hcs]%andb_prop. by rewrite (HP c Hc), (IH Hcs).
Qed.

Lemma upload_fetch_calls ks : existsb is_upload (map fetch_call ks) = false.
Proof. induction ks as [|k ks IH]; [done|]. cbn. done. Qed.

Lemma upload_build cs : forallb is_build cs = true -> existsb is_upload cs = false.
Proof. apply existsb_none. by intros []. Qed.

Lemma upload_write_local cs :
  forallb is_write_local cs = true -> existsb is_upload cs = false.
Proof. apply existsb_none. by intros []. Qed.

Lemma upload_loads ls : existsb is_upload (map LoaderLoad ls) = false.
Proof. induction ls as [|l ls IH]; [done|]. cbn. done. Qed.

Lemma upload_build_calls ls texts :
  existsb is_upload (build_calls ls texts) = false.
Proof.
  unfold build_calls. rewrite existsb_app, upload_loads. done.
Qed.

Section Publishing.
Context {Vec Index : Type}.
Variable sv : Services Vec Index.

Lemma bind_fail {A B} (m : M A) (f : A -> M B) w e w1 :
  m w = (inl e, w1) -> bind m f w = (inl e, w1).
Proof. unfold bind. by intros ->. Qed.

Lemma upload_file_fault f key w e :
  fault sv (length (trace w)) = Some e ->
  upload_file sv f key w = (inl e, log (UploadFile f key) w).
Proof.
  intros Hf. unfold upload_file. by rewrite (bind_fail _ _ _ _ _ (invoke_fault _ _ _ _ Hf)).
Qed.

Lemma update_item_fault u d s w e :
  fault sv (length (trace w)) = Some e ->
  update_item sv u d s w = (inl e, log (UpdateItem u d s) w).
Proof.
  intros Hf. unfold update_item. by rewrite (bind_fail _ _ _ _ _ (invoke_fault _ _ _ _ Hf)).
Qed.

(** A run that has asked for an upload has built its index from the staged
    files and saved it; it then stops at the first of the last three calls
    that is refused. *)
Lemma lambda_handler_publishing event w r w' :
  lambda_handler sv event w = (r, w') ->
  existsb is_upload (calls_since w w') = true ->
  let files := staged (bucket w) (pdf_keys (listed w)) (tmp w) in
  let loaders := map scratch_path (pdf_keys (listed w)) in
  exists u d docs index,
    listed w <> [] /\
    trigger sv event = inr (PyStr u, PyStr d) /\
    read_all sv files loaders [] = inr docs /\
    from_documents sv docs = inr index /\
    let before :=
      started u d ++ map fetch_call (pdf_keys (listed w)) ++
      build_calls loaders (map page_content (split_documents sv docs)) in
    let first := length (trace w) + length before in
    let g := (serialize sv index).1 in
    let m := (serialize sv index).2 in
    let processing := set_docstatus (u, d) "PROCESSING" (table w) in
    tmp w' = <["/tmp/index.pkl" := m]> (<["/tmp/index.faiss" := g]> files) /\
    ((exists e,
        fault sv first = Some e /\ r = inl e /\
        calls_since w w' = before ++ [upload_geometry u] /\
        bucket w' = bucket w /\ table w' = processing) \/
     (exists e,
        fault sv first = None /\ fault sv (S first) = Some e /\ r = inl e /\
        calls_since w w' = before ++ [upload_geometry u; upload_metadata u] /\
        bucket w' = s3_put (geometry_key u) g (bucket w) /\
        table w' = processing) \/
     (fault sv first = None /\ fault sv (S first) = None /\
      calls_since w w' = before ++ publish_calls u d /\
      bucket w' =
        s3_put (metadata_key u) m (s3_put (geometry_key u) g (bucket w)) /\
      ((exists e,
          fault sv (S (S first)) = Some e /\ r = inl e /\
          table w' = processing) \/
       (fault sv (S (S first)) = None /\ r = inr None /\
        table w' = set_docstatus (u, d) "READY" processing)))).
Proof.
  intros H Hup files loaders. unfold lambda_handler in H.
  bind_step H as resp wl.
  { apply list_objects_v2_inv in Hm as [-> _]. by rewrite calls_since_log in Hup. }
  apply list_objects_v2_inv in Hm as [-> [[e [=]]|(resp' & [= <-] & Hresp)]].
  destruct Hresp as [[Hc Hnone]|(contents & Hc & Hkeys & Hsome)];
    rewrite Hc in H; clear Hc.
  { inversion H; subst. by rewrite calls_since_log in Hup. }
  bind_step H as record w0.
  { destruct event; inversion Hm; subst. by rewrite calls_since_log in Hup. }
  destruct event as [|rec event]; [done|]. inversion Hm; subst record w0.
  clear Hm.
  bind_step H as event_body w0.
  { apply lift_inv in Hm as [He ->]. by rewrite calls_since_log in Hup. }
  apply lift_inv in Hm as [Hbody ->].
  bind_step H as document_id w0.
  { apply lift_inv in Hm as [He ->]. by rewrite calls_since_log in Hup. }
  apply lift_inv in Hm as [Hdid ->].
  bind_step H as user_id w0.
  { apply lift_inv in Hm as [He ->]. by rewrite calls_since_log in Hup. }
  apply lift_inv in Hm as [Huid ->].
  assert (Htrig : trigger sv (rec :: event) = inr (user_id, document_id)).
  { cbn. by rewrite <- Hbody, <- Hdid, <- Huid. }
  clear Hbody Hdid Huid.
  bind_step H as x w1.
  { apply update_item_inv in Hm as [(e' & [= <-] & ->)|(k & [=] & _)].
    by rewrite calls_since_log2 in Hup. }
  apply update_item_inv in Hm as [(e' & [=] & _)|(k & _ & Hk & ->)].
  apply table_key_inv in Hk as (u & d & -> & -> & ->). clear x.
  bind_step H as ls w2.
  { apply stage_files_inv in Hm as (_ & _ & n & Htr & _). exfalso.
    cbn in Htr. rewrite <- !app_assoc in Htr. apply calls_since_app in Htr.
    rewrite Htr in Hup. cbn in Hup. by rewrite upload_fetch_calls in Hup. }
  apply stage_files_inv in Hm as (Ht2 & Hb2 & _ & _ & Hok).
  destruct (Hok ls eq_refl) as (-> & Htr2 & Htmp2). clear Hok.
  rewrite Hkeys in *. cbn in Ht2, Hb2, Htr2, Htmp2. cbn [app] in H.
  bind_step H as index w3.
  { apply from_loaders_inv in Hm as (_ & _ & _ & cs & Htr3 & Hcs & _). exfalso.
    rewrite Htr2, <- !app_assoc in Htr3. apply calls_since_app in Htr3.
    rewrite Htr3 in Hup. cbn in Hup.
    by rewrite existsb_app, upload_fetch_calls, (upload_build _ Hcs) in Hup. }
  apply from_loaders_ok in Hm
    as (docs & vectors & Hdocs & Hv & Hi & Ht3 & Hb3 & Htmp3 & Htr3).
  bind_step H as x w4.
  { apply save_local_quiet in Hm as (_ & _ & cs & Htr4 & Hcs). exfalso.
    rewrite Htr3, Htr2, <- !app_assoc in Htr4. apply calls_since_app in Htr4.
    rewrite Htr4 in Hup. rewrite !existsb_app in Hup. cbn in Hup.
    by rewrite upload_fetch_calls, upload_loads, (upload_write_local _ Hcs)
      in Hup. }
  apply save_local_ok in Hm as ->. clear x.
  subst files loaders. exists u, d, docs, index.
  split; [done|]. split; [done|]. split; [by rewrite <- Htmp2|].
  split; [by unfold from_documents; rewrite Hv|].
  intros before first g m processing.
  match type of H with bind _ _ ?w5 = _ => set (w5' := w5) in * end.
  assert (Htr5 : trace w5' = trace w ++ before).
  { unfold w5', before, build_calls. cbn [trace set_tmp log].
    rewrite Htr3, Htr2. trace_eq. }
  assert (Hg : tmp w5' !! "/tmp/index.faiss" = Some g).
  { unfold w5'. cbn. rewrite lookup_insert_ne by done. by rewrite lookup_insert_eq. }
  assert (Hm5 : tmp w5' !! "/tmp/index.pkl" = Some m).
  { unfold w5'. cbn. by rewrite lookup_insert_eq. }
  assert (Ht5 : table w5' = processing) by (unfold w5'; cbn; by rewrite Ht3, Ht2).
  assert (Hb5 : bucket w5' = bucket w) by (unfold w5'; cbn; by rewrite Hb3, Hb2).
  assert (Hf5 : tmp w5' = <["/tmp/index.pkl" := m]>
                            (<["/tmp/index.faiss" := g]>
                               (staged (bucket w) (pdf_keys (listed w)) (tmp w)))).
  { unfold w5'. cbn. by rewrite Htmp3, Htmp2. }
  assert (Hl5 : length (trace w5') = first).
  { rewrite Htr5, length_app. done. }
  assert (Hcalls : forall w'' cs, trace w'' = trace w5' ++ cs ->
            calls_since w w'' = before ++ cs).
  { intros w'' cs Hw. apply calls_since_app. by rewrite Hw, Htr5, <- app_assoc. }
  clearbody w5'. clear Htr3 Htr2 Ht3 Ht2 Hb3 Hb2 Htmp3 Htmp2 Htr5.
  assert (Hl6 : forall c : call, length (trace w5' ++ [c]) = S first).
  { intros c. rewrite length_app, Hl5. cbn. lia. }
  assert (Hl7 : forall c1 c2 : call,
            length ((trace w5' ++ [c1]) ++ [c2]) = S (S first)).
  { intros c1 c2. rewrite length_app, Hl6. cbn. lia. }
  destruct (fault sv first) as [e1|] eqn:Hf1.
  { assert (Hfa : fault sv (length (trace w5')) = Some e1) by by rewrite Hl5.
    rewrite (bind_fail _ _ _ _ _ (upload_file_fault _ _ _ _ Hfa)) in H.
    injection H as <- <-. split; [done|]. left. exists e1.
    split; [done|]. split; [done|]. split; [|done].
    by apply Hcalls. }
  assert (Hfa : fault sv (length (trace w5')) = None) by by rewrite Hl5.
  rewrite (bind_run _ _ _ _ _ (upload_file_run sv _ _ g _ Hfa Hg)) in H.
  clear Hfa.
  match type of H with bind _ _ ?w6 = _ => set (w6' := w6) in * end.
  assert (Hm6 : tmp w6' !! "/tmp/index.pkl" = Some m) by done.
  destruct (fault sv (S first)) as [e2|] eqn:Hf2.
  { assert (Hfa : fault sv (length (trace w6')) = Some e2)
      by (unfold w6'; cbn; by rewrite Hl6).
    rewrite (bind_fail _ _ _ _ _ (upload_file_fault _ _ _ _ Hfa)) in H.
    injection H as <- <-. split; [done|]. right. left. exists e2.
    split; [done|]. split; [done|]. split; [done|].
    split; [|by cbn; rewrite Hb5].
    apply Hcalls. cbn. by rewrite <- app_assoc. }
  assert (Hfa : fault sv (length (trace w6')) = None)
    by (unfold w6'; cbn; by rewrite Hl6).
  rewrite (bind_run _ _ _ _ _ (upload_file_run sv _ _ m _ Hfa Hm6)) in H.
  clear Hfa. unfold set_doc_status in H.
  match type of H with bind _ _ ?w7 = _ => set (w7' := w7) in * end.
  destruct (fault sv (S (S first))) as [e3|] eqn:Hf3.
  { assert (Hfa : fault sv (length (trace w7')) = Some e3)
      by (unfold w7', w6'; cbn; by rewrite Hl7).
    rewrite (bind_fail _ _ _ _ _ (update_item_fault _ _ _ _ _ Hfa)) in H.
    injection H as <- <-. split; [done|]. right. right.
    split; [done|]. split; [done|]. split.
    { apply Hcalls. cbn. by rewrite <- !app_assoc. }
    split; [by cbn; rewrite Hb5|]. left. by exists e3. }
  assert (Hfa : fault sv (length (trace w7')) = None)
    by (unfold w7', w6'; cbn; by rewrite Hl7).
  rewrite (bind_run _ _ _ _ _ (update_item_run sv _ _ _ _ Hfa)) in H.
  injection H as <- <-. split; [done|]. right. right.
  split; [done|]. split; [done|]. split.
  { apply Hcalls. cbn. by rewrite <- !app_assoc. }
  split; [by cbn; rewrite Hb5|]. right. split; [done|]. split; [done|].
  cbn. by rewrite Ht5.
Qed.

End Publishing.

(** ** What a loader finds at its path *)

(** After the loop, the file at the scratch path of a fetched key holds the
    bytes of the last fetched key with the same file name. *)
Lemma staged_last objs keys files k :
  k ∈ keys ->
  (forall k', k' ∈ keys -> is_Some (s3_get k' objs)) ->
  exists pre k' post b,
    keys = pre ++ k' :: post /\
    file_name_full k' = file_name_full k /\
    (forall k'', k'' ∈ post -> file_name_full k'' <> file_name_full k) /\
    s3_get k' objs = Some b /\
    staged objs keys files !! scratch_path k = Some b.
Proof.
  induction keys as [|x ks IH] using rev_ind; [by intros ?%elem_of_nil|].
  intros Hk Hobjs. rewrite staged_app, staged_cons. cbn [staged foldl].
  destruct (Hobjs x) as [b Hb]; [apply elem_of_app; right; by left|].
  rewrite Hb.
  destruct (decide (file_name_full x = file_name_full k)) as [Heq|Hne].
  - exists ks, x, [], b. split; [done|]. split; [done|].
    split; [by intros ? ?%elem_of_nil|]. split; [done|].
    rewrite (proj2 (scratch_path_inj x k) Heq). apply lookup_insert_eq.
  - apply elem_of_app in Hk as [Hk|Hk%list_elem_of_singleton]; [|by subst].
    destruct IH as (pre & k' & post & b' & -> & Hname & Hpost & Hb' & Hl);
      [done|intros k' Hk'; apply Hobjs, elem_of_app; by left|].
    exists pre, k', (post ++ [x]), b'.
    split; [by rewrite <- app_assoc|]. split; [done|]. split.
    { intros k'' [Hin | ->%list_elem_of_singleton]%elem_of_app; [by apply Hpost|done]. }
    split; [done|]. rewrite lookup_insert_ne; [done|].
    intros Hp. by apply scratch_path_inj in Hp.
Qed.

Lemma lookup_existsb (P : call -> bool) cs i c :
  cs !! i = Some c -> P c = true -> existsb P cs = true.
Proof.
  intros Hl Hc. apply existsb_exists. exists c. split; [|done].
  apply list_elem_of_In. by eapply list_elem_of_lookup_2.
Qed.

(** * The claims *)

Section Claims.

Context {Vec Index : Type}.
Variable sv : Services Vec Index.

(** C1 (amended).  The handler has no exception handler and never asks for
    the status ERROR.  The error of a refused call is the result of the run,
    and no call is made after it; when no call is refused, a run past the
    guards returns what the parser, the embedder and the index builder
    return, their error unchanged; a run past the listing guard whose
    embedder always raises does raise.  A run that raises after a call of
    fetching, loading, embedding, building or persisting has stored
    PROCESSING and nothing else for the document of the trigger: that is the
    status the record is left with, never READY and never ERROR. *)
Theorem failed_run_stays_processing event w r w' :
  lambda_handler sv event w = (r, w') ->
  (forall i e,
     length (trace w) <= i -> i < length (trace w') ->
     fault sv i = Some e ->
     r = inl e /\ length (trace w') = S i) /\
  ((forall n, fault sv n = None) ->
   listed w <> [] ->
   forall u d, trigger sv event = inr (PyStr u, PyStr d) ->
     r = match built sv (staged (bucket w) (pdf_keys (listed w)) (tmp w))
                 (map scratch_path (pdf_keys (listed w))) with
         | inl e => inl e
         | inr _ => inr None
         end) /\
  (listed w <> [] ->
   (forall texts, exists e, embed_documents sv texts = inl e) ->
   exists e, r = inl e) /\
  (forall e, r = inl e ->
   existsb is_stage (calls_since w w') = true ->
   exists u d,
     trigger sv event = inr (PyStr u, PyStr d) /\
     table w' = set_docstatus (u, d) "PROCESSING" (table w) /\
     docstatus w' (u, d) = Some "PROCESSING" /\
     "ERROR" ∉ statuses (calls_since w w')).
Proof.
  intros H. split; [|split; [|split]].
  - by apply (ends_lambda_handler sv event).
  - intros Hf Hne u d Htrig.
    pose proof (lambda_handler_unrefused sv Hf event w u d Hne Htrig) as Hr.
    by rewrite H in Hr.
  - intros Hne Hembed. destruct r as [e|[msg|]]; [eauto|..].
    + run_cases H. done.
    + apply lambda_handler_accepted in H as [_ Hok].
      destruct (Hok eq_refl) as (texts & vectors & Hv).
      destruct (Hembed texts) as [e He]. congruence.
  - intros e -> Hstage. run_cases H; try done.
    all: do 2 eexists; split; [eassumption|]; split; [done|].
    all: split; [by eapply docstatus_set|].
    all: match goal with Hc : calls_since _ _ = _ |- _ => rewrite Hc end.
    all: calls_simpl.
    all: rewrite ?app_nil_r; intros Hin.
    all: by repeat (apply elem_of_cons in Hin as [Hin|Hin]; [discriminate|]);
           apply elem_of_nil in Hin.
Qed.

(** C2 (amended).  The listing is one page of the whole bucket, whatever the
    owner of the trigger: the keys a run fetches are, in listing order, the
    keys of that page that end in [.pdf] once lower-cased; a run that fails
    has fetched a prefix of them, a run that completes all of them.  What is
    indexed is what the loaders read from the scratch directory: one loader
    for each fetched key, which finds at its path the bytes of the last
    fetched key of the same file name, of whatever owner; the texts given to
    the embedder are read from these files, and a run that completes has
    stored the index built from them. *)
Theorem fetches_pdfs_of_whole_listing event w r w' :
  lambda_handler sv event w = (r, w') ->
  let files := staged (bucket w) (pdf_keys (listed w)) (tmp w) in
  let loaders := map scratch_path (pdf_keys (listed w)) in
  (forall response w1,
     list_objects_v2 sv w = (inr response, w1) ->
     default [] (map Key <$> Contents response) = listed w) /\
  fetched (calls_since w w') `prefix_of` pdf_keys (listed w) /\
  (r = inr None -> fetched (calls_since w w') = pdf_keys (listed w)) /\
  embeds_from sv files loaders (calls_since w w') /\
  (forall k, k ∈ pdf_keys (listed w) ->
     exists pre k' post b,
       pdf_keys (listed w) = pre ++ k' :: post /\
       file_name_full k' = file_name_full k /\
       (forall k'', k'' ∈ post -> file_name_full k'' <> file_name_full k) /\
       s3_get k' (bucket w) = Some b /\
       files !! scratch_path k = Some b) /\
  (r = inr None ->
   exists u d docs index,
     trigger sv event = inr (PyStr u, PyStr d) /\
     read_all sv files loaders [] = inr docs /\
     from_documents sv docs = inr index /\
     s3_get (geometry_key u) (bucket w') = Some (serialize sv index).1 /\
     s3_get (metadata_key u) (bucket w') = Some (serialize sv index).2).
Proof.
  intros H files loaders. split.
  { intros response w1 Hl.
    apply list_objects_v2_inv in Hl as [_ [[e [=]]|(resp & [= <-] & Hresp)]].
    by destruct Hresp as [[-> ->]|(contents & -> & <- & _)]. }
  split; [|split; [|split; [|split]]].
  - run_cases H.
    1-4: by apply prefix_nil.
    all: match goal with Hc : calls_since _ _ = _ |- _ => rewrite Hc end.
    all: calls_simpl; rewrite ?app_nil_r; try done.
    eexists. symmetry. apply take_drop.
  - intros ->. run_cases H.
    match goal with Hc : calls_since _ _ = _ |- _ => rewrite Hc end.
    calls_simpl. by rewrite ?app_nil_r.
  - intros texts. run_cases H.
    1-4: by intros ?%elem_of_nil.
    all: match goal with Hc : calls_since _ _ = _ |- _ => rewrite Hc end.
    all: unfold started; rewrite !embedded_app, embedded_fetch_calls.
    all: cbn; rewrite ?app_nil_r.
    1: by intros ?%elem_of_nil.
    all: match goal with He : embeds_staged _ _ _ |- _ => apply He end.
  - intros k Hk. apply staged_last; [done|].
    intros k' [Hk' _]%list_elem_of_In%filter_In. apply list_elem_of_In in Hk'.
    by eapply s3_get_listed.
  - intros ->. apply lambda_handler_completed in H
      as (u & d & docs & vectors & index & _ & Htrig & Hdocs & Hv & Hi & _ &
          Hb & _).
    exists u, d, docs, index. split; [done|]. split; [done|].
    split; [by unfold from_documents; rewrite Hv|]. rewrite Hb.
    split; [|apply s3_get_put_eq].
    rewrite s3_get_put_ne by apply artifact_keys_differ. apply s3_get_put_eq.
Qed.

(** C3 (amended).  The two parts of the artifact are stored by two uploads,
    each committed on its own, the geometry first.  A run that asks for no
    upload leaves the bucket as it found it, and has not completed.  A run
    that asks for one has built its index from the staged files, and stops
    at the first refused call: when the first upload is refused the bucket
    is as it was; when the second upload is refused the run raises the error
    of that call and the new geometry part is stored under its name while
    the metadata part is the one of before, if any; when both are accepted
    both parts of the index are stored, the metadata after the geometry. *)
Theorem artifact_uploads_in_order event w r w' :
  lambda_handler sv event w = (r, w') ->
  let files := staged (bucket w) (pdf_keys (listed w)) (tmp w) in
  let loaders := map scratch_path (pdf_keys (listed w)) in
  (existsb is_upload (calls_since w w') = false ->
   bucket w' = bucket w /\ r <> inr None) /\
  (r = inr None -> existsb is_upload (calls_since w w') = true) /\
  (existsb is_upload (calls_since w w') = true ->
   exists u d index before,
     trigger sv event = inr (PyStr u, PyStr d) /\
     built sv files loaders = inr index /\
     existsb is_upload before = false /\
     let first := length (trace w) + length before in
     let g := (serialize sv index).1 in
     let m := (serialize sv index).2 in
     ((exists e,
         fault sv first = Some e /\ r = inl e /\
         calls_since w w' = before ++ [upload_geometry u] /\
         bucket w' = bucket w) \/
      (exists e,
         fault sv first = None /\ fault sv (S first) = Some e /\ r = inl e /\
         calls_since w w' = before ++ [upload_geometry u; upload_metadata u] /\
         bucket w' = s3_put (geometry_key u) g (bucket w) /\
         s3_get (geometry_key u) (bucket w') = Some g /\
         s3_get (metadata_key u) (bucket w') =
           s3_get (metadata_key u) (bucket w)) \/
      (fault sv first = None /\ fault sv (S first) = None /\
       calls_since w w' = before ++ publish_calls u d /\
       bucket w' =
         s3_put (metadata_key u) m (s3_put (geometry_key u) g (bucket w)) /\
       s3_get (geometry_key u) (bucket w') = Some g /\
       s3_get (metadata_key u) (bucket w') = Some m)) /\
     (forall i e,
        calls_since w w' !! i = Some (upload_metadata u) ->
        fault sv (length (trace w) + i) = Some e ->
        r = inl e /\
        bucket w' = s3_put (geometry_key u) g (bucket w) /\
        s3_get (geometry_key u) (bucket w') = Some g /\
        s3_get (metadata_key u) (bucket w') =
          s3_get (metadata_key u) (bucket w)) /\
     (r = inr None ->
      bucket w' =
        s3_put (metadata_key u) m (s3_put (geometry_key u) g (bucket w)))).
Proof.
  intros H files loaders. split; [|split].
  - intros Hno. run_cases H.
    1-6: done.
    all: exfalso; rewrite Hcalls in Hno; unfold started in Hno.
    all: rewrite !existsb_app in Hno; cbn in Hno.
    all: by rewrite !orb_true_r in Hno.
  - intros ->. run_cases H. rewrite Hcalls. unfold started.
    rewrite !existsb_app. cbn. by rewrite !orb_true_r.
  - intros Hup.
    destruct (lambda_handler_publishing sv event w r w' H Hup)
      as (u & d & docs & index & _ & Htrig & Hdocs & Hindex & _ & Hcases).
    set (before := started u d ++ map fetch_call (pdf_keys (listed w)) ++
           build_calls (map scratch_path (pdf_keys (listed w)))
             (map page_content (split_documents sv docs))) in *.
    assert (Hbefore : existsb is_upload before = false).
    { unfold before. by rewrite !existsb_app, upload_fetch_calls,
        upload_build_calls. }
    assert (Hgeo : forall b objs,
              s3_get (geometry_key u) (s3_put (geometry_key u) b objs) = Some b /\
              s3_get (metadata_key u) (s3_put (geometry_key u) b objs) =
                s3_get (metadata_key u) objs).
    { intros b objs. split; [apply s3_get_put_eq|]. apply s3_get_put_ne.
      intros Heq. by apply (artifact_keys_differ u). }
    assert (Hboth : forall b b' objs,
              s3_get (geometry_key u)
                (s3_put (metadata_key u) b' (s3_put (geometry_key u) b objs))
                = Some b /\
              s3_get (metadata_key u)
                (s3_put (metadata_key u) b' (s3_put (geometry_key u) b objs))
                = Some b').
    { intros b b' objs. split; [|apply s3_get_put_eq].
      rewrite s3_get_put_ne by apply artifact_keys_differ.
      apply s3_get_put_eq. }
    exists u, d, index, before. split; [done|].
    split; [by unfold built; subst files loaders; rewrite Hdocs|].
    split; [done|]. intros first g m. split; [|split].
    + destruct Hcases as [(e & Hf1 & -> & Hcalls & Hb & _)|
                          [(e & Hf1 & Hf2 & -> & Hcalls & Hb & _)|
                           (Hf1 & Hf2 & Hcalls & Hb & _)]].
      * left. by exists e.
      * right. left. exists e. rewrite Hb. by destruct (Hgeo g (bucket w)).
      * right. right. rewrite Hb. by destruct (Hboth g m (bucket w)).
    + intros i e Hi Hfault.
      assert (Hidx : forall tl, (before ++ tl) !! i = Some (upload_metadata u) ->
                length before <= i /\
                tl !! (i - length before) = Some (upload_metadata u)).
      { intros tl [Hl|Hr]%lookup_app_Some; [|done].
        by rewrite (lookup_existsb is_upload _ _ _ Hl) in Hbefore. }
      destruct Hcases as [(e' & Hf1 & -> & Hcalls & Hb & _)|
                          [(e' & Hf1 & Hf2 & -> & Hcalls & Hb & _)|
                           (Hf1 & Hf2 & Hcalls & Hb & _)]].
      * rewrite Hcalls in Hi. apply Hidx in Hi as [Hle Hi].
        destruct (i - length before) as [|[|n]]; done.
      * rewrite Hcalls in Hi. apply Hidx in Hi as [Hle Hi].
        destruct (i - length before) as [|[|n]] eqn:Hn; [done| |done].
        assert (length (trace w) + i = S (length (trace w) + length before))
          as Heq by lia.
        rewrite Heq, Hf2 in Hfault. injection Hfault as <-.
        rewrite Hb. by destruct (Hgeo g (bucket w)).
      * rewrite Hcalls in Hi. apply Hidx in Hi as [Hle Hi].
        destruct (i - length before) as [|[|[|n]]] eqn:Hn; [done| |done|done].
        assert (length (trace w) + i = S (length (trace w) + length before))
          as Heq by lia.
        by rewrite Heq, Hf2 in Hfault.
    + intros ->.
      by destruct Hcases as [(e & _ & [=] & _)|
                             [(e & _ & _ & [=] & _)|(_ & _ & _ & Hb & _)]].
Qed.

(** C4 (amended).  A run that returns without raising either found an empty
    listing, returned the message of line 54 and stored no status at all, or
    stored PROCESSING then READY and nothing else, and leaves the document of
    the trigger READY. *)
Theorem normal_return_statuses event w v w' :
  lambda_handler sv event w = (inr v, w') ->
  (listed w = [] /\ v = Some "No files found in the bucket." /\
   table w' = table w /\ statuses (calls_since w w') = []) \/
  (listed w <> [] /\ v = None /\
   exists u d,
     trigger sv event = inr (PyStr u, PyStr d) /\
     statuses (calls_since w w') = ["PROCESSING"; "READY"] /\
     docstatus w' (u, d) = Some "READY").
Proof.
  intros H. run_cases H.
  - by left.
  - right. split; [done|]. split; [done|]. do 2 eexists. split; [eassumption|].
    split; [|by eapply docstatus_set].
    match goal with Hc : calls_since _ _ = _ |- _ => rewrite Hc end.
    calls_simpl. by rewrite ?app_nil_r.
Qed.

(** C5 (amended).  With an empty listing the handler returns the message of
    line 54: nothing is built and no status is stored.  With a listing that
    is not empty but holds no PDF, nothing is fetched and the embedder and
    the index builder are given the empty set of documents; the handler has
    no case of its own for it, so the run ends as they do.  When one of them
    raises on the empty input, the run raises that error, nothing is stored
    and the status is left PROCESSING; when both accept it, the artifact
    built from nothing is stored and the status ends READY. *)
Theorem no_pdf_run_builds_from_nothing event w u d :
  (forall n, fault sv n = None) ->
  trigger sv event = inr (PyStr u, PyStr d) ->
  (listed w = [] ->
   lambda_handler sv event w =
     (inr (Some "No files found in the bucket."), log ListObjectsV2 w)) /\
  (listed w <> [] -> pdf_keys (listed w) = [] ->
   exists r w',
     lambda_handler sv event w = (r, w') /\
     fetched (calls_since w w') = [] /\
     embedded (calls_since w w') =
       [map page_content (split_documents sv [])] /\
     match from_documents sv [] with
     | inl e =>
         r = inl e /\
         docstatus w' (u, d) = Some "PROCESSING" /\
         statuses (calls_since w w') = ["PROCESSING"] /\
         bucket w' = bucket w
     | inr index =>
         r = inr None /\
         docstatus w' (u, d) = Some "READY" /\
         statuses (calls_since w w') = ["PROCESSING"; "READY"] /\
         bucket w' =
           s3_put (metadata_key u) (serialize sv index).2
             (s3_put (geometry_key u) (serialize sv index).1 (bucket w))
     end).
Proof.
  intros Hf Htrig. split.
  { intros Hl. by apply no_files_run. }
  intros Hne Hpdf.
  destruct (list_objects_v2_run sv w Hne (Hf _)) as (contents & Hkeys & Hlist).
  apply trigger_inv in Htrig as (rec & rest & event_body & -> & Hb & Hd & Hu).
  unfold lambda_handler.
  rewrite (bind_run _ _ _ _ _ Hlist). cbn [Contents first_record].
  rewrite bind_ret, Hb, bind_lift, Hd, bind_lift, Hu, bind_lift.
  unfold set_doc_status.
  rewrite (bind_run _ _ _ _ _ (update_item_run sv _ _ _ _ (Hf _))).
  rewrite <- Hkeys in Hpdf.
  rewrite (bind_run _ _ _ _ _ (stage_files_no_pdf sv _ _ _ Hpdf)).
  unfold from_documents.
  destruct (embed_documents sv (map page_content (split_documents sv [])))
    as [e|vectors] eqn:Hembed.
  { eexists _, _. split.
    { apply bind_fail. unfold from_loaders. cbn [load_all]. rewrite bind_ret.
      cbv zeta. rewrite (bind_run _ _ _ _ _ (invoke_run _ _ _ (Hf _))).
      rewrite Hembed. reflexivity. }
    unfold calls_since. cbn. rewrite <- !app_assoc, drop_app_length. cbn.
    repeat split. by eapply docstatus_set. }
  destruct (faiss_build sv (split_documents sv []) vectors)
    as [e|index] eqn:Hbuild.
  { eexists _, _. split.
    { apply bind_fail. unfold from_loaders. cbn [load_all]. rewrite bind_ret.
      cbv zeta. rewrite (bind_run _ _ _ _ _ (invoke_run _ _ _ (Hf _))).
      rewrite Hembed, bind_lift.
      rewrite (bind_run _ _ _ _ _ (invoke_run _ _ _ (Hf _))).
      rewrite Hbuild. reflexivity. }
    unfold calls_since. cbn. rewrite <- !app_assoc, drop_app_length. cbn.
    repeat split. by eapply docstatus_set. }
  rewrite (bind_run _ _ _ _ _ (from_loaders_nil_run sv _ _ _ Hf Hembed Hbuild)).
  rewrite (bind_run _ _ _ _ _ (save_local_run sv _ _ _ Hf)).
  destruct (serialize sv index) as [g m] eqn:Hser. cbn [fst snd].
  erewrite (bind_run _ _ _ _ _ (upload_file_run sv _ _ g _ (Hf _) _)).
  erewrite (bind_run _ _ _ _ _ (upload_file_run sv _ _ m _ (Hf _) _)).
  rewrite (bind_run _ _ _ _ _ (update_item_run sv _ _ _ _ (Hf _))).
  eexists _, _. split; [reflexivity|].
  unfold calls_since. cbn. rewrite <- !app_assoc, drop_app_length. cbn.
  repeat split. by eapply docstatus_set.
  Unshelve.
  all: cbn; rewrite ?lookup_insert_ne by done; by rewrite lookup_insert_eq.
Qed.

(** C6 (amended).  The listing is the first call of every run, made before
    any status is stored.  A run that stops there has left the table as it
    was, and that is what every run does whose listing is empty or whose
    message does not decode: PROCESSING is asked for only when the listing
    is not empty and the message decodes, as the second call of the run.
    Every later call, each fetch among them, comes after it, and no run
    lists twice. *)
Theorem listing_comes_first event w r w' :
  lambda_handler sv event w = (r, w') ->
  ((calls_since w w' = [ListObjectsV2] /\ table w' = table w) \/
   exists user_id document_id rest,
     listed w <> [] /\
     trigger sv event = inr (user_id, document_id) /\
     calls_since w w' =
       ListObjectsV2 :: UpdateItem user_id document_id "PROCESSING" :: rest /\
     existsb is_listing rest = false /\
     (existsb is_fetch rest = true ->
      exists u d,
        user_id = PyStr u /\ document_id = PyStr d /\
        (docstatus w' (u, d) = Some "PROCESSING" \/
         docstatus w' (u, d) = Some "READY"))) /\
  (listed w = [] \/ (exists e, trigger sv event = inl e) ->
   calls_since w w' = [ListObjectsV2] /\ table w' = table w).
Proof.
  intros H. split.
  - run_cases H.
    1-3: by left.
    all: right; do 3 eexists; split; [done|]; split; [eassumption|].
    all: try match goal with Hc : calls_since _ _ = _ |- _ => rewrite Hc end.
    all: split; [reflexivity|].
    all: split; [|try done].
    all: rewrite ?existsb_app; cbn.
    all: repeat match goal with
           | |- context [existsb is_listing (map fetch_call ?ks)] =>
               replace (existsb is_listing (map fetch_call ks)) with false
                 by (symmetry; apply listing_fetch_calls)
           | Hb : forallb is_build ?cs = true |- _ =>
               rewrite (listing_build cs Hb)
           end.
    all: try done.
    all: intros _; do 2 eexists; split; [done|]; split; [done|].
    1-5: left; by eapply docstatus_set.
    right; by eapply docstatus_set.
  - intros Hstop. run_cases H.
    1-3: done.
    all: exfalso; destruct Hstop as [Hl|[? He]]; [done|congruence].
Qed.

(** C7 (amended).  [set_doc_status] makes one [update_item] call with no
    condition.  When the store accepts the call, the status of the record is
    overwritten and its other attributes are kept; when the table has no
    record for the key, the call does not fail: a record holding the status
    is created.  The other records are untouched.  When the store refuses the
    call, its error is raised and the table is as it was. *)
Theorem set_doc_status_upserts u d status w :
  (fault sv (length (trace w)) = None ->
   exists w',
     set_doc_status sv (PyStr u) (PyStr d) status w = (inr tt, w') /\
     table w' !! (u, d) =
       Some (<["docstatus" := status]> (default ∅ (table w !! (u, d)))) /\
     docstatus w' (u, d) = Some status /\
     forall k, k <> (u, d) -> table w' !! k = table w !! k) /\
  (forall e, fault sv (length (trace w)) = Some e ->
     set_doc_status sv (PyStr u) (PyStr d) status w =
       (inl e, log (UpdateItem (PyStr u) (PyStr d) status) w)).
Proof.
  split.
  - intros Hf. eexists. split; [by apply update_item_run|]. cbn.
    split; [by apply lookup_insert_eq|]. split; [by eapply docstatus_set|].
    intros k Hk. by apply lookup_insert_ne.
  - intros e Hf. unfold set_doc_status, update_item, bind.
    by rewrite (invoke_fault _ _ _ _ Hf).
Qed.


(** C9.  When the listing of the bucket comes back empty, the handler
    returns the message of line 54 whatever the event is (its body is not
    decoded), and the only call of the run is the listing: the table, the
    bucket and the scratch directory are as they were. *)
Theorem empty_listing_returns_at_once w :
  listed w = [] ->
  fault sv (length (trace w)) = None ->
  exists w',
    (forall event, lambda_handler sv event w =
       (inr (Some "No files found in the bucket."), w')) /\
    table w' = table w /\ bucket w' = bucket w /\ tmp w' = tmp w /\
    calls_since w w' = [ListObjectsV2].
Proof.
  intros Hl Hf. exists (log ListObjectsV2 w). split.
  - intros event. by apply no_files_run.
  - by rewrite calls_since_log.
Qed.

(** C10.  The records after the first are never read: the handler does on
    an event what it does on its first record alone, and every status call
    of a run names the user and the document of that first record. *)
Theorem only_first_record_counts rec rest w :
  lambda_handler sv (rec :: rest) w = lambda_handler sv [rec] w /\
  forall r w' uid did s,
    lambda_handler sv (rec :: rest) w = (r, w') ->
    UpdateItem uid did s ∈ calls_since w w' ->
    trigger sv [rec] = inr (uid, did).
Proof.
  split; [done|]. intros r w' uid did s H Hin.
  change (trigger sv [rec]) with (trigger sv (rec :: rest)).
  run_cases H.
  all: try match goal with Hc : calls_since _ _ = _ |- _ => rewrite Hc in Hin end.
  all: unfold started, upload_geometry, upload_metadata in Hin.
  all: repeat first
         [ apply elem_of_app in Hin as [Hin|Hin]
         | apply elem_of_cons in Hin as [Hin|Hin] ].
  all: try discriminate Hin.
  all: try (by apply elem_of_nil in Hin).
  all: try (by apply status_call_fetch in Hin).
  all: try (by eapply status_call_build in Hin).
  all: by injection Hin as -> -> _.
Qed.

End Claims.



(** ** The claims on the stand-ins *)

(** An embedder that always refuses, and an embedding call that the service
    refuses, on the bucket of the two owners. *)
Lemma failed_run_stays_processing_witness :
  let w := Demo.two_owners in
  let w' := Demo.after Demo.rate_limited Demo.event w in
  let sv := Demo.services (Demo.fault_at 6 (ClientError "Throttling")) in
  let v' := Demo.after sv Demo.event w in
  let r : exn + option string := inl (LibraryError "RateLimitedError") in
  let r' : exn + option string := (lambda_handler sv Demo.event w).1 in
  lambda_handler Demo.rate_limited Demo.event w = (r, w') /\
  (forall n, fault Demo.rate_limited n = None) /\
  listed w <> [] /\
  trigger Demo.rate_limited Demo.event = inr (PyStr "u1", PyStr "d1") /\
  r = match built Demo.rate_limited
              (staged (bucket w) (pdf_keys (listed w)) (tmp w))
              (map scratch_path (pdf_keys (listed w))) with
      | inl e => inl e
      | inr _ => inr None
      end /\
  (forall texts, exists e, embed_documents Demo.rate_limited texts = inl e) /\
  existsb is_stage (calls_since w w') = true /\
  (exists u d,
     trigger Demo.rate_limited Demo.event = inr (PyStr u, PyStr d) /\
     table w' = set_docstatus (u, d) "PROCESSING" (table w) /\
     docstatus w' (u, d) = Some "PROCESSING" /\
     "ERROR" ∉ statuses (calls_since w w')) /\
  lambda_handler sv Demo.event w = (r', v') /\
  (length (trace w) <= 6 /\ 6 < length (trace v') /\
   fault sv 6 = Some (ClientError "Throttling")) /\
  r' = inl (ClientError "Throttling") /\ length (trace v') = 7.
Proof.
  intros w w' sv v' r r'.
  assert (H1 : lambda_handler Demo.rate_limited Demo.event w = (r, w'))
    by (vm_compute; reflexivity).
  assert (H2 : forall n, fault Demo.rate_limited n = None) by reflexivity.
  assert (H3 : listed w <> []) by (vm_compute; discriminate).
  assert (H4 : trigger Demo.rate_limited Demo.event =
                 inr (PyStr "u1", PyStr "d1")) by (vm_compute; reflexivity).
  assert (H5 : forall texts,
            exists e, embed_documents Demo.rate_limited texts = inl e)
    by (intros texts; eexists; reflexivity).
  assert (H6 : existsb is_stage (calls_since w w') = true)
    by (vm_compute; reflexivity).
  assert (H7 : lambda_handler sv Demo.event w = (r', v'))
    by (vm_compute; reflexivity).
  assert (H8 : length (trace w) <= 6 /\ 6 < length (trace v') /\
               fault sv 6 = Some (ClientError "Throttling")).
  { vm_compute. repeat split; lia. }
  destruct (failed_run_stays_processing Demo.rate_limited Demo.event w r w' H1)
    as (_ & Hb & _ & Hd).
  destruct (failed_run_stays_processing sv Demo.event w r' v' H7) as (Ha & _).
  split; [exact H1|]. split; [exact H2|]. split; [exact H3|].
  split; [exact H4|]. split; [exact (Hb H2 H3 _ _ H4)|].
  split; [exact H5|]. split; [exact H6|].
  split; [exact (Hd _ eq_refl H6)|].
  split; [exact H7|]. split; [exact H8|].
  exact (Ha 6 _ (proj1 H8) (proj1 (proj2 H8)) (proj2 (proj2 H8))).
Defined.

(** C1 as stated fails: with an embedder that always raises
    RateLimitedError the run raises that error, and the document that was
    CREATED is left PROCESSING, not ERROR; ERROR is never asked for. *)
Lemma failed_run_never_sets_error :
  let w := Demo.two_owners in
  let w' := Demo.after Demo.rate_limited Demo.event w in
  lambda_handler Demo.rate_limited Demo.event w =
    (inl (LibraryError "RateLimitedError"), w') /\
  docstatus w ("u1", "d1") = Some "CREATED" /\
  docstatus w' ("u1", "d1") = Some "PROCESSING" /\
  docstatus w' ("u1", "d1") <> Some "ERROR" /\
  statuses (calls_since w w') = ["PROCESSING"].
Proof. vm_compute. repeat split; discriminate. Qed.

(** A run without failure on the bucket of the two owners. *)
Lemma fetches_pdfs_of_whole_listing_witness :
  let sv := Demo.services Demo.no_fault in
  let w := Demo.two_owners in
  let w' := Demo.after sv Demo.event w in
  let files := staged (bucket w) (pdf_keys (listed w)) (tmp w) in
  let loaders := map scratch_path (pdf_keys (listed w)) in
  let response :=
    {| Contents := Some [ {| Key := "u1/a.pdf" |}; {| Key := "u2/a.pdf" |};
                          {| Key := "u2/notes.txt" |} ] |} in
  lambda_handler sv Demo.event w = (inr None, w') /\
  list_objects_v2 sv w = (inr response, log ListObjectsV2 w) /\
  default [] (map Key <$> Contents response) = listed w /\
  fetched (calls_since w w') `prefix_of` pdf_keys (listed w) /\
  fetched (calls_since w w') = pdf_keys (listed w) /\
  embeds_from sv files loaders (calls_since w w') /\
  "u1/a.pdf" ∈ pdf_keys (listed w) /\
  (exists pre k' post b,
     pdf_keys (listed w) = pre ++ k' :: post /\
     file_name_full k' = file_name_full "u1/a.pdf" /\
     (forall k'', k'' ∈ post ->
        file_name_full k'' <> file_name_full "u1/a.pdf") /\
     s3_get k' (bucket w) = Some b /\
     files !! scratch_path "u1/a.pdf" = Some b) /\
  (exists u d docs index,
     trigger sv Demo.event = inr (PyStr u, PyStr d) /\
     read_all sv files loaders [] = inr docs /\
     from_documents sv docs = inr index /\
     s3_get (geometry_key u) (bucket w') = Some (serialize sv index).1 /\
     s3_get (metadata_key u) (bucket w') = Some (serialize sv index).2).
Proof.
  intros sv w w' files loaders response.
  assert (H1 : lambda_handler sv Demo.event w = (inr None, w'))
    by (vm_compute; reflexivity).
  assert (H2 : list_objects_v2 sv w = (inr response, log ListObjectsV2 w))
    by (vm_compute; reflexivity).
  assert (H3 : "u1/a.pdf" ∈ pdf_keys (listed w)).
  { vm_compute. by left. }
  destruct (fetches_pdfs_of_whole_listing sv Demo.event w _ w' H1)
    as (Ha & Hb & Hc & Hd & He & Hf).
  split; [exact H1|]. split; [exact H2|].
  split; [exact (Ha _ _ H2)|]. split; [exact Hb|].
  split; [exact (Hc eq_refl)|]. split; [exact Hd|]. split; [exact H3|].
  split; [exact (He _ H3)|]. exact (Hf eq_refl).
Defined.

(** C2 as stated fails: triggered for user [u1], the run fetches
    [u2/a.pdf], which is not under [u1/]; and the text it indexes, twice, is
    the text of that object, the file of [u1/a.pdf] having been replaced. *)
Lemma fetches_objects_of_other_owners :
  let sv := Demo.services Demo.no_fault in
  let w := Demo.two_owners in
  let w' := Demo.after sv Demo.event w in
  lambda_handler sv Demo.event w = (inr None, w') /\
  trigger sv Demo.event = inr (PyStr "u1", PyStr "d1") /\
  fetched (calls_since w w') = ["u1/a.pdf"; "u2/a.pdf"] /\
  in_namespace "u1" "u2/a.pdf" = false /\
  List.filter (in_namespace "u1") (listed w) = ["u1/a.pdf"] /\
  fetched (calls_since w w') <> List.filter (in_namespace "u1") (listed w) /\
  s3_get "u2/a.pdf" (bucket w) = Some "second" /\
  embedded (calls_since w w') = [["second"; "second"]].
Proof. vm_compute. repeat split; discriminate. Qed.

(** A run whose second upload is refused. *)
Lemma artifact_uploads_in_order_witness :
  let sv := Demo.services (Demo.fault_at 11 (ClientError "SlowDown")) in
  let w := Demo.two_owners in
  let w' := Demo.after sv Demo.event w in
  let files := staged (bucket w) (pdf_keys (listed w)) (tmp w) in
  let loaders := map scratch_path (pdf_keys (listed w)) in
  let r : exn + option string := inl (ClientError "SlowDown") in
  lambda_handler sv Demo.event w = (r, w') /\
  existsb is_upload (calls_since w w') = true /\
  exists u d index before,
    trigger sv Demo.event = inr (PyStr u, PyStr d) /\
    built sv files loaders = inr index /\
    existsb is_upload before = false /\
    let first := length (trace w) + length before in
    let g := (serialize sv index).1 in
    let m := (serialize sv index).2 in
    ((exists e,
        fault sv first = Some e /\ r = inl e /\
        calls_since w w' = before ++ [upload_geometry u] /\
        bucket w' = bucket w) \/
     (exists e,
        fault sv first = None /\ fault sv (S first) = Some e /\ r = inl e /\
        calls_since w w' = before ++ [upload_geometry u; upload_metadata u] /\
        bucket w' = s3_put (geometry_key u) g (bucket w) /\
        s3_get (geometry_key u) (bucket w') = Some g /\
        s3_get (metadata_key u) (bucket w') =
          s3_get (metadata_key u) (bucket w)) \/
     (fault sv first = None /\ fault sv (S first) = None /\
      calls_since w w' = before ++ publish_calls u d /\
      bucket w' =
        s3_put (metadata_key u) m (s3_put (geometry_key u) g (bucket w)) /\
      s3_get (geometry_key u) (bucket w') = Some g /\
      s3_get (metadata_key u) (bucket w') = Some m)) /\
    (forall i e,
       calls_since w w' !! i = Some (upload_metadata u) ->
       fault sv (length (trace w) + i) = Some e ->
       r = inl e /\
       bucket w' = s3_put (geometry_key u) g (bucket w) /\
       s3_get (geometry_key u) (bucket w') = Some g /\
       s3_get (metadata_key u) (bucket w') =
         s3_get (metadata_key u) (bucket w)) /\
    (r = inr None ->
     bucket w' =
       s3_put (metadata_key u) m (s3_put (geometry_key u) g (bucket w))).
Proof.
  intros sv w w' files loaders r.
  assert (H1 : lambda_handler sv Demo.event w = (r, w'))
    by (vm_compute; reflexivity).
  assert (H2 : existsb is_upload (calls_since w w') = true)
    by (vm_compute; reflexivity).
  split; [exact H1|]. split; [exact H2|].
  exact (proj2 (proj2 (artifact_uploads_in_order sv Demo.event w r w' H1)) H2).
Defined.

(** C3 as stated fails: when the second upload is refused the run raises,
    and the geometry part is stored under its name without the metadata
    part. *)
Lemma failed_run_leaves_geometry_alone :
  let sv := Demo.services (Demo.fault_at 11 (ClientError "SlowDown")) in
  let w := Demo.two_owners in
  let w' := Demo.after sv Demo.event w in
  lambda_handler sv Demo.event w = (inl (ClientError "SlowDown"), w') /\
  s3_get (geometry_key "u1") (bucket w) = None /\
  s3_get (metadata_key "u1") (bucket w) = None /\
  s3_get (geometry_key "u1") (bucket w') = Some "geometry" /\
  s3_get (metadata_key "u1") (bucket w') = None.
Proof. vm_compute. repeat split. Qed.

(** A run without failure on the bucket of the two owners. *)
Lemma normal_return_statuses_witness :
  let sv := Demo.services Demo.no_fault in
  let w := Demo.two_owners in
  let w' := Demo.after sv Demo.event w in
  lambda_handler sv Demo.event w = (inr None, w') /\
  ((listed w = [] /\ None = Some "No files found in the bucket." /\
    table w' = table w /\ statuses (calls_since w w') = []) \/
   (listed w <> [] /\ @None string = None /\
    exists u d,
      trigger sv Demo.event = inr (PyStr u, PyStr d) /\
      statuses (calls_since w w') = ["PROCESSING"; "READY"] /\
      docstatus w' (u, d) = Some "READY")).
Proof.
  intros sv w w'.
  assert (H1 : lambda_handler sv Demo.event w = (inr None, w'))
    by (vm_compute; reflexivity).
  split; [exact H1|].
  exact (normal_return_statuses sv Demo.event w None w' H1).
Defined.

(** C4 as stated fails: on an empty bucket the run returns without raising,
    and the document that was CREATED is never PROCESSING nor READY. *)
Lemma normal_return_without_status :
  let sv := Demo.services Demo.no_fault in
  let w := Demo.empty_bucket in
  let w' := Demo.after sv Demo.event w in
  lambda_handler sv Demo.event w =
    (inr (Some "No files found in the bucket."), w') /\
  docstatus w ("u1", "d1") = Some "CREATED" /\
  statuses (calls_since w w') = [] /\
  docstatus w' ("u1", "d1") = Some "CREATED" /\
  docstatus w' ("u1", "d1") <> Some "READY".
Proof. vm_compute. repeat split; discriminate. Qed.

(** A bucket that holds one text file and no PDF, with a builder that
    accepts the empty input and with one that does not; an empty bucket. *)
Lemma no_pdf_run_builds_from_nothing_witness :
  let sv := Demo.services Demo.no_fault in
  let w := Demo.no_pdf in
  (forall n, fault sv n = None) /\
  trigger sv Demo.event = inr (PyStr "u1", PyStr "d1") /\
  (forall n, fault Cases.strict n = None) /\
  trigger Cases.strict Demo.event = inr (PyStr "u1", PyStr "d1") /\
  listed w <> [] /\ pdf_keys (listed w) = [] /\
  (exists r w',
     lambda_handler sv Demo.event w = (r, w') /\
     fetched (calls_since w w') = [] /\
     embedded (calls_since w w') = [[]] /\
     r = inr None /\
     docstatus w' ("u1", "d1") = Some "READY" /\
     statuses (calls_since w w') = ["PROCESSING"; "READY"] /\
     bucket w' =
       s3_put (metadata_key "u1") "metadata"
         (s3_put (geometry_key "u1") "geometry" (bucket w))) /\
  (exists r w',
     lambda_handler Cases.strict Demo.event w = (r, w') /\
     fetched (calls_since w w') = [] /\
     embedded (calls_since w w') = [[]] /\
     r = inl IndexError /\
     docstatus w' ("u1", "d1") = Some "PROCESSING" /\
     statuses (calls_since w w') = ["PROCESSING"] /\
     bucket w' = bucket w) /\
  listed Demo.empty_bucket = [] /\
  lambda_handler sv Demo.event Demo.empty_bucket =
    (inr (Some "No files found in the bucket."),
     log ListObjectsV2 Demo.empty_bucket).
Proof.
  intros sv w.
  assert (H1 : forall n, fault sv n = None) by reflexivity.
  assert (H2 : trigger sv Demo.event = inr (PyStr "u1", PyStr "d1"))
    by (vm_compute; reflexivity).
  assert (H3 : forall n, fault Cases.strict n = None) by reflexivity.
  assert (H4 : trigger Cases.strict Demo.event = inr (PyStr "u1", PyStr "d1"))
    by (vm_compute; reflexivity).
  assert (H5 : listed w <> []) by (vm_compute; discriminate).
  assert (H6 : pdf_keys (listed w) = []) by (vm_compute; reflexivity).
  assert (H7 : listed Demo.empty_bucket = []) by reflexivity.
  repeat (split; [assumption|]). split.
  { exact (proj2 (no_pdf_run_builds_from_nothing sv Demo.event w "u1" "d1"
                    H1 H2) H5 H6). }
  split.
  { exact (proj2 (no_pdf_run_builds_from_nothing Cases.strict Demo.event w
                    "u1" "d1" H3 H4) H5 H6). }
  split; [exact H7|].
  exact (proj1 (no_pdf_run_builds_from_nothing sv Demo.event
                  Demo.empty_bucket "u1" "d1" H1 H2) H7).
Defined.

(** C5 as stated fails: on an empty bucket (no segment at all) with
    libraries that accept the empty input, the run builds nothing, stores
    no artifact, and the status stays CREATED instead of ending READY.  And
    on a bucket without PDF, with a builder that has no index for no
    vector, the run raises and the status stays PROCESSING. *)
Lemma empty_listing_never_ready :
  let sv := Demo.services Demo.no_fault in
  let w := Demo.empty_bucket in
  let w' := Demo.after sv Demo.event w in
  let v := Demo.no_pdf in
  let v' := Demo.after Cases.strict Demo.event v in
  listed w = [] /\
  lambda_handler sv Demo.event w =
    (inr (Some "No files found in the bucket."), w') /\
  calls_since w w' = [ListObjectsV2] /\
  bucket w' = [] /\
  docstatus w' ("u1", "d1") = Some "CREATED" /\
  docstatus w' ("u1", "d1") <> Some "READY" /\
  pdf_keys (listed v) = [] /\
  lambda_handler Cases.strict Demo.event v = (inl IndexError, v') /\
  bucket v' = bucket v /\
  docstatus v' ("u1", "d1") = Some "PROCESSING".
Proof. vm_compute. repeat split; discriminate. Qed.

(** A run without failure on the bucket of the two owners, and a run on an
    empty bucket. *)
Lemma listing_comes_first_witness :
  let sv := Demo.services Demo.no_fault in
  let w := Demo.two_owners in
  let w' := Demo.after sv Demo.event w in
  let v := Demo.empty_bucket in
  let v' := Demo.after sv Demo.event v in
  lambda_handler sv Demo.event w = (inr None, w') /\
  ((calls_since w w' = [ListObjectsV2] /\ table w' = table w) \/
   exists user_id document_id rest,
     listed w <> [] /\
     trigger sv Demo.event = inr (user_id, document_id) /\
     calls_since w w' =
       ListObjectsV2 :: UpdateItem user_id document_id "PROCESSING" :: rest /\
     existsb is_listing rest = false /\
     (existsb is_fetch rest = true ->
      exists u d,
        user_id = PyStr u /\ document_id = PyStr d /\
        (docstatus w' (u, d) = Some "PROCESSING" \/
         docstatus w' (u, d) = Some "READY"))) /\
  lambda_handler sv Demo.event v =
    (inr (Some "No files found in the bucket."), v') /\
  listed v = [] /\
  calls_since v v' = [ListObjectsV2] /\ table v' = table v.
Proof.
  intros sv w w' v v'.
  assert (H1 : lambda_handler sv Demo.event w = (inr None, w'))
    by (vm_compute; reflexivity).
  assert (H2 : lambda_handler sv Demo.event v =
                 (inr (Some "No files found in the bucket."), v'))
    by (vm_compute; reflexivity).
  assert (H3 : listed v = []) by reflexivity.
  split; [exact H1|].
  split; [exact (proj1 (listing_comes_first sv Demo.event w _ w' H1))|].
  split; [exact H2|]. split; [exact H3|].
  exact (proj2 (listing_comes_first sv Demo.event v _ v' H2) (or_introl H3)).
Defined.

(** C6 as stated fails: the listing is the first call of the run, made
    while the document is still CREATED; PROCESSING is stored after it.  On
    an empty bucket the listing is made and the status never leaves
    CREATED. *)
Lemma listing_precedes_processing :
  let sv := Demo.services Demo.no_fault in
  let w := Demo.two_owners in
  let w' := Demo.after sv Demo.event w in
  let v := Demo.empty_bucket in
  let v' := Demo.after sv Demo.event v in
  docstatus w ("u1", "d1") = Some "CREATED" /\
  take 2 (calls_since w w') =
    [ListObjectsV2; UpdateItem (PyStr "u1") (PyStr "d1") "PROCESSING"] /\
  docstatus v ("u1", "d1") = Some "CREATED" /\
  calls_since v v' = [ListObjectsV2] /\
  docstatus v' ("u1", "d1") = Some "CREATED".
Proof. vm_compute. repeat split. Qed.

(** A status write on a table that has the record, and a refused one. *)
Lemma set_doc_status_upserts_witness :
  let sv := Demo.services Demo.no_fault in
  let sv' := Demo.services (Demo.fault_at 0 (ClientError "Throttled")) in
  let w := Demo.two_owners in
  fault sv (length (trace w)) = None /\
  (exists w',
     set_doc_status sv (PyStr "u1") (PyStr "d1") "READY" w = (inr tt, w') /\
     table w' !! ("u1", "d1") =
       Some (<["docstatus" := "READY"]>
               (default ∅ (table w !! ("u1", "d1")))) /\
     docstatus w' ("u1", "d1") = Some "READY" /\
     forall k, k <> ("u1", "d1") -> table w' !! k = table w !! k) /\
  fault sv' (length (trace w)) = Some (ClientError "Throttled") /\
  set_doc_status sv' (PyStr "u1") (PyStr "d1") "READY" w =
    (inl (ClientError "Throttled"),
     log (UpdateItem (PyStr "u1") (PyStr "d1") "READY") w).
Proof.
  intros sv sv' w.
  assert (H1 : fault sv (length (trace w)) = None) by reflexivity.
  assert (H2 : fault sv' (length (trace w)) = Some (ClientError "Throttled"))
    by reflexivity.
  split; [exact H1|]. split.
  { exact (proj1 (set_doc_status_upserts sv "u1" "d1" "READY" w) H1). }
  split; [exact H2|].
  exact (proj2 (set_doc_status_upserts sv' "u1" "d1" "READY" w) _ H2).
Defined.

(** C7 as stated fails: on a table without the record the call returns
    without raising and the table then has a record with the status. *)
Lemma set_doc_status_creates_missing_record :
  let sv := Demo.services Demo.no_fault in
  let w := Demo.no_record in
  let w' := (set_doc_status sv (PyStr "u1") (PyStr "d1") "PROCESSING" w).2 in
  table w !! ("u1", "d1") = None /\
  set_doc_status sv (PyStr "u1") (PyStr "d1") "PROCESSING" w = (inr tt, w') /\
  table w' !! ("u1", "d1") = Some {[ "docstatus" := "PROCESSING" ]} /\
  docstatus w' ("u1", "d1") = Some "PROCESSING".
Proof. vm_compute. repeat split. Qed.


(** An empty bucket. *)
Lemma empty_listing_returns_at_once_witness :
  let sv := Demo.services Demo.no_fault in
  let w := Demo.empty_bucket in
  listed w = [] /\
  fault sv (length (trace w)) = None /\
  exists w',
    (forall event, lambda_handler sv event w =
       (inr (Some "No files found in the bucket."), w')) /\
    table w' = table w /\ bucket w' = bucket w /\ tmp w' = tmp w /\
    calls_since w w' = [ListObjectsV2].
Proof.
  intros sv w.
  assert (H1 : listed w = []) by reflexivity.
  assert (H2 : fault sv (length (trace w)) = None) by reflexivity.
  split; [exact H1|]. split; [exact H2|].
  exact (empty_listing_returns_at_once sv w H1 H2).
Defined.

(** An event of two records, the second of which does not decode. *)
Lemma only_first_record_counts_witness :
  let sv := Demo.services Demo.no_fault in
  let w := Demo.two_owners in
  let w' := Demo.after sv Demo.batch w in
  lambda_handler sv Demo.batch w = (inr None, w') /\
  UpdateItem (PyStr "u1") (PyStr "d1") "READY" ∈ calls_since w w' /\
  lambda_handler sv Demo.batch w = lambda_handler sv Demo.event w /\
  trigger sv Demo.event = inr (PyStr "u1", PyStr "d1").
Proof.
  intros sv w w'.
  assert (H1 : lambda_handler sv Demo.batch w = (inr None, w'))
    by (vm_compute; reflexivity).
  assert (H2 : UpdateItem (PyStr "u1") (PyStr "d1") "READY" ∈ calls_since w w').
  { vm_compute. repeat constructor. }
  split; [exact H1|]. split; [exact H2|].
  pose proof (only_first_record_counts sv
                {| body := "u1 d1" |} [{| body := "junk" |}] w) as [Ha Hb].
  split; [exact Ha|].
  exact (Hb _ w' _ _ _ H1 H2).
Defined.

(** * Further properties of the handler *)

Section Behaviour.
Context {Vec Index : Type}.
Variable sv : Services Vec Index.

Lemma bad_event_run event w e :
  listed w <> [] ->
  fault sv (length (trace w)) = None ->
  trigger sv event = inl e ->
  lambda_handler sv event w = (inl e, log ListObjectsV2 w).
Proof.
  intros Hne Hf Htrig.
  destruct (list_objects_v2_run sv w Hne Hf) as (contents & Hkeys & Hlist).
  unfold lambda_handler.
  rewrite (bind_run _ _ _ _ _ Hlist). cbn [Contents].
  destruct event as [|rec rest]; cbn in Htrig.
  { by injection Htrig as <-. }
  cbn [first_record]. rewrite bind_ret.
  destruct (json_loads sv (body rec)) as [e1|event_body].
  { by injection Htrig as <-. }
  rewrite bind_lift.
  destruct (getitem event_body "documentid") as [e1|did].
  { by injection Htrig as <-. }
  rewrite bind_lift.
  destruct (getitem event_body "user") as [e1|uid]; [|done].
  by injection Htrig as <-.
Qed.

(** X1. The calls of a run that returns [None].  Such a run has made, in
    this order and nothing else: the listing, the status write PROCESSING,
    one download per listed key whose lower-cased name ends in [.pdf] (in
    listing order, to the scratch path of its file name), one load per
    loader, one embedding call, one index build, the two writes of
    [save_local], the upload of [index.faiss], the upload of [index.pkl] and
    the status write READY: nine calls and two for each PDF key. *)
Theorem completed_run_call_sequence event w w' :
  lambda_handler sv event w = (inr None, w') ->
  exists u d texts,
    trigger sv event = inr (PyStr u, PyStr d) /\
    calls_since w w' =
      started u d ++ map fetch_call (pdf_keys (listed w)) ++
      build_calls (map scratch_path (pdf_keys (listed w))) texts ++
      publish_calls u d /\
    length (calls_since w w') = 9 + 2 * length (pdf_keys (listed w)).
Proof.
  intros H. apply lambda_handler_completed in H
    as (u & d & docs & vectors & index & _ & Htrig & _ & _ & _ & _ & _ & _ & Htr).
  apply calls_since_app in Htr.
  exists u, d, (map page_content (split_documents sv docs)). split; [done|].
  split; [done|]. rewrite Htr. unfold started, build_calls, publish_calls.
  rewrite !length_app, !length_map. cbn. lia.
Qed.

(** X2. What a completed run has stored.  In a run that returns [None] the
    documents were read from the scratch files the downloads left, their
    split chunks were embedded, the index was built from the chunks and the
    vectors, and the two halves of that very index are what the bucket
    holds under [<user>/index.faiss] and [<user>/index.pkl] and what the
    scratch directory holds under [/tmp/index.faiss] and [/tmp/index.pkl]
    when the run ends. *)
Theorem completed_run_stores_built_index event w w' :
  lambda_handler sv event w = (inr None, w') ->
  let files := staged (bucket w) (pdf_keys (listed w)) (tmp w) in
  let loaders := map scratch_path (pdf_keys (listed w)) in
  exists u d docs vectors index,
    trigger sv event = inr (PyStr u, PyStr d) /\
    read_all sv files loaders [] = inr docs /\
    embed_documents sv (map page_content (split_documents sv docs))
      = inr vectors /\
    faiss_build sv (split_documents sv docs) vectors = inr index /\
    s3_get (geometry_key u) (bucket w') = Some (serialize sv index).1 /\
    s3_get (metadata_key u) (bucket w') = Some (serialize sv index).2 /\
    tmp w' !! "/tmp/index.faiss" = Some (serialize sv index).1 /\
    tmp w' !! "/tmp/index.pkl" = Some (serialize sv index).2.
Proof.
  intros H files loaders. apply lambda_handler_completed in H
    as (u & d & docs & vectors & index & _ & Htrig & Hdocs & Hv & Hi & _ &
        Hb & Htmp & _).
  exists u, d, docs, vectors, index. repeat (split; [done|]).
  rewrite Hb, Htmp. split; [|split; [apply s3_get_put_eq|]].
  - rewrite s3_get_put_ne by apply artifact_keys_differ. apply s3_get_put_eq.
  - split; [|by rewrite lookup_insert_eq].
    rewrite lookup_insert_ne by done. by rewrite lookup_insert_eq.
Qed.

(** X3. A run that nothing refuses completes.  When no external call is
    refused, the listing is not empty, the first record of the event
    decodes to a user and a document id, the staged PDFs parse, and the
    embedder and the index builder accept their input, the handler returns
    [None]; the document's status is then READY and both halves of the
    index are stored under the user's keys. *)
Theorem accepted_run_completes event w u d docs vectors index :
  (forall n, fault sv n = None) ->
  listed w <> [] ->
  trigger sv event = inr (PyStr u, PyStr d) ->
  read_all sv (staged (bucket w) (pdf_keys (listed w)) (tmp w))
    (map scratch_path (pdf_keys (listed w))) [] = inr docs ->
  embed_documents sv (map page_content (split_documents sv docs))
    = inr vectors ->
  faiss_build sv (split_documents sv docs) vectors = inr index ->
  exists w',
    lambda_handler sv event w = (inr None, w') /\
    docstatus w' (u, d) = Some "READY" /\
    s3_get (geometry_key u) (bucket w') = Some (serialize sv index).1 /\
    s3_get (metadata_key u) (bucket w') = Some (serialize sv index).2.
Proof.
  intros Hf Hne Htrig Hdocs Hv Hi.
  destruct (lambda_handler_run sv event w u d docs vectors index
              Hf Hne Htrig Hdocs Hv Hi) as [w' Hrun].
  exists w'. split; [done|].
  apply lambda_handler_completed in Hrun
    as (u' & d' & docs' & vectors' & index' & _ & Htrig' & Hdocs' & Hv' & Hi' &
        Ht & Hb & _).
  assert (u' = u /\ d' = d) as [-> ->] by (split; congruence).
  assert (docs' = docs) as -> by congruence.
  assert (vectors' = vectors) as -> by congruence.
  assert (index' = index) as -> by congruence.
  split; [by eapply docstatus_set|]. rewrite Hb.
  split; [|apply s3_get_put_eq].
  rewrite s3_get_put_ne by apply artifact_keys_differ. apply s3_get_put_eq.
Qed.

(** X4. The handler writes one attribute of one record.  Whatever the
    outcome of a run, no record of the table is deleted, and every
    attribute of every record keeps its value, except [docstatus] of the
    record named by the first record of the event. *)
Theorem other_records_untouched event w r w' :
  lambda_handler sv event w = (r, w') ->
  (forall k, is_Some (table w !! k) -> is_Some (table w' !! k)) /\
  (forall k a,
     (forall u d, trigger sv event = inr (PyStr u, PyStr d) ->
        k = (u, d) -> a <> "docstatus") ->
     attribute w' k a = attribute w k a).
Proof.
  intros H. unfold attribute. run_cases H; cbn [table log].
  1-4: done.
  all: rewrite Htable; split;
    [intros k Hk; repeat apply set_docstatus_keeps; exact Hk|].
  all: intros k a Hka; rewrite ?set_docstatus_attribute; [done|..].
  all: by eapply Hka.
Qed.

(** X5. The handler never alters a source object.  Whatever the outcome of
    a run, every object of the bucket other than [<user>/index.faiss] and
    [<user>/index.pkl] of the triggering user reads as before; in
    particular every object whose key counts as a PDF, of any user, is left
    as it was. *)
Theorem source_objects_untouched event w r w' :
  lambda_handler sv event w = (r, w') ->
  (forall key,
     (forall u d, trigger sv event = inr (PyStr u, PyStr d) ->
        key <> geometry_key u /\ key <> metadata_key u) ->
     s3_get key (bucket w') = s3_get key (bucket w)) /\
  (forall key, is_pdf key = true ->
     s3_get key (bucket w') = s3_get key (bucket w)).
Proof.
  intros H.
  assert (Hgen : forall key,
     (forall u d, trigger sv event = inr (PyStr u, PyStr d) ->
        key <> geometry_key u /\ key <> metadata_key u) ->
     s3_get key (bucket w') = s3_get key (bucket w)).
  { intros key Hkey. run_cases H; cbn [bucket log]; try done.
    all: try by rewrite Hbucket.
    all: rewrite Hbucket; rewrite ?s3_get_put_ne; [done|..].
    all: by eapply Hkey. }
  split; [exact Hgen|]. intros key Hpdf. apply Hgen. intros u d _.
  split; intros ->; revert Hpdf; rewrite is_pdf_file_name.
  - unfold geometry_key. by rewrite file_name_full_app.
  - unfold metadata_key. by rewrite file_name_full_app.
Qed.

(** X6. The scratch directory only grows.  The handler has no clean-up:
    every file that is in [/tmp] when a run starts is still there when the
    run ends, whatever the outcome (its content may have been replaced by
    a download to the same path). *)
Theorem scratch_files_only_accumulate event w r w' p :
  lambda_handler sv event w = (r, w') ->
  is_Some (tmp w !! p) -> is_Some (tmp w' !! p).
Proof.
  intros H. pose proof (always_lambda_handler sv event w) as Hk.
  rewrite H in Hk. apply Hk.
Qed.

(** X7. A message that does not decode stops the run before any write.
    On a listing that is not empty: an event without records raises
    [IndexError]; a body that is not JSON raises the decoder's error; a
    body that decodes to something other than an object raises [TypeError];
    an object without [documentid], or with it but without [user], raises
    [KeyError] of the missing name.  In each case the listing is the only
    call made: no status is written and nothing is downloaded, so the
    document stays in the status it had. *)
Theorem undecodable_event_raises_before_any_write rec rest w :
  listed w <> [] ->
  fault sv (length (trace w)) = None ->
  lambda_handler sv [] w = (inl IndexError, log ListObjectsV2 w) /\
  (forall e, json_loads sv (body rec) = inl e ->
     lambda_handler sv (rec :: rest) w = (inl e, log ListObjectsV2 w)) /\
  (json_loads sv (body rec) = inr DOther ->
     lambda_handler sv (rec :: rest) w = (inl TypeError, log ListObjectsV2 w)) /\
  (forall items, json_loads sv (body rec) = inr (DDict items) ->
     items !! "documentid" = None ->
     lambda_handler sv (rec :: rest) w =
       (inl (KeyError "documentid"), log ListObjectsV2 w)) /\
  (forall items, json_loads sv (body rec) = inr (DDict items) ->
     is_Some (items !! "documentid") -> items !! "user" = None ->
     lambda_handler sv (rec :: rest) w =
       (inl (KeyError "user"), log ListObjectsV2 w)).
Proof.
  intros Hne Hf. split; [by apply bad_event_run|].
  split; [|split; [|split]].
  - intros e He. apply bad_event_run; [done..|]. cbn. by rewrite He.
  - intros He. apply bad_event_run; [done..|]. cbn. by rewrite He.
  - intros items He Hd. apply bad_event_run; [done..|]. cbn.
    rewrite He. cbn. by rewrite Hd.
  - intros items He [did Hd] Hu. apply bad_event_run; [done..|]. cbn.
    rewrite He. cbn. by rewrite Hd, Hu.
Qed.

(** X10. Of two status writes the last one wins.  Two accepted calls of
    [set_doc_status] for the same document leave the table as the second
    call alone would have: the status is the second one, and the other
    attributes of the record are those it had before. *)
Theorem set_doc_status_last_write_wins u d s1 s2 w :
  fault sv (length (trace w)) = None ->
  fault sv (S (length (trace w))) = None ->
  exists w2,
    (set_doc_status sv (PyStr u) (PyStr d) s1;;;
     set_doc_status sv (PyStr u) (PyStr d) s2) w = (inr tt, w2) /\
    table w2 = set_docstatus (u, d) s2 (table w) /\
    docstatus w2 (u, d) = Some s2 /\
    (forall a, a <> "docstatus" -> attribute w2 (u, d) a = attribute w (u, d) a).
Proof.
  intros Hf1 Hf2. unfold set_doc_status.
  rewrite (bind_run _ _ _ _ _ (update_item_run sv _ _ _ _ Hf1)).
  rewrite update_item_run.
  2: { cbn. rewrite length_app. cbn. by rewrite Nat.add_1_r. }
  eexists. split; [done|]. cbn [table set_table log].
  rewrite set_docstatus_twice. split; [done|].
  split; [by eapply docstatus_set|]. intros a Ha. unfold attribute. cbn.
  by apply set_docstatus_attribute.
Qed.

(** X11. READY is the last thing a run asks for.  The status writes of any
    run, whatever its outcome, are a prefix of PROCESSING, READY; and a run
    that asked for READY made that request as its very last call, right
    after the upload of [index.faiss] and the upload of [index.pkl], in
    this order: the status never announces an index that has not been
    uploaded. *)
Theorem ready_is_asked_last event w r w' :
  lambda_handler sv event w = (r, w') ->
  statuses (calls_since w w') `prefix_of` ["PROCESSING"; "READY"] /\
  ("READY" ∈ statuses (calls_since w w') ->
   exists u d before,
     trigger sv event = inr (PyStr u, PyStr d) /\
     calls_since w w' = before ++ publish_calls u d).
Proof.
  assert (Hno : forall l : list string,
            l = [] \/ l = ["PROCESSING"] -> "READY" ∉ l).
  { intros l [-> | ->] Hin; [by apply elem_of_nil in Hin|].
    by apply list_elem_of_singleton in Hin. }
  assert (Hstat : forall u d ks cs tl,
            forallb is_build cs = true ->
            statuses (started u d ++ map fetch_call ks ++ cs ++ tl) =
            "PROCESSING" :: statuses tl).
  { intros u d ks cs tl Hcs. unfold started.
    rewrite !statuses_app, statuses_fetch_calls, (statuses_build cs Hcs).
    done. }
  intros H. run_cases H.
  - split; [by exists ["PROCESSING"; "READY"]|]. intros Hin. by apply Hno in Hin; [|left].
  - split; [by exists ["PROCESSING"; "READY"]|]. intros Hin. by apply Hno in Hin; [|left].
  - split; [by exists ["PROCESSING"; "READY"]|]. intros Hin. by apply Hno in Hin; [|left].
  - split; [by exists ["READY"]|]. intros Hin. by apply Hno in Hin; [|right].
  - rewrite Hcalls.
    replace (map fetch_call (take n (pdf_keys (listed w))))
      with (map fetch_call (take n (pdf_keys (listed w))) ++ [] ++ [])
      by by rewrite !app_nil_r.
    rewrite (Hstat u d _ [] []) by done.
    split; [by exists ["READY"]|]. intros Hin. by apply Hno in Hin; [|right].
  - rewrite Hcalls.
    replace cs with (cs ++ []) by by rewrite app_nil_r.
    rewrite (Hstat u d _ cs []) by done.
    split; [by exists ["READY"]|]. intros Hin. by apply Hno in Hin; [|right].
  - rewrite Hcalls, (Hstat u d _ cs _) by done.
    split; [by exists ["READY"]|]. intros Hin. by apply Hno in Hin; [|right].
  - rewrite Hcalls, (Hstat u d _ cs _) by done.
    split; [by exists ["READY"]|]. intros Hin. by apply Hno in Hin; [|right].
  - rewrite Hcalls, (Hstat u d _ cs _) by done.
    split; [by exists []|]. intros _.
    exists u, d, (started u d ++ map fetch_call (pdf_keys (listed w)) ++ cs).
    split; [done|]. unfold publish_calls. by rewrite <- !app_assoc.
  - rewrite Hcalls, (Hstat u d _ cs _) by done.
    split; [by exists []|]. intros _.
    exists u, d, (started u d ++ map fetch_call (pdf_keys (listed w)) ++ cs).
    split; [done|]. unfold publish_calls. by rewrite <- !app_assoc.
Qed.

(** X13. The table after a completed run.  A run that returns [None]
    leaves the table as one write of READY to the triggering record would
    have left it: the intermediate PROCESSING is overwritten and no other
    trace of the run remains in the table. *)
Theorem completed_run_leaves_only_ready event w w' :
  lambda_handler sv event w = (inr None, w') ->
  exists u d,
    trigger sv event = inr (PyStr u, PyStr d) /\
    table w' = set_docstatus (u, d) "READY" (table w).
Proof.
  intros H. apply lambda_handler_completed in H
    as (u & d & _ & _ & _ & _ & Htrig & _ & _ & _ & Ht & _).
  exists u, d. split; [done|]. by rewrite Ht, set_docstatus_twice.
Qed.

End Behaviour.

(** X8. The scratch file name of a key.  [key.split('/')[-1]] is the key
    itself or what follows a slash of the key, and contains no slash: each
    download lands directly in [/tmp], never in a sub-directory of it. *)
Theorem file_name_is_slash_free_suffix key :
  (key = file_name_full key \/
   exists dir, key = dir +:+ String "/" (file_name_full key)) /\
  forall c, c ∈ list_ascii_of_string (file_name_full key) -> c <> "/"%char.
Proof.
  split.
  - unfold file_name_full. pose proof (split_last_suffix key) as H.
    destruct (split "/" key) as [|h [|h2 t]]; [by right|by left|by right].
  - unfold file_name_full.
    apply (last_Forall
             (fun part => forall c, c ∈ list_ascii_of_string part -> c <> "/"%char)).
    + apply split_nonempty.
    + apply split_sep_free.
Qed.

(** ** A second run *)

Section Rerun.
Context {Vec Index Vec2 Index2 : Type}.
Variable sv : Services Vec Index.
Variable sv2 : Services Vec2 Index2.

(** X12. A later run finds the same sources.  After a run that returned
    [None], and while the bucket fits one page of the listing, the listing
    holds the same PDF keys with the same bytes: the two index files the run
    stored are not among them.  A later invocation, whatever its event and
    whatever its libraries return, fetches a prefix of the keys the first
    run fetched, in the same order, all of them when it returns [None], and
    its loaders find at their paths the bytes the loaders of the first run
    found. *)
Theorem later_run_finds_same_sources event w w1 event2 r2 w2 :
  length (bucket w) + 2 <= MaxKeys ->
  lambda_handler sv event w = (inr None, w1) ->
  lambda_handler sv2 event2 w1 = (r2, w2) ->
  pdf_keys (listed w1) = pdf_keys (listed w) /\
  (forall k, k ∈ pdf_keys (listed w) ->
     s3_get k (bucket w1) = s3_get k (bucket w)) /\
  fetched (calls_since w1 w2) `prefix_of` fetched (calls_since w w1) /\
  (r2 = inr None -> fetched (calls_since w1 w2) = fetched (calls_since w w1)) /\
  (forall k, k ∈ pdf_keys (listed w) ->
     staged (bucket w1) (pdf_keys (listed w1)) (tmp w1) !! scratch_path k =
     staged (bucket w) (pdf_keys (listed w)) (tmp w) !! scratch_path k).
Proof.
  intros Hlen Hrun Hrun2.
  apply lambda_handler_completed in Hrun
    as (u & d & docs & vectors & index & Hne & Htrig & Hdocs & Hv & Hi &
        Ht & Hb & Htmp & Htr).
  destruct (artifact_keys_not_pdf u) as [Hg Hm].
  assert (Hall : forall objs : list (string * bytes),
            length objs <= MaxKeys -> take MaxKeys objs = objs).
  { intros objs Hl. by apply take_ge. }
  assert (Hl1 : length (bucket w1) <= MaxKeys).
  { rewrite Hb.
    pose proof (s3_put_length (metadata_key u) (serialize sv index).2
                  (s3_put (geometry_key u) (serialize sv index).1 (bucket w))).
    pose proof (s3_put_length (geometry_key u) (serialize sv index).1 (bucket w)).
    lia. }
  assert (Hpdfs : pdf_keys (listed w1) = pdf_keys (listed w)).
  { unfold listed. rewrite (Hall _ Hl1), (Hall (bucket w)) by lia.
    by rewrite Hb, !pdf_keys_s3_put. }
  assert (Hsame : forall k, k ∈ pdf_keys (listed w) ->
            s3_get k (bucket w1) = s3_get k (bucket w)).
  { intros k [_ Hk]%list_elem_of_In%filter_In.
    by rewrite Hb, !s3_get_put_other_kind. }
  assert (Hfirst : fetched (calls_since w w1) = pdf_keys (listed w)).
  { apply calls_since_app in Htr. rewrite Htr.
    unfold started, build_calls, publish_calls.
    rewrite !fetched_app, !fetched_fetch_calls. cbn.
    rewrite app_nil_r. replace (fetched (map LoaderLoad _)) with (@nil string).
    - by rewrite app_nil_r.
    - symmetry. apply fetched_build. apply forallb_forall.
      by intros c (l & <- & _)%in_map_iff. }
  split; [done|]. split; [done|]. rewrite Hfirst, <- Hpdfs.
  split; [|split].
  - run_cases Hrun2.
    1-4: by apply prefix_nil.
    all: match goal with Hc : calls_since _ _ = _ |- _ => rewrite Hc end.
    all: calls_simpl; rewrite ?app_nil_r; try done.
    eexists. symmetry. apply take_drop.
  - intros ->. run_cases Hrun2.
    match goal with Hc : calls_since _ _ = _ |- _ => rewrite Hc end.
    calls_simpl. by rewrite ?app_nil_r.
  - intros k Hk. rewrite Hpdfs in *.
    apply staged_lookup_ext; [exact Hsame|]. right. exists k.
    split; [done|]. split; [done|]. rewrite (Hsame k Hk).
    apply list_elem_of_In, filter_In in Hk as [Hk%list_elem_of_In _].
    by eapply s3_get_listed.
Qed.

End Rerun.

(** X9. The index files are never taken for sources.  Whether a key is
    fetched depends on its file name alone, and the two keys the handler
    uploads to, [<user>/index.faiss] and [<user>/index.pkl], are not PDF
    keys for any user: the listing of a later run, which covers the whole
    bucket, never feeds an index back into the pipeline. *)
Theorem index_files_are_never_sources key u :
  is_pdf key = is_pdf (file_name_full key) /\
  is_pdf (geometry_key u) = false /\
  is_pdf (metadata_key u) = false.
Proof. split; [apply is_pdf_file_name|apply artifact_keys_not_pdf]. Qed.

(** ** Instances on a library of two PDFs *)

(** A run that completes on the library of two PDFs. *)
Lemma completed_run_call_sequence_witness :
  let sv := Cases.services in
  let w := Cases.library in
  let w' := Cases.after Cases.event w in
  lambda_handler sv Cases.event w = (inr None, w') /\
  pdf_keys (listed w) = ["u1/a.pdf"; "u1/b.PDF"] /\
  exists u d texts,
    trigger sv Cases.event = inr (PyStr u, PyStr d) /\
    calls_since w w' =
      started u d ++ map fetch_call (pdf_keys (listed w)) ++
      build_calls (map scratch_path (pdf_keys (listed w))) texts ++
      publish_calls u d /\
    length (calls_since w w') = 9 + 2 * length (pdf_keys (listed w)).
Proof.
  intros sv w w'.
  assert (H1 : lambda_handler sv Cases.event w = (inr None, w'))
    by (vm_compute; reflexivity).
  split; [exact H1|]. split; [vm_compute; reflexivity|].
  exact (completed_run_call_sequence sv Cases.event w w' H1).
Defined.

Lemma completed_run_stores_built_index_witness :
  let sv := Cases.services in
  let w := Cases.library in
  let w' := Cases.after Cases.event w in
  let files := staged (bucket w) (pdf_keys (listed w)) (tmp w) in
  let loaders := map scratch_path (pdf_keys (listed w)) in
  lambda_handler sv Cases.event w = (inr None, w') /\
  exists u d docs vectors index,
    trigger sv Cases.event = inr (PyStr u, PyStr d) /\
    read_all sv files loaders [] = inr docs /\
    embed_documents sv (map page_content (split_documents sv docs))
      = inr vectors /\
    faiss_build sv (split_documents sv docs) vectors = inr index /\
    s3_get (geometry_key u) (bucket w') = Some (serialize sv index).1 /\
    s3_get (metadata_key u) (bucket w') = Some (serialize sv index).2 /\
    tmp w' !! "/tmp/index.faiss" = Some (serialize sv index).1 /\
    tmp w' !! "/tmp/index.pkl" = Some (serialize sv index).2.
Proof.
  intros sv w w' files loaders.
  assert (H1 : lambda_handler sv Cases.event w = (inr None, w'))
    by (vm_compute; reflexivity).
  split; [exact H1|].
  exact (completed_run_stores_built_index sv Cases.event w w' H1).
Defined.

Lemma accepted_run_completes_witness :
  let sv := Cases.services in
  let w := Cases.library in
  let docs :=
    [ {| page_content := "first"; source := "/tmp/a.pdf"; page := 0 |};
      {| page_content := "second"; source := "/tmp/b.PDF"; page := 0 |} ] in
  let vectors := [[5]; [6]] in
  let index := zip docs vectors in
  (forall n, fault sv n = None) /\
  listed w <> [] /\
  trigger sv Cases.event = inr (PyStr "u1", PyStr "d1") /\
  read_all sv (staged (bucket w) (pdf_keys (listed w)) (tmp w))
    (map scratch_path (pdf_keys (listed w))) [] = inr docs /\
  embed_documents sv (map page_content (split_documents sv docs))
    = inr vectors /\
  faiss_build sv (split_documents sv docs) vectors = inr index /\
  exists w',
    lambda_handler sv Cases.event w = (inr None, w') /\
    docstatus w' ("u1", "d1") = Some "READY" /\
    s3_get (geometry_key "u1") (bucket w') = Some (serialize sv index).1 /\
    s3_get (metadata_key "u1") (bucket w') = Some (serialize sv index).2.
Proof.
  intros sv w docs vectors index.
  assert (H1 : forall n, fault sv n = None) by reflexivity.
  assert (H2 : listed w <> []) by (vm_compute; discriminate).
  assert (H3 : trigger sv Cases.event = inr (PyStr "u1", PyStr "d1"))
    by (vm_compute; reflexivity).
  assert (H4 : read_all sv (staged (bucket w) (pdf_keys (listed w)) (tmp w))
                 (map scratch_path (pdf_keys (listed w))) [] = inr docs)
    by (vm_compute; reflexivity).
  assert (H5 : embed_documents sv (map page_content (split_documents sv docs))
               = inr vectors) by reflexivity.
  assert (H6 : faiss_build sv (split_documents sv docs) vectors = inr index)
    by reflexivity.
  repeat (split; [assumption|]).
  exact (accepted_run_completes sv Cases.event w "u1" "d1" docs vectors index
           H1 H2 H3 H4 H5 H6).
Defined.

Lemma other_records_untouched_witness :
  let sv := Cases.services in
  let w := Cases.library in
  let w' := Cases.after Cases.event w in
  lambda_handler sv Cases.event w = (inr None, w') /\
  attribute w ("u1", "d1") "filename" = Some "a.pdf" /\
  attribute w' ("u1", "d1") "filename" = attribute w ("u1", "d1") "filename" /\
  attribute w ("u2", "d7") "docstatus" = Some "READY" /\
  attribute w' ("u2", "d7") "docstatus" = attribute w ("u2", "d7") "docstatus" /\
  (forall k, is_Some (table w !! k) -> is_Some (table w' !! k)).
Proof.
  intros sv w w'.
  assert (H1 : lambda_handler sv Cases.event w = (inr None, w'))
    by (vm_compute; reflexivity).
  assert (H2 : trigger sv Cases.event = inr (PyStr "u1", PyStr "d1"))
    by (vm_compute; reflexivity).
  destruct (other_records_untouched sv Cases.event w _ w' H1) as [Ha Hb].
  split; [exact H1|]. split; [vm_compute; reflexivity|]. split.
  { apply Hb. intros u d _ _. discriminate. }
  split; [vm_compute; reflexivity|]. split; [|exact Ha].
  apply Hb. intros u d Ht Hk. rewrite H2 in Ht. injection Ht as <- <-.
  discriminate Hk.
Defined.

Lemma source_objects_untouched_witness :
  let sv := Cases.services in
  let w := Cases.library in
  let w' := Cases.after Cases.event w in
  lambda_handler sv Cases.event w = (inr None, w') /\
  is_pdf "u1/b.PDF" = true /\
  s3_get "u1/b.PDF" (bucket w') = s3_get "u1/b.PDF" (bucket w) /\
  s3_get "u1/notes.txt" (bucket w') = s3_get "u1/notes.txt" (bucket w).
Proof.
  intros sv w w'.
  assert (H1 : lambda_handler sv Cases.event w = (inr None, w'))
    by (vm_compute; reflexivity).
  assert (H2 : is_pdf "u1/b.PDF" = true) by reflexivity.
  assert (H3 : trigger sv Cases.event = inr (PyStr "u1", PyStr "d1"))
    by (vm_compute; reflexivity).
  destruct (source_objects_untouched sv Cases.event w _ w' H1) as [Ha Hb].
  split; [exact H1|]. split; [exact H2|]. split; [exact (Hb _ H2)|].
  apply Ha. intros u d Ht. rewrite H3 in Ht. injection Ht as <- <-.
  split; vm_compute; discriminate.
Defined.

Lemma scratch_files_only_accumulate_witness :
  let sv := Cases.services in
  let w := Cases.library in
  let w' := Cases.after Cases.event w in
  lambda_handler sv Cases.event w = (inr None, w') /\
  is_Some (tmp w !! "/tmp/old.bin") /\
  is_Some (tmp w' !! "/tmp/old.bin").
Proof.
  intros sv w w'.
  assert (H1 : lambda_handler sv Cases.event w = (inr None, w'))
    by (vm_compute; reflexivity).
  assert (H2 : is_Some (tmp w !! "/tmp/old.bin"))
    by (vm_compute; eexists; reflexivity).
  split; [exact H1|]. split; [exact H2|].
  exact (scratch_files_only_accumulate sv Cases.event w _ w' "/tmp/old.bin"
           H1 H2).
Defined.

Lemma undecodable_event_raises_before_any_write_witness :
  let sv := Cases.services in
  let w := Cases.library in
  let stop (body : string) (e : exn) :=
    lambda_handler sv [{| body := body |}] w = (inl e, log ListObjectsV2 w) in
  listed w <> [] /\
  fault sv (length (trace w)) = None /\
  lambda_handler sv [] w = (inl IndexError, log ListObjectsV2 w) /\
  stop "not json" JSONDecodeError /\
  stop "a list" TypeError /\
  stop "empty object" (KeyError "documentid") /\
  stop "only d1" (KeyError "user").
Proof.
  intros sv w stop.
  assert (H1 : listed w <> []) by (vm_compute; discriminate).
  assert (H2 : fault sv (length (trace w)) = None) by reflexivity.
  split; [exact H1|]. split; [exact H2|]. unfold stop.
  split.
  { exact (proj1 (undecodable_event_raises_before_any_write sv
                    {| body := "not json" |} [] w H1 H2)). }
  split.
  { exact (proj1 (proj2 (undecodable_event_raises_before_any_write sv
                    {| body := "not json" |} [] w H1 H2)) _ eq_refl). }
  split.
  { exact (proj1 (proj2 (proj2 (undecodable_event_raises_before_any_write sv
                    {| body := "a list" |} [] w H1 H2))) eq_refl). }
  split.
  { exact (proj1 (proj2 (proj2 (proj2
             (undecodable_event_raises_before_any_write sv
                {| body := "empty object" |} [] w H1 H2)))) ∅ eq_refl eq_refl). }
  refine (proj2 (proj2 (proj2 (proj2
            (undecodable_event_raises_before_any_write sv
               {| body := "only d1" |} [] w H1 H2))))
            (<["documentid" := PyStr "d1"]> ∅) eq_refl _ _).
  - vm_compute. eexists. reflexivity.
  - vm_compute. reflexivity.
Defined.

Lemma set_doc_status_last_write_wins_witness :
  let sv := Cases.services in
  let w := Cases.library in
  fault sv (length (trace w)) = None /\
  fault sv (S (length (trace w))) = None /\
  exists w2,
    (set_doc_status sv (PyStr "u1") (PyStr "d1") "PROCESSING";;;
     set_doc_status sv (PyStr "u1") (PyStr "d1") "READY") w = (inr tt, w2) /\
    table w2 = set_docstatus ("u1", "d1") "READY" (table w) /\
    docstatus w2 ("u1", "d1") = Some "READY" /\
    (forall a, a <> "docstatus" ->
       attribute w2 ("u1", "d1") a = attribute w ("u1", "d1") a).
Proof.
  intros sv w.
  assert (H1 : fault sv (length (trace w)) = None) by reflexivity.
  assert (H2 : fault sv (S (length (trace w))) = None) by reflexivity.
  split; [exact H1|]. split; [exact H2|].
  exact (set_doc_status_last_write_wins sv "u1" "d1" "PROCESSING" "READY" w
           H1 H2).
Defined.

Lemma ready_is_asked_last_witness :
  let sv := Cases.services in
  let w := Cases.library in
  let w' := Cases.after Cases.event w in
  lambda_handler sv Cases.event w = (inr None, w') /\
  statuses (calls_since w w') `prefix_of` ["PROCESSING"; "READY"] /\
  "READY" ∈ statuses (calls_since w w') /\
  exists u d before,
    trigger sv Cases.event = inr (PyStr u, PyStr d) /\
    calls_since w w' = before ++ publish_calls u d.
Proof.
  intros sv w w'.
  assert (H1 : lambda_handler sv Cases.event w = (inr None, w'))
    by (vm_compute; reflexivity).
  assert (H2 : "READY" ∈ statuses (calls_since w w')).
  { vm_compute. repeat constructor. }
  destruct (ready_is_asked_last sv Cases.event w _ w' H1) as [Ha Hb].
  split; [exact H1|]. split; [exact Ha|]. split; [exact H2|].
  exact (Hb H2).
Defined.

(** A later run, with a builder that refuses nothing but the empty input. *)
Lemma later_run_finds_same_sources_witness :
  let sv := Cases.services in
  let sv2 := Cases.strict in
  let w := Cases.library in
  let w1 := Cases.after Cases.event w in
  let r2 := (lambda_handler sv2 Cases.event w1).1 in
  let w2 := (lambda_handler sv2 Cases.event w1).2 in
  length (bucket w) + 2 <= MaxKeys /\
  lambda_handler sv Cases.event w = (inr None, w1) /\
  lambda_handler sv2 Cases.event w1 = (r2, w2) /\
  pdf_keys (listed w1) = pdf_keys (listed w) /\
  (forall k, k ∈ pdf_keys (listed w) ->
     s3_get k (bucket w1) = s3_get k (bucket w)) /\
  fetched (calls_since w1 w2) `prefix_of` fetched (calls_since w w1) /\
  (r2 = inr None -> fetched (calls_since w1 w2) = fetched (calls_since w w1)) /\
  (forall k, k ∈ pdf_keys (listed w) ->
     staged (bucket w1) (pdf_keys (listed w1)) (tmp w1) !! scratch_path k =
     staged (bucket w) (pdf_keys (listed w)) (tmp w) !! scratch_path k).
Proof.
  intros sv sv2 w w1 r2 w2.
  assert (H1 : length (bucket w) + 2 <= MaxKeys).
  { unfold MaxKeys. cbn. lia. }
  assert (H2 : lambda_handler sv Cases.event w = (inr None, w1))
    by (vm_compute; reflexivity).
  assert (H3 : lambda_handler sv2 Cases.event w1 = (r2, w2))
    by (vm_compute; reflexivity).
  split; [exact H1|]. split; [exact H2|]. split; [exact H3|].
  exact (later_run_finds_same_sources sv sv2 Cases.event w w1 Cases.event r2 w2
           H1 H2 H3).
Defined.

Lemma completed_run_leaves_only_ready_witness :
  let sv := Cases.services in
  let w := Cases.library in
  let w' := Cases.after Cases.event w in
  lambda_handler sv Cases.event w = (inr None, w') /\
  exists u d,
    trigger sv Cases.event = inr (PyStr u, PyStr d) /\
    table w' = set_docstatus (u, d) "READY" (table w).
Proof.
  intros sv w w'.
  assert (H1 : lambda_handler sv Cases.event w = (inr None, w'))
    by (vm_compute; reflexivity).
  split; [exact H1|].
  exact (completed_run_leaves_only_ready sv Cases.event w w' H1).
Defined.
